(** * Dream Weaver: a shallow embedding of the journal's data operations

    The development follows the JavaScript modules of the application:
    - [Js]        the fragment of the JavaScript runtime the code relies on
                  (strings, JSON values, property enumeration order, the
                  stable [Array.prototype.sort]);
    - [Runtime]   the world the handlers run in (authentication state,
                  document store, clock, scripted outcomes of the remote
                  calls) and the state-and-exception monad of the handlers;
    - [Dreams]    dreams-module.js;
    - [Reality]   reality-module.js (daily events);
    - [Search]    search-module.js;
    - [Stats]     stats-module.js;
    - [Buttons], [Details], [AnalysisTab], [SingleAnalysis]
                  the click handlers and views of dreams-module.js and
                  reality-module.js that are not data operations.

    Strings are held as their UTF-8 bytes; [trim] and [toLowerCase] are
    those of ECMAScript, on every character of Unicode. *)

From Stdlib Require Import ZArith List String Ascii Bool Lia Permutation.
From Stdlib Require Import Sorting.Sorted.
From stdpp Require Import base option list functions gmap strings sorting.

Set Warnings "-register-all".

Local Open Scope string_scope.
Local Open Scope Z_scope.

(* ===================================================================== *)
(** * The JavaScript fragment                                            *)
(* ===================================================================== *)

Module Js.

(** ** Strings

    A JavaScript string is a sequence of UTF-16 code units.  It is held
    here as the bytes of its UTF-8 form, the form of the source files and
    of the literals below: a code point below U+10000 is one code unit of
    the string, any other a pair of surrogates.  Concatenation, equality,
    [includes] and the split on [/[^a-z0-9]+/] are the same on both forms;
    [trim], [toLowerCase], [length] and [substring] read the characters.
    An unpaired surrogate, which [substring] can leave behind, is written
    as the three bytes UTF-8 would give to its code. *)

Definition code (c : ascii) : nat := nat_of_ascii c.

Definition isLowerAlpha (c : ascii) : bool :=
  (97 <=? code c)%nat && (code c <=? 122)%nat.

Definition isDigit (c : ascii) : bool :=
  (48 <=? code c)%nat && (code c <=? 57)%nat.

(** The class [[a-z0-9]] of the tokenizer's regular expression. *)
Definition isAlnumLower (c : ascii) : bool := isLowerAlpha c || isDigit c.

(** *** Characters *)

Definition byte (n : N) : ascii := ascii_of_N n.

(** The bytes of a code point. *)
Definition utf8 (c : N) : string :=
  (if c <? 128 then String (byte c) ""
   else if c <? 2048 then
     String (byte (192 + c / 64)) (String (byte (128 + c mod 64)) "")
   else if c <? 65536 then
     String (byte (224 + c / 4096))
       (String (byte (128 + (c / 64) mod 64)) (String (byte (128 + c mod 64)) ""))
   else
     String (byte (240 + c / 262144))
       (String (byte (128 + (c / 4096) mod 64))
          (String (byte (128 + (c / 64) mod 64))
             (String (byte (128 + c mod 64)) ""))))%N.

Definition continuation (b : N) : bool := ((128 <=? b) && (b <? 192))%N.

(** A byte that starts no well-formed sequence (no string of the program
    has one) is read as a character of its own, U+FFFD. *)
Definition stray : N * nat := (65533%N, 1%nat).

(** The character at the head of a string: its code point, and how many
    bytes spell it. *)
Definition decode (s : string) : N * nat :=
  match s with
  | EmptyString => (0%N, 0%nat)
  | String a r =>
      let x := N_of_ascii a in
      if (x <? 128)%N then (x, 1%nat)
      else
        match r with
        | EmptyString => stray
        | String b r =>
            let y := N_of_ascii b in
            if negb (continuation y) then stray
            else if ((194 <=? x) && (x <? 224))%N then
              (((x - 192) * 64 + (y - 128))%N, 2%nat)
            else
              match r with
              | EmptyString => stray
              | String c r =>
                  let z := N_of_ascii c in
                  if negb (continuation z) then stray
                  else if ((224 <=? x) && (x <? 240))%N then
                    let n := ((x - 224) * 4096 + (y - 128) * 64 + (z - 128))%N in
                    if (2048 <=? n)%N then (n, 3%nat) else stray
                  else
                    match r with
                    | EmptyString => stray
                    | String d _ =>
                        let t := N_of_ascii d in
                        let n := ((x - 240) * 262144 + (y - 128) * 4096
                                  + (z - 128) * 64 + (t - 128))%N in
                        if (continuation t && (240 <=? x) && (x <? 245)
                            && (65536 <=? n) && (n <? 1114112))%N
                        then (n, 4%nat) else stray
                    end
              end
        end
  end.

(** The characters of a string, each with its bytes. *)
Fixpoint chars (s : string) : list (N * string) :=
  match s with
  | EmptyString => []
  | String a r1 =>
      match decode s, r1 with
      | (c, 2%nat), String b r2 => (c, String a (String b "")) :: chars r2
      | (c, 3%nat), String b (String b' r3) =>
          (c, String a (String b (String b' ""))) :: chars r3
      | (c, 4%nat), String b (String b' (String b'' r4)) =>
          (c, String a (String b (String b' (String b'' "")))) :: chars r4
      | (c, _), _ => (c, String a "") :: chars r1
      end
  end.

(** [s.length]: the number of code units. *)
Definition units (c : N) : nat := if (c <? 65536)%N then 1 else 2.

Definition codeUnits (s : string) : nat :=
  list_sum (map (fun ch => units (fst ch)) (chars s)).

(** [s.substring(0, n)]: the first [n] code units.  The cut may fall
    inside a pair of surrogates, whose first half is then kept. *)
Fixpoint firstUnits (n : nat) (l : list (N * string)) : string :=
  match n, l with
  | O, _ => ""
  | _, [] => ""
  | S n', (c, bs) :: r =>
      if (c <? 65536)%N then bs +:+ firstUnits n' r
      else
        match n' with
        | O => utf8 (55296 + (c - 65536) / 1024)%N
        | S n'' => bs +:+ firstUnits n'' r
        end
  end.

Definition substring (n : nat) (s : string) : string := firstUnits n (chars s).

(** *** [String.prototype.trim]

    The code points of WhiteSpace and LineTerminator: tab, line feed,
    vertical tab, form feed, carriage return, the byte order mark and the
    space separators of Unicode, the line and the paragraph separator. *)
Definition whiteSpace : list N :=
  [ 9; 10; 11; 12; 13; 32; 160; 5760;
    8192; 8193; 8194; 8195; 8196; 8197; 8198; 8199; 8200; 8201; 8202;
    8232; 8233; 8239; 8287; 12288; 65279 ]%N.

Fixpoint reverseOnto (s acc : string) : string :=
  match s with
  | EmptyString => acc
  | String c r => reverseOnto r (String c acc)
  end.

Definition reverse (s : string) : string := reverseOnto s "".

(** [s] without its prefix [p] *)
Fixpoint without (p s : string) : option string :=
  match p, s with
  | EmptyString, _ => Some s
  | String _ _, EmptyString => None
  | String a p', String b s' => if Ascii.eqb a b then without p' s' else None
  end.

(** [s] without the one of [ps] it starts with *)
Fixpoint withoutOne (ps : list string) (s : string) : option string :=
  match ps with
  | [] => None
  | p :: rest =>
      match without p s with
      | Some r => Some r
      | None => withoutOne rest s
      end
  end.

(** [s] without the [ps] it starts with, one after the other; each has a
    byte at least, so that as many rounds as [s] has bytes are enough. *)
Fixpoint withoutAll (ps : list string) (rounds : nat) (s : string) : string :=
  match rounds with
  | O => s
  | S n =>
      match withoutOne ps s with
      | Some r => withoutAll ps n r
      | None => s
      end
  end.

Definition trimStart (s : string) : string :=
  withoutAll (map utf8 whiteSpace) (String.length s) s.

(** At the end of the string white space is recognised by its bytes, read
    backwards: a string that ends with the bytes of a character ends with
    that character. *)
Definition trimEnd (s : string) : string :=
  reverse (withoutAll (map (fun c => reverse (utf8 c)) whiteSpace)
             (String.length s) (reverse s)).

Definition trim (s : string) : string := trimEnd (trimStart s).

(** *** [String.prototype.toLowerCase]

    The lower case mappings of the Unicode Character Database
    (version 14.0): the simple mappings of UnicodeData.txt as runs
    [(first, last, step, image of first)], and the two mappings of
    SpecialCasing.txt that depend on no language, U+0130 and the final
    sigma. *)
Definition lowerCaseRuns : list (N * N * N * N) := [
  (65, 90, 1, 97); (192, 214, 1, 224); (216, 222, 1, 248); (256, 302, 2, 257);
  (306, 310, 2, 307); (313, 327, 2, 314); (330, 374, 2, 331);
  (376, 376, 1, 255); (377, 381, 2, 378); (385, 385, 1, 595);
  (386, 388, 2, 387); (390, 390, 1, 596); (391, 391, 1, 392);
  (393, 394, 1, 598); (395, 395, 1, 396); (398, 398, 1, 477);
  (399, 399, 1, 601); (400, 400, 1, 603); (401, 401, 1, 402);
  (403, 403, 1, 608); (404, 404, 1, 611); (406, 406, 1, 617);
  (407, 407, 1, 616); (408, 408, 1, 409); (412, 412, 1, 623);
  (413, 413, 1, 626); (415, 415, 1, 629); (416, 420, 2, 417);
  (422, 422, 1, 640); (423, 423, 1, 424); (425, 425, 1, 643);
  (428, 428, 1, 429); (430, 430, 1, 648); (431, 431, 1, 432);
  (433, 434, 1, 650); (435, 437, 2, 436); (439, 439, 1, 658);
  (440, 440, 1, 441); (444, 444, 1, 445); (452, 452, 1, 454);
  (453, 453, 1, 454); (455, 455, 1, 457); (456, 456, 1, 457);
  (458, 458, 1, 460); (459, 475, 2, 460); (478, 494, 2, 479);
  (497, 497, 1, 499); (498, 500, 2, 499); (502, 502, 1, 405);
  (503, 503, 1, 447); (504, 542, 2, 505); (544, 544, 1, 414);
  (546, 562, 2, 547); (570, 570, 1, 11365); (571, 571, 1, 572);
  (573, 573, 1, 410); (574, 574, 1, 11366); (577, 577, 1, 578);
  (579, 579, 1, 384); (580, 580, 1, 649); (581, 581, 1, 652);
  (582, 590, 2, 583); (880, 882, 2, 881); (886, 886, 1, 887);
  (895, 895, 1, 1011); (902, 902, 1, 940); (904, 906, 1, 941);
  (908, 908, 1, 972); (910, 911, 1, 973); (913, 929, 1, 945);
  (931, 939, 1, 963); (975, 975, 1, 983); (984, 1006, 2, 985);
  (1012, 1012, 1, 952); (1015, 1015, 1, 1016); (1017, 1017, 1, 1010);
  (1018, 1018, 1, 1019); (1021, 1023, 1, 891); (1024, 1039, 1, 1104);
  (1040, 1071, 1, 1072); (1120, 1152, 2, 1121); (1162, 1214, 2, 1163);
  (1216, 1216, 1, 1231); (1217, 1229, 2, 1218); (1232, 1326, 2, 1233);
  (1329, 1366, 1, 1377); (4256, 4293, 1, 11520); (4295, 4295, 1, 11559);
  (4301, 4301, 1, 11565); (5024, 5103, 1, 43888); (5104, 5109, 1, 5112);
  (7312, 7354, 1, 4304); (7357, 7359, 1, 4349); (7680, 7828, 2, 7681);
  (7838, 7838, 1, 223); (7840, 7934, 2, 7841); (7944, 7951, 1, 7936);
  (7960, 7965, 1, 7952); (7976, 7983, 1, 7968); (7992, 7999, 1, 7984);
  (8008, 8013, 1, 8000); (8025, 8031, 2, 8017); (8040, 8047, 1, 8032);
  (8072, 8079, 1, 8064); (8088, 8095, 1, 8080); (8104, 8111, 1, 8096);
  (8120, 8121, 1, 8112); (8122, 8123, 1, 8048); (8124, 8124, 1, 8115);
  (8136, 8139, 1, 8050); (8140, 8140, 1, 8131); (8152, 8153, 1, 8144);
  (8154, 8155, 1, 8054); (8168, 8169, 1, 8160); (8170, 8171, 1, 8058);
  (8172, 8172, 1, 8165); (8184, 8185, 1, 8056); (8186, 8187, 1, 8060);
  (8188, 8188, 1, 8179); (8486, 8486, 1, 969); (8490, 8490, 1, 107);
  (8491, 8491, 1, 229); (8498, 8498, 1, 8526); (8544, 8559, 1, 8560);
  (8579, 8579, 1, 8580); (9398, 9423, 1, 9424); (11264, 11311, 1, 11312);
  (11360, 11360, 1, 11361); (11362, 11362, 1, 619); (11363, 11363, 1, 7549);
  (11364, 11364, 1, 637); (11367, 11371, 2, 11368); (11373, 11373, 1, 593);
  (11374, 11374, 1, 625); (11375, 11375, 1, 592); (11376, 11376, 1, 594);
  (11378, 11378, 1, 11379); (11381, 11381, 1, 11382); (11390, 11391, 1, 575);
  (11392, 11490, 2, 11393); (11499, 11501, 2, 11500);
  (11506, 11506, 1, 11507); (42560, 42604, 2, 42561);
  (42624, 42650, 2, 42625); (42786, 42798, 2, 42787);
  (42802, 42862, 2, 42803); (42873, 42875, 2, 42874); (42877, 42877, 1, 7545);
  (42878, 42886, 2, 42879); (42891, 42891, 1, 42892); (42893, 42893, 1, 613);
  (42896, 42898, 2, 42897); (42902, 42920, 2, 42903); (42922, 42922, 1, 614);
  (42923, 42923, 1, 604); (42924, 42924, 1, 609); (42925, 42925, 1, 620);
  (42926, 42926, 1, 618); (42928, 42928, 1, 670); (42929, 42929, 1, 647);
  (42930, 42930, 1, 669); (42931, 42931, 1, 43859); (42932, 42946, 2, 42933);
  (42948, 42948, 1, 42900); (42949, 42949, 1, 642); (42950, 42950, 1, 7566);
  (42951, 42953, 2, 42952); (42960, 42960, 1, 42961);
  (42966, 42968, 2, 42967); (42997, 42997, 1, 42998);
  (65313, 65338, 1, 65345); (66560, 66599, 1, 66600);
  (66736, 66771, 1, 66776); (66928, 66938, 1, 66967);
  (66940, 66954, 1, 66979); (66956, 66962, 1, 66995);
  (66964, 66965, 1, 67003); (68736, 68786, 1, 68800);
  (71840, 71871, 1, 71872); (93760, 93791, 1, 93792);
  (125184, 125217, 1, 125218)
]%N.

Definition casedRanges : list (N * N) := [
  (65, 90); (97, 122); (170, 170); (181, 181); (186, 186); (192, 214);
  (216, 246); (248, 442); (444, 447); (452, 659); (661, 696); (704, 705);
  (736, 740); (837, 837); (880, 883); (886, 887); (890, 893); (895, 895);
  (902, 902); (904, 906); (908, 908); (910, 929); (931, 1013); (1015, 1153);
  (1162, 1327); (1329, 1366); (1376, 1416); (4256, 4293); (4295, 4295);
  (4301, 4301); (4304, 4346); (4349, 4351); (5024, 5109); (5112, 5117);
  (7296, 7304); (7312, 7354); (7357, 7359); (7424, 7615); (7680, 7957);
  (7960, 7965); (7968, 8005); (8008, 8013); (8016, 8023); (8025, 8025);
  (8027, 8027); (8029, 8029); (8031, 8061); (8064, 8116); (8118, 8124);
  (8126, 8126); (8130, 8132); (8134, 8140); (8144, 8147); (8150, 8155);
  (8160, 8172); (8178, 8180); (8182, 8188); (8305, 8305); (8319, 8319);
  (8336, 8348); (8450, 8450); (8455, 8455); (8458, 8467); (8469, 8469);
  (8473, 8477); (8484, 8484); (8486, 8486); (8488, 8488); (8490, 8493);
  (8495, 8500); (8505, 8505); (8508, 8511); (8517, 8521); (8526, 8526);
  (8544, 8575); (8579, 8580); (9398, 9449); (11264, 11492); (11499, 11502);
  (11506, 11507); (11520, 11557); (11559, 11559); (11565, 11565);
  (42560, 42605); (42624, 42653); (42786, 42887); (42891, 42894);
  (42896, 42954); (42960, 42961); (42963, 42963); (42965, 42969);
  (42997, 42998); (43000, 43002); (43824, 43866); (43868, 43880);
  (43888, 43967); (64256, 64262); (64275, 64279); (65313, 65338);
  (65345, 65370); (66560, 66639); (66736, 66771); (66776, 66811);
  (66928, 66938); (66940, 66954); (66956, 66962); (66964, 66965);
  (66967, 66977); (66979, 66993); (66995, 67001); (67003, 67004);
  (67456, 67456); (67459, 67461); (67463, 67504); (67506, 67514);
  (68736, 68786); (68800, 68850); (71840, 71903); (93760, 93823);
  (119808, 119892); (119894, 119964); (119966, 119967); (119970, 119970);
  (119973, 119974); (119977, 119980); (119982, 119993); (119995, 119995);
  (119997, 120003); (120005, 120069); (120071, 120074); (120077, 120084);
  (120086, 120092); (120094, 120121); (120123, 120126); (120128, 120132);
  (120134, 120134); (120138, 120144); (120146, 120485); (120488, 120512);
  (120514, 120538); (120540, 120570); (120572, 120596); (120598, 120628);
  (120630, 120654); (120656, 120686); (120688, 120712); (120714, 120744);
  (120746, 120770); (120772, 120779); (122624, 122633); (122635, 122654);
  (125184, 125251); (127280, 127305); (127312, 127337); (127344, 127369)
]%N.

Definition caseIgnorableRanges : list (N * N) := [
  (39, 39); (46, 46); (58, 58); (94, 94); (96, 96); (168, 168); (173, 173);
  (175, 175); (180, 180); (183, 184); (688, 879); (884, 885); (890, 890);
  (900, 901); (903, 903); (1155, 1161); (1369, 1369); (1375, 1375);
  (1425, 1469); (1471, 1471); (1473, 1474); (1476, 1477); (1479, 1479);
  (1524, 1524); (1536, 1541); (1552, 1562); (1564, 1564); (1600, 1600);
  (1611, 1631); (1648, 1648); (1750, 1757); (1759, 1768); (1770, 1773);
  (1807, 1807); (1809, 1809); (1840, 1866); (1958, 1968); (2027, 2037);
  (2042, 2042); (2045, 2045); (2070, 2093); (2137, 2139); (2184, 2184);
  (2192, 2193); (2200, 2207); (2249, 2306); (2362, 2362); (2364, 2364);
  (2369, 2376); (2381, 2381); (2385, 2391); (2402, 2403); (2417, 2417);
  (2433, 2433); (2492, 2492); (2497, 2500); (2509, 2509); (2530, 2531);
  (2558, 2558); (2561, 2562); (2620, 2620); (2625, 2626); (2631, 2632);
  (2635, 2637); (2641, 2641); (2672, 2673); (2677, 2677); (2689, 2690);
  (2748, 2748); (2753, 2757); (2759, 2760); (2765, 2765); (2786, 2787);
  (2810, 2815); (2817, 2817); (2876, 2876); (2879, 2879); (2881, 2884);
  (2893, 2893); (2901, 2902); (2914, 2915); (2946, 2946); (3008, 3008);
  (3021, 3021); (3072, 3072); (3076, 3076); (3132, 3132); (3134, 3136);
  (3142, 3144); (3146, 3149); (3157, 3158); (3170, 3171); (3201, 3201);
  (3260, 3260); (3263, 3263); (3270, 3270); (3276, 3277); (3298, 3299);
  (3328, 3329); (3387, 3388); (3393, 3396); (3405, 3405); (3426, 3427);
  (3457, 3457); (3530, 3530); (3538, 3540); (3542, 3542); (3633, 3633);
  (3636, 3642); (3654, 3662); (3761, 3761); (3764, 3772); (3782, 3782);
  (3784, 3789); (3864, 3865); (3893, 3893); (3895, 3895); (3897, 3897);
  (3953, 3966); (3968, 3972); (3974, 3975); (3981, 3991); (3993, 4028);
  (4038, 4038); (4141, 4144); (4146, 4151); (4153, 4154); (4157, 4158);
  (4184, 4185); (4190, 4192); (4209, 4212); (4226, 4226); (4229, 4230);
  (4237, 4237); (4253, 4253); (4348, 4348); (4957, 4959); (5906, 5908);
  (5938, 5939); (5970, 5971); (6002, 6003); (6068, 6069); (6071, 6077);
  (6086, 6086); (6089, 6099); (6103, 6103); (6109, 6109); (6155, 6159);
  (6211, 6211); (6277, 6278); (6313, 6313); (6432, 6434); (6439, 6440);
  (6450, 6450); (6457, 6459); (6679, 6680); (6683, 6683); (6742, 6742);
  (6744, 6750); (6752, 6752); (6754, 6754); (6757, 6764); (6771, 6780);
  (6783, 6783); (6823, 6823); (6832, 6862); (6912, 6915); (6964, 6964);
  (6966, 6970); (6972, 6972); (6978, 6978); (7019, 7027); (7040, 7041);
  (7074, 7077); (7080, 7081); (7083, 7085); (7142, 7142); (7144, 7145);
  (7149, 7149); (7151, 7153); (7212, 7219); (7222, 7223); (7288, 7293);
  (7376, 7378); (7380, 7392); (7394, 7400); (7405, 7405); (7412, 7412);
  (7416, 7417); (7468, 7530); (7544, 7544); (7579, 7679); (8125, 8125);
  (8127, 8129); (8141, 8143); (8157, 8159); (8173, 8175); (8189, 8190);
  (8203, 8207); (8216, 8217); (8228, 8228); (8231, 8231); (8234, 8238);
  (8288, 8292); (8294, 8303); (8305, 8305); (8319, 8319); (8336, 8348);
  (8400, 8432); (11388, 11389); (11503, 11505); (11631, 11631);
  (11647, 11647); (11744, 11775); (11823, 11823); (12293, 12293);
  (12330, 12333); (12337, 12341); (12347, 12347); (12441, 12446);
  (12540, 12542); (40981, 40981); (42232, 42237); (42508, 42508);
  (42607, 42610); (42612, 42621); (42623, 42623); (42652, 42655);
  (42736, 42737); (42752, 42785); (42864, 42864); (42888, 42890);
  (42994, 42996); (43000, 43001); (43010, 43010); (43014, 43014);
  (43019, 43019); (43045, 43046); (43052, 43052); (43204, 43205);
  (43232, 43249); (43263, 43263); (43302, 43309); (43335, 43345);
  (43392, 43394); (43443, 43443); (43446, 43449); (43452, 43453);
  (43471, 43471); (43493, 43494); (43561, 43566); (43569, 43570);
  (43573, 43574); (43587, 43587); (43596, 43596); (43632, 43632);
  (43644, 43644); (43696, 43696); (43698, 43700); (43703, 43704);
  (43710, 43711); (43713, 43713); (43741, 43741); (43756, 43757);
  (43763, 43764); (43766, 43766); (43867, 43871); (43881, 43883);
  (44005, 44005); (44008, 44008); (44013, 44013); (64286, 64286);
  (64434, 64450); (65024, 65039); (65043, 65043); (65056, 65071);
  (65106, 65106); (65109, 65109); (65279, 65279); (65287, 65287);
  (65294, 65294); (65306, 65306); (65342, 65342); (65344, 65344);
  (65392, 65392); (65438, 65439); (65507, 65507); (65529, 65531);
  (66045, 66045); (66272, 66272); (66422, 66426); (67456, 67461);
  (67463, 67504); (67506, 67514); (68097, 68099); (68101, 68102);
  (68108, 68111); (68152, 68154); (68159, 68159); (68325, 68326);
  (68900, 68903); (69291, 69292); (69446, 69456); (69506, 69509);
  (69633, 69633); (69688, 69702); (69744, 69744); (69747, 69748);
  (69759, 69761); (69811, 69814); (69817, 69818); (69821, 69821);
  (69826, 69826); (69837, 69837); (69888, 69890); (69927, 69931);
  (69933, 69940); (70003, 70003); (70016, 70017); (70070, 70078);
  (70089, 70092); (70095, 70095); (70191, 70193); (70196, 70196);
  (70198, 70199); (70206, 70206); (70367, 70367); (70371, 70378);
  (70400, 70401); (70459, 70460); (70464, 70464); (70502, 70508);
  (70512, 70516); (70712, 70719); (70722, 70724); (70726, 70726);
  (70750, 70750); (70835, 70840); (70842, 70842); (70847, 70848);
  (70850, 70851); (71090, 71093); (71100, 71101); (71103, 71104);
  (71132, 71133); (71219, 71226); (71229, 71229); (71231, 71232);
  (71339, 71339); (71341, 71341); (71344, 71349); (71351, 71351);
  (71453, 71455); (71458, 71461); (71463, 71467); (71727, 71735);
  (71737, 71738); (71995, 71996); (71998, 71998); (72003, 72003);
  (72148, 72151); (72154, 72155); (72160, 72160); (72193, 72202);
  (72243, 72248); (72251, 72254); (72263, 72263); (72273, 72278);
  (72281, 72283); (72330, 72342); (72344, 72345); (72752, 72758);
  (72760, 72765); (72767, 72767); (72850, 72871); (72874, 72880);
  (72882, 72883); (72885, 72886); (73009, 73014); (73018, 73018);
  (73020, 73021); (73023, 73029); (73031, 73031); (73104, 73105);
  (73109, 73109); (73111, 73111); (73459, 73460); (78896, 78904);
  (92912, 92916); (92976, 92982); (92992, 92995); (94031, 94031);
  (94095, 94111); (94176, 94177); (94179, 94180); (110576, 110579);
  (110581, 110587); (110589, 110590); (113821, 113822); (113824, 113827);
  (118528, 118573); (118576, 118598); (119143, 119145); (119155, 119170);
  (119173, 119179); (119210, 119213); (119362, 119364); (121344, 121398);
  (121403, 121452); (121461, 121461); (121476, 121476); (121499, 121503);
  (121505, 121519); (122880, 122886); (122888, 122904); (122907, 122913);
  (122915, 122916); (122918, 122922); (123184, 123197); (123566, 123566);
  (123628, 123631); (125136, 125142); (125252, 125259); (127995, 127999);
  (917505, 917505); (917536, 917631); (917760, 917999)
]%N.

Fixpoint inRanges (t : list (N * N)) (c : N) : bool :=
  match t with
  | [] => false
  | (lo, hi) :: r =>
      if (c <? lo)%N then false
      else if (c <=? hi)%N then true
      else inRanges r c
  end.

Fixpoint simpleLower (t : list (N * N * N * N)) (c : N) : option N :=
  match t with
  | [] => None
  | (lo, hi, step, to) :: r =>
      if (c <? lo)%N then None
      else if (c <=? hi)%N then
        (if ((c - lo) mod step =? 0)%N then Some (to + (c - lo))%N else None)
      else simpleLower r c
  end.

Definition cased (c : N) : bool := inRanges casedRanges c.
Definition caseIgnorable (c : N) : bool := inRanges caseIgnorableRanges c.

(** Going away from a character over those that are case-ignorable, the
    first one that is not is cased. *)
Fixpoint reachesCased (l : list N) : bool :=
  match l with
  | [] => false
  | c :: r => if caseIgnorable c then reachesCased r else cased c
  end.

(** Final_Sigma: a cased letter comes before, none comes after.
    [before] lists the code points before, the nearest first. *)
Definition finalSigma (before after : list N) : bool :=
  reachesCased before && negb (reachesCased after).

(** The lower case of the character [c], spelled [bs]. *)
Definition lowered (before : list N) (c : N) (bs : string) (after : list (N * string))
  : string :=
  if (c =? 931)%N then
    utf8 (if finalSigma before (map fst after) then 962 else 963)%N
  else if (c =? 304)%N then utf8 105 +:+ utf8 775
  else
    match simpleLower lowerCaseRuns c with
    | Some l => utf8 l
    | None => bs
    end.

Fixpoint lowerAll (before : list N) (l : list (N * string)) : string :=
  match l with
  | [] => ""
  | (c, bs) :: r => lowered before c bs r +:+ lowerAll (c :: before) r
  end.

Definition toLowerCase (s : string) : string := lowerAll [] (chars s).

#[global] Arguments trimStart : simpl never.
#[global] Arguments trimEnd : simpl never.
#[global] Arguments trim : simpl never.
#[global] Arguments toLowerCase : simpl never.
#[global] Arguments substring : simpl never.
#[global] Arguments codeUnits : simpl never.

Fixpoint startsWith (s t : string) {struct t} : bool :=
  match t, s with
  | EmptyString, _ => true
  | String _ _, EmptyString => false
  | String a t', String b s' => if Ascii.eqb a b then startsWith s' t' else false
  end.

(** [s.includes(t)] *)
Fixpoint includes (s t : string) : bool :=
  startsWith s t ||
  match s with
  | EmptyString => false
  | String _ r => includes r t
  end.

(** Truthiness of a string: only the empty string is falsy. *)
Definition truthyStr (s : string) : bool :=
  match s with EmptyString => false | _ => true end.

(** Truthiness of a possibly missing string field. *)
Definition truthyOpt (o : option string) : bool :=
  match o with Some s => truthyStr s | None => false end.

(** [s || ''] for a possibly missing string. *)
Definition orEmpty (o : option string) : string :=
  match o with Some s => s | None => "" end.

(** ** JSON values, as [JSON.parse] yields them

    Numbers are kept as integers: the code only tests them for
    truthiness, and every non-integer number is truthy like a non-zero
    integer. *)
Inductive json : Type :=
  | JNull
  | JBool (b : bool)
  | JNum (n : Z)
  | JStr (s : string)
  | JArr (items : list json)
  | JObj (fields : list (string * json)).

Definition truthy (v : json) : bool :=
  match v with
  | JNull => false
  | JBool b => b
  | JNum n => negb (n =? 0)
  | JStr s => truthyStr s
  | JArr _ | JObj _ => true
  end.

(** Truthiness of the result of a property read ([None] is [undefined]). *)
Definition truthyVal (o : option json) : bool :=
  match o with Some v => truthy v | None => false end.

Fixpoint assoc {V} (k : string) (l : list (string * V)) : option V :=
  match l with
  | [] => None
  | (k', v) :: r => if String.eqb k k' then Some v else assoc k r
  end.

(** The read [v[k]] of a property on a parsed value, for the names the
    code reads (none of them is [length], an index or a method): [None]
    when the read throws (the value is [null]), [Some None] when it
    yields [undefined]. *)
Definition getProp (v : json) (k : string) : option (option json) :=
  match v with
  | JNull => None
  | JObj fs => Some (assoc k fs)
  | _ => Some None
  end.

(** A piece of text together with what [JSON.parse] makes of it: [None]
    when parsing raises a [SyntaxError].  The parser is the platform's;
    the code only ever looks at its result. *)
Record JsonText : Type := mkJsonText {
  raw : string;
  parsed : option json
}.

(** ** [Array.prototype.sort]

    The sort is stable (ECMAScript 2019).  [le a b] says that the
    comparator's result on [(a, b)] is not positive: [a] may stay before
    [b].  For a consistent comparator a stable sort has one possible
    result, computed here by insertion. *)
Section Sort.
Context {A : Type} (le : A -> A -> bool).

Fixpoint insertSorted (x : A) (l : list A) : list A :=
  match l with
  | [] => [x]
  | y :: r => if le x y then x :: y :: r else y :: insertSorted x r
  end.

Fixpoint sort (l : list A) : list A :=
  match l with
  | [] => []
  | x :: r => insertSorted x (sort r)
  end.
End Sort.

End Js.

(* ===================================================================== *)
(** * Documents, world and the monad of the handlers                     *)
(* ===================================================================== *)

(** The three document kinds of the data model.  A field the code guards
    against being absent ([x ? ... : ...], [x || '']) is an [option]. *)

Module Draft.
Record t : Type := mk {
  dreamText : string;
  dreamTitle : string;
  timestamp : option Z;
  isPreAnalyzed : bool
}.
End Draft.

Module Archived.
Record t : Type := mk {
  dreamText : option string;
  analysisText : Js.JsonText;
  dreamTitle : option string;
  timestamp : option Z;             (* milliseconds since the epoch *)
  matchedRealityEvent : option string
}.

Definition setMatch (m : string) (d : t) : t :=
  mk (dreamText d) (analysisText d) (dreamTitle d) (timestamp d) (Some m).

(** A dream counts as matched when [matchedRealityEvent] is truthy. *)
Definition matched (d : t) : bool := Js.truthyOpt (matchedRealityEvent d).
End Archived.

Module Event.
Record t : Type := mk {
  eventText : option string;
  timestamp : option Z
}.
End Event.

(** The answer of the generateContent endpoint, typed as the endpoint
  declares it: every level of the candidates/content/parts/text path may
  be absent. *)
Module Gemini.
Record Part : Type := mkPart { text : option Js.JsonText }.
Record Content : Type := mkContent { parts : option (list Part) }.
Record Candidate : Type := mkCandidate { content : option Content }.
Record Result : Type := mkResult { candidates : option (list Candidate) }.

(** What [response.json()] resolves to. *)
Inductive Body : Type :=
  | NotJson (message : string)       (* the body does not parse: rejects *)
  | JsonNull                         (* the body is the JSON text null *)
  | Json (result : Result).

(** What [fetch] settles to.  A response carries its HTTP status. *)
Inductive Outcome : Type :=
  | NetworkError (message : string)
  | Response (status : Z) (body : Body).
End Gemini.

Module Runtime.

(** ** The document store *)

Record UserData : Type := mkUserData {
  draft_dreams : gmap string Draft.t;
  archived_dreams : gmap string Archived.t;
  daily_events : gmap string Event.t;
  conversations : gmap string bool
}.

Definition noData : UserData := mkUserData ∅ ∅ ∅ ∅.

(** A collection of a user's documents, as a lens into [UserData]. *)
Record Coll (D : Type) : Type := mkColl {
  cname : string;
  cget : UserData -> gmap string D;
  cset : gmap string D -> UserData -> UserData
}.
Arguments cname {D}.
Arguments cget {D}.
Arguments cset {D}.

Definition draftColl : Coll Draft.t :=
  mkColl _ "draft_dreams" draft_dreams
    (fun m u => mkUserData m (archived_dreams u) (daily_events u) (conversations u)).

Definition archivedColl : Coll Archived.t :=
  mkColl _ "archived_dreams" archived_dreams
    (fun m u => mkUserData (draft_dreams u) m (daily_events u) (conversations u)).

Definition eventColl : Coll Event.t :=
  mkColl _ "daily_events" daily_events
    (fun m u => mkUserData (draft_dreams u) (archived_dreams u) m (conversations u)).

Definition conversationColl : Coll bool :=
  mkColl _ "conversations" conversations
    (fun m u => mkUserData (draft_dreams u) (archived_dreams u) (daily_events u) m).

(** ** The search panel *)

(** The objects [performSearch] pushes on [dreamResults] and
    [eventResults]. *)
Record DreamItem : Type := mkDreamItem {
  di_id : string;
  di_content : option string;
  di_title : option string;
  di_timestamp : option Z;
  di_matchedRealityEvent : string
}.

Record EventItem : Type := mkEventItem {
  ei_id : string;
  ei_content : option string;
  ei_timestamp : option Z
}.

(** The objects kept in [selectedDreamForMatch] and
    [selectedEventForMatch]. *)
Record SelectedDream : Type := mkSelectedDream {
  sd_id : string;
  sd_content : option string;
  sd_title : option string
}.

Record SelectedEvent : Type := mkSelectedEvent {
  se_id : string;
  se_content : option string
}.

(** The content of [#search-results-list]: a paragraph of text, or the two
    result sections, each row with the state of its checkbox. *)
Inductive Panel : Type :=
  | PanelMessage (html : string)
  | PanelResults (dreams : list (DreamItem * bool)) (events : list (EventItem * bool)).

(** ** Effects *)

Inductive RemoteCall : Type :=
  | AddDoc (user collection : string)
  | UpdateDoc (user collection id : string)
  | DeleteDoc (user collection id : string)
  | GetDocs (user collection : string)
  | OnSnapshot (user collection : string)
  | Fetch (url body : string).

Inductive Effect : Type :=
  | ShowMessage (kind message : string)       (* ui-utils.js: showMessage *)
  | ShowLoading
  | HideLoading
  | Console (level message : string)
  | SetText (element text : string)           (* innerHTML / textContent *)
  | SetHidden (element : string) (hidden : bool)
  | SetDisabled (element : string) (disabled : bool)
  | RenderRows (element : string) (ids : list string)
  | RenderSummary (actions emotions location : option Js.json)
  | RenderExpanded (sections : list (string * Js.json))
  | SetCount (element : string) (count : Z)
  | RenderTopTerms (element : string) (terms : option (list (string * Z)))
  | Remote (call : RemoteCall).

(** ** The world *)

Record World : Type := mkWorld {
  userId : option string;  (* firebase-init.js: [userId] *)
  isAuthReady : bool;  (* firebase-init.js: [isAuthReady] *)
  store : gmap string UserData;  (* documents, by the user segment of their path *)
  serverTime : Z;  (* what [serverTimestamp()] resolves to *)
  nowMs : Z;  (* [new Date().getTime()] *)
  lastYearStartMs : Z;  (* [new Date(y - 1, m, d).getTime()] of today, local time *)
  storeOutcomes : list (option string);  (* next store calls: [Some e] rejects with [e] *)
  fetchOutcomes : list Gemini.Outcome;  (* next [fetch] calls *)
  currentDraftId : option string;  (* dreams-module.js *)
  currentDreamIdForMatch : option string;  (* dreams-module.js *)
  selectedDreamForMatch : option SelectedDream;  (* search-module.js *)
  selectedEventForMatch : option SelectedEvent;  (* search-module.js *)
  matchSelectedDisabled : bool;  (* #match-selected-button.disabled *)
  searchResultsList : Panel;  (* #search-results-list *)
  matchedEventInput : string;  (* #matched-event-input.value *)
  outputFormat : option string;  (* value of the checked output-format radio *)
  trace : list Effect  (* what the handlers did, oldest first *)
}.

Definition set_store (x : gmap string UserData) (w : World) : World :=
  mkWorld (userId w) (isAuthReady w) x (serverTime w) (nowMs w) (lastYearStartMs w) (storeOutcomes w) (fetchOutcomes w) (currentDraftId w) (currentDreamIdForMatch w) (selectedDreamForMatch w) (selectedEventForMatch w) (matchSelectedDisabled w) (searchResultsList w) (matchedEventInput w) (outputFormat w) (trace w).

Definition set_storeOutcomes (x : list (option string)) (w : World) : World :=
  mkWorld (userId w) (isAuthReady w) (store w) (serverTime w) (nowMs w) (lastYearStartMs w) x (fetchOutcomes w) (currentDraftId w) (currentDreamIdForMatch w) (selectedDreamForMatch w) (selectedEventForMatch w) (matchSelectedDisabled w) (searchResultsList w) (matchedEventInput w) (outputFormat w) (trace w).

Definition set_fetchOutcomes (x : list Gemini.Outcome) (w : World) : World :=
  mkWorld (userId w) (isAuthReady w) (store w) (serverTime w) (nowMs w) (lastYearStartMs w) (storeOutcomes w) x (currentDraftId w) (currentDreamIdForMatch w) (selectedDreamForMatch w) (selectedEventForMatch w) (matchSelectedDisabled w) (searchResultsList w) (matchedEventInput w) (outputFormat w) (trace w).

Definition set_currentDraftId (x : option string) (w : World) : World :=
  mkWorld (userId w) (isAuthReady w) (store w) (serverTime w) (nowMs w) (lastYearStartMs w) (storeOutcomes w) (fetchOutcomes w) x (currentDreamIdForMatch w) (selectedDreamForMatch w) (selectedEventForMatch w) (matchSelectedDisabled w) (searchResultsList w) (matchedEventInput w) (outputFormat w) (trace w).

Definition set_currentDreamIdForMatch (x : option string) (w : World) : World :=
  mkWorld (userId w) (isAuthReady w) (store w) (serverTime w) (nowMs w) (lastYearStartMs w) (storeOutcomes w) (fetchOutcomes w) (currentDraftId w) x (selectedDreamForMatch w) (selectedEventForMatch w) (matchSelectedDisabled w) (searchResultsList w) (matchedEventInput w) (outputFormat w) (trace w).

Definition set_selectedDreamForMatch (x : option SelectedDream) (w : World) : World :=
  mkWorld (userId w) (isAuthReady w) (store w) (serverTime w) (nowMs w) (lastYearStartMs w) (storeOutcomes w) (fetchOutcomes w) (currentDraftId w) (currentDreamIdForMatch w) x (selectedEventForMatch w) (matchSelectedDisabled w) (searchResultsList w) (matchedEventInput w) (outputFormat w) (trace w).

Definition set_selectedEventForMatch (x : option SelectedEvent) (w : World) : World :=
  mkWorld (userId w) (isAuthReady w) (store w) (serverTime w) (nowMs w) (lastYearStartMs w) (storeOutcomes w) (fetchOutcomes w) (currentDraftId w) (currentDreamIdForMatch w) (selectedDreamForMatch w) x (matchSelectedDisabled w) (searchResultsList w) (matchedEventInput w) (outputFormat w) (trace w).

Definition set_matchSelectedDisabled (x : bool) (w : World) : World :=
  mkWorld (userId w) (isAuthReady w) (store w) (serverTime w) (nowMs w) (lastYearStartMs w) (storeOutcomes w) (fetchOutcomes w) (currentDraftId w) (currentDreamIdForMatch w) (selectedDreamForMatch w) (selectedEventForMatch w) x (searchResultsList w) (matchedEventInput w) (outputFormat w) (trace w).

Definition set_searchResultsList (x : Panel) (w : World) : World :=
  mkWorld (userId w) (isAuthReady w) (store w) (serverTime w) (nowMs w) (lastYearStartMs w) (storeOutcomes w) (fetchOutcomes w) (currentDraftId w) (currentDreamIdForMatch w) (selectedDreamForMatch w) (selectedEventForMatch w) (matchSelectedDisabled w) x (matchedEventInput w) (outputFormat w) (trace w).

Definition set_matchedEventInput (x : string) (w : World) : World :=
  mkWorld (userId w) (isAuthReady w) (store w) (serverTime w) (nowMs w) (lastYearStartMs w) (storeOutcomes w) (fetchOutcomes w) (currentDraftId w) (currentDreamIdForMatch w) (selectedDreamForMatch w) (selectedEventForMatch w) (matchSelectedDisabled w) (searchResultsList w) x (outputFormat w) (trace w).

Definition set_trace (x : list Effect) (w : World) : World :=
  mkWorld (userId w) (isAuthReady w) (store w) (serverTime w) (nowMs w) (lastYearStartMs w) (storeOutcomes w) (fetchOutcomes w) (currentDraftId w) (currentDreamIdForMatch w) (selectedDreamForMatch w) (selectedEventForMatch w) (matchSelectedDisabled w) (searchResultsList w) (matchedEventInput w) (outputFormat w) x.

(** What a trace holds of user-facing messages and of remote calls. *)
Definition messages (t : list Effect) : list (string * string) :=
  omap (fun e => match e with ShowMessage k m => Some (k, m) | _ => None end) t.

Definition remoteCalls (t : list Effect) : list RemoteCall :=
  omap (fun e => match e with Remote c => Some c | _ => None end) t.

(** The rows of the search panel and their checked boxes. *)
Definition shownDreams (p : Panel) : list (DreamItem * bool) :=
  match p with PanelResults ds _ => ds | PanelMessage _ => [] end.

Definition shownEvents (p : Panel) : list (EventItem * bool) :=
  match p with PanelResults _ es => es | PanelMessage _ => [] end.

Definition checked {A} (rows : list (A * bool)) : list A :=
  map fst (List.filter snd rows).

(** ** The monad of the handlers: state and exceptions *)

Inductive Res (A : Type) : Type :=
  | Ok (a : A)
  | Throw (message : string).
Arguments Ok {A}.
Arguments Throw {A}.

Definition M (A : Type) : Type := World -> Res A * World.

Definition ret {A} (a : A) : M A := fun w => (Ok a, w).

Definition bind {A B} (m : M A) (k : A -> M B) : M B := fun w =>
  match m w with
  | (Ok a, w') => k a w'
  | (Throw e, w') => (Throw e, w')
  end.

Definition throw {A} (e : string) : M A := fun w => (Throw e, w).

(** [try { m } catch (error) { h error.message }] *)
Definition tryCatch {A} (m : M A) (h : string -> M A) : M A := fun w =>
  match m w with
  | (Ok a, w') => (Ok a, w')
  | (Throw e, w') => h e w'
  end.

(** [try { m } finally { f }] *)
Definition finally {A} (m : M A) (f : M unit) : M A := fun w =>
  match m w with
  | (r, w') =>
      match f w' with
      | (Ok _, w'') => (r, w'')
      | (Throw e, w'') => (Throw e, w'')
      end
  end.

#[global] Instance M_ret : MRet M := @ret.
#[global] Instance M_bind : MBind M := fun A B k m => bind m k.

Definition get : M World := fun w => (Ok w, w).
Definition modify (f : World -> World) : M unit := fun w => (Ok tt, f w).
Definition emit (e : Effect) : M unit :=
  modify (fun w => set_trace (trace w ++ [e]) w).

Definition showMessage (kind message : string) : M unit :=
  emit (ShowMessage kind message).
Definition showLoading : M unit := emit ShowLoading.
Definition hideLoading : M unit := emit HideLoading.
Definition console (level message : string) : M unit :=
  emit (Console level message).
Definition setText (element text : string) : M unit :=
  emit (SetText element text).

(** The guard of the data operations is [!userId || !isAuthReady]; this
    is its negation. *)
Definition authenticated (w : World) : bool :=
  Js.truthyOpt (userId w) && isAuthReady w.

(** The user segment of a document path: the template literal turns a
    [null] user id into the text null. *)
Definition userSegment (w : World) : string :=
  match userId w with Some u => u | None => "null" end.

Definition userData (w : World) (u : string) : UserData :=
  default noData (store w !! u).

Definition docs {D} (c : Coll D) (w : World) (u : string) : gmap string D :=
  cget c (userData w u).

Definition setDocs {D} (c : Coll D) (u : string) (m : gmap string D) (w : World) : World :=
  set_store (<[u := cset c m (userData w u)]> (store w)) w.

(** ** Firestore

    Every call is recorded and settles as the next scripted outcome says
    (an exhausted script means success). *)
Definition remote (c : RemoteCall) : M unit := fun w =>
  let w1 := set_trace (trace w ++ [Remote c]) w in
  match storeOutcomes w with
  | Some e :: r => (Throw e, set_storeOutcomes r w1)
  | None :: r => (Ok tt, set_storeOutcomes r w1)
  | [] => (Ok tt, w1)
  end.

(** [addDoc]: the document gets an identifier not yet in the collection;
    [mk] receives the server timestamp. *)
Definition addDoc {D} (c : Coll D) (mk : Z -> D) : M string :=
  w0 ← get;
  let u := userSegment w0 in
  remote (AddDoc u (cname c));;
  w ← get;
  let id := fresh (dom (docs c w u)) in
  modify (setDocs c u (<[id := mk (serverTime w)]> (docs c w u)));;
  ret id.

(** [updateDoc] fails on a document that does not exist. *)
Definition updateDoc {D} (c : Coll D) (id : string) (f : Z -> D -> D) : M unit :=
  w0 ← get;
  let u := userSegment w0 in
  remote (UpdateDoc u (cname c) id);;
  w ← get;
  match docs c w u !! id with
  | Some d => modify (setDocs c u (<[id := f (serverTime w) d]> (docs c w u)))
  | None => throw "No document to update"
  end.

Definition deleteDoc {D} (c : Coll D) (id : string) : M unit :=
  w0 ← get;
  let u := userSegment w0 in
  remote (DeleteDoc u (cname c) id);;
  w ← get;
  modify (setDocs c u (delete id (docs c w u))).

(** Order of a snapshot.  Without [orderBy] documents come by identifier;
    with [orderBy("timestamp", "desc")] by timestamp, latest first, a
    [null] timestamp last, ties by identifier. *)
Definition byId {D} (a b : string * D) : bool := String.leb (fst a) (fst b).

Definition tsLe (a b : option Z) : bool :=
  match a, b with
  | None, _ => true
  | Some _, None => false
  | Some x, Some y => x <=? y
  end.

Definition tsLt (a b : option Z) : bool := negb (tsLe b a).

Definition byTimestampDesc {D} (ts : D -> option Z) (a b : string * D) : bool :=
  tsLt (ts (snd b)) (ts (snd a)) ||
  (tsLe (ts (snd b)) (ts (snd a)) && String.leb (fst b) (fst a)).

Definition snapshot {D} (c : Coll D) (w : World) (u : string) : list (string * D) :=
  Js.sort byId (map_to_list (docs c w u)).

Definition snapshotDesc {D} (c : Coll D) (ts : D -> option Z) (w : World) (u : string)
  : list (string * D) :=
  Js.sort (byTimestampDesc ts) (map_to_list (docs c w u)).

(** [getDocs(collection(...))] *)
Definition getDocs {D} (c : Coll D) : M (list (string * D)) :=
  w0 ← get;
  let u := userSegment w0 in
  remote (GetDocs u (cname c));;
  w ← get;
  ret (snapshot c w u).

(** [getDocs(query(collection(...), orderBy("timestamp", "desc")))] *)
Definition getDocsDesc {D} (c : Coll D) (ts : D -> option Z) : M (list (string * D)) :=
  w0 ← get;
  let u := userSegment w0 in
  remote (GetDocs u (cname c));;
  w ← get;
  ret (snapshotDesc c ts w u).

(** [fetch(url, ...)] followed by [response.json()].  The status of the
    response is delivered with the body; nothing in the code reads it. *)
Definition fetchJson (url body : string) : M (Z * option Gemini.Result) := fun w =>
  let w1 := set_trace (trace w ++ [Remote (Fetch url body)]) w in
  match fetchOutcomes w with
  | [] => (Throw "Failed to fetch", w1)
  | Gemini.NetworkError e :: r => (Throw e, set_fetchOutcomes r w1)
  | Gemini.Response st (Gemini.NotJson e) :: r => (Throw e, set_fetchOutcomes r w1)
  | Gemini.Response st Gemini.JsonNull :: r => (Ok (st, None), set_fetchOutcomes r w1)
  | Gemini.Response st (Gemini.Json res) :: r => (Ok (st, Some res), set_fetchOutcomes r w1)
  end.

(** [list.forEach(f)] *)
Fixpoint forEach {A} (f : A -> M unit) (l : list A) : M unit :=
  match l with
  | [] => ret tt
  | x :: r => f x;; forEach f r
  end.

(** Runs [m] and hands its outcome over as a value. *)
Definition attempt {A} (m : M A) : M (Res A) := fun w =>
  match m w with (r, w') => (Ok r, w') end.

(** A call to an [async] function whose promise is dropped: it runs, and
    what it throws is lost. *)
Definition detached (m : M unit) : M unit := tryCatch m (fun _ => ret tt).

(** A push subscription [onSnapshot(q, next, error)].  The first
    notification is delivered at once: [next] on the current snapshot, or
    [error] when the listen is rejected. *)
Definition onSnapshot {D} (c : Coll D) (q : World -> string -> list (string * D))
    (next : list (string * D) -> M unit) (error : string -> M unit) : M unit :=
  w0 ← get;
  let u := userSegment w0 in
  r ← attempt (remote (OnSnapshot u (cname c)));
  match r with
  | Ok _ => w ← get; next (q w u)
  | Throw e => error e
  end.

End Runtime.

(* ===================================================================== *)
(** * dreams-module.js                                                   *)
(* ===================================================================== *)

Module Dreams.
Import Runtime.

Definition saveDraftDream (dreamText dreamTitle : string) (isPreAnalyzed : bool)
  : M (option string) :=
  w ← get;
  if negb (authenticated w) then
    showMessage "error" "Please sign in to save dreams.";;
    ret None
  else
    showLoading;;
    finally
      (tryCatch
         (id ← addDoc draftColl
                  (fun ts => Draft.mk dreamText dreamTitle (Some ts) isPreAnalyzed);
          showMessage "success" "Dream draft saved!";;
          ret (Some id))
         (fun e =>
            console "error" "Error saving draft dream:";;
            showMessage "error" ("Failed to save dream draft: " +:+ e);;
            ret None))
      hideLoading.

Definition updateDraftDream (draftId dreamText dreamTitle : string)
    (isPreAnalyzed : bool) : M unit :=
  w ← get;
  if negb (authenticated w) || negb (Js.truthyStr draftId) then
    showMessage "error" "Cannot update draft. Please sign in or select a draft."
  else
    showLoading;;
    finally
      (tryCatch
         (updateDoc draftColl draftId
            (fun ts _ => Draft.mk dreamText dreamTitle (Some ts) isPreAnalyzed);;
          console "log" "Draft updated.")
         (fun e =>
            console "error" "Error updating draft dream:";;
            showMessage "error" ("Failed to update draft dream: " +:+ e)))
      hideLoading.

Definition deleteDraftDream (draftId : string) : M unit :=
  w ← get;
  if negb (authenticated w) || negb (Js.truthyStr draftId) then
    showMessage "error" "Cannot delete draft. Please sign in or select a draft."
  else
    showLoading;;
    finally
      (tryCatch
         (deleteDoc draftColl draftId;;
          showMessage "success" "Draft dream deleted!";;
          w1 ← get;
          (if decide (currentDraftId w1 = Some draftId) then
             setText "dream-input-draft" "";;
             setText "dream-title-draft" "";;
             modify (set_currentDraftId None)
           else ret tt);;
          setText "analysis-content" "";;
          emit (SetHidden "dream-analysis-output" true))
         (fun e =>
            console "error" "Error deleting draft dream:";;
            showMessage "error" ("Failed to delete draft dream: " +:+ e)))
      hideLoading.

Definition saveAnalyzedDream (dreamText : string) (analysisJsonString : Js.JsonText)
    (dreamTitle : string) : M unit :=
  w ← get;
  if negb (authenticated w) then
    showMessage "error" "Please sign in to save dreams."
  else
    showLoading;;
    finally
      (tryCatch
         (addDoc archivedColl
            (fun ts => Archived.mk (Some dreamText) analysisJsonString
                         (Some dreamTitle) (Some ts) (Some ""));;
          showMessage "success" "Dream analyzed and archived successfully!")
         (fun e =>
            console "error" "Error saving analyzed dream:";;
            showMessage "error" ("Failed to save analyzed dream: " +:+ e)))
      hideLoading.

Definition deleteArchivedDream (dreamId : string) : M unit :=
  w ← get;
  if negb (authenticated w) || negb (Js.truthyStr dreamId) then
    showMessage "error" "Cannot delete archived dream. Please sign in or select a dream."
  else
    showLoading;;
    finally
      (tryCatch
         (deleteDoc archivedColl dreamId;;
          showMessage "success" "Archived dream deleted!")
         (fun e =>
            console "error" "Error deleting archived dream:";;
            showMessage "error" ("Failed to delete archived dream: " +:+ e)))
      hideLoading.

(** The three live lists.  What is kept of the rendering is the order of
    the rows. *)
Definition loadDraftDreams : M unit :=
  w ← get;
  if negb (authenticated w) then
    setText "draft-dreams-list" "Please sign in to see your drafts."
  else
    setText "draft-dreams-list" "Loading drafts...";;
    showLoading;;
    onSnapshot draftColl (snapshotDesc draftColl Draft.timestamp)
      (fun rows =>
         hideLoading;;
         emit (RenderRows "draft-dreams-list" (map fst rows)))
      (fun e =>
         hideLoading;;
         console "error" "Error loading draft dreams:";;
         showMessage "error" ("Failed to load draft dreams: " +:+ e)).

Definition loadArchivedDreams : M unit :=
  w ← get;
  if negb (authenticated w) then
    setText "archived-dreams-list" "Please sign in to see your archived dreams."
  else
    setText "archived-dreams-list" "Loading archived dreams...";;
    showLoading;;
    onSnapshot archivedColl (snapshotDesc archivedColl Archived.timestamp)
      (fun rows =>
         hideLoading;;
         emit (RenderRows "archived-dreams-list" (map fst rows)))
      (fun e =>
         hideLoading;;
         console "error" "Error loading archived dreams:";;
         showMessage "error" ("Failed to load archived dreams: " +:+ e)).

Definition loadMatchedDreams : M unit :=
  w ← get;
  if negb (authenticated w) then
    setText "matched-dreams-list" "Please sign in to see your matched dreams."
  else
    setText "matched-dreams-list" "Loading matched dreams...";;
    showLoading;;
    onSnapshot archivedColl (snapshotDesc archivedColl Archived.timestamp)
      (fun rows =>
         hideLoading;;
         emit (RenderRows "matched-dreams-list"
                 (map fst (List.filter (fun r => Archived.matched (snd r)) rows))))
      (fun e =>
         hideLoading;;
         console "error" "Error loading matched dreams:";;
         showMessage "error" ("Failed to load matched dreams: " +:+ e)).

(** What [performDreamAnalysis] resolves to: [null], [undefined] (a first
    part without [text]) or the text of the first part. *)
Inductive Analysis : Type :=
  | ANull
  | AUndefined
  | AText (t : Js.JsonText).

Definition analysisTruthy (a : Analysis) : option Js.JsonText :=
  match a with
  | AText t => if Js.truthyStr (Js.raw t) then Some t else None
  | _ => None
  end.

(** The guard on the answer: [candidates], its first element's [content]
    and a non-empty [parts]; the guard does not look at [text]. *)
Definition firstPart (r : Gemini.Result) : option Gemini.Part :=
  match Gemini.candidates r with
  | Some (c :: _) =>
      match Gemini.content c with
      | Some ct =>
          match Gemini.parts ct with
          | Some (p :: _) => Some p
          | _ => None
          end
      | None => None
      end
  | _ => None
  end.

Definition orNA (o : option Js.json) : option Js.json :=
  if Js.truthyVal o then o else None.

Definition analysisHeadings : list string :=
  [ "actionsPerformed"; "location"; "timeInDream"; "movementsThroughTime";
    "emotionalContent"; "surfacePsychologicalContent"; "workDoneInDream";
    "familiarPersonsSpokenTo"; "relationToPastEvents"; "relationToFutureEvents";
    "messagesReceived"; "awarenessOfSpace" ].

(** The sections of the expanded view: the headings whose value is
    truthy. *)
Definition truthySections (fs : list (string * Js.json)) : list (string * Js.json) :=
  omap (fun k => match Js.assoc k fs with
                 | Some v => if Js.truthy v then Some (k, v) else None
                 | None => None
                 end) analysisHeadings.

Definition rawOutput (out : option Js.JsonText) : string :=
  match out with Some t => Js.raw t | None => "undefined" end.

(** The display branch of [performDreamAnalysis] ([!forArchiving]). *)
Definition displayAnalysis (out : option Js.JsonText) : M unit :=
  setText "analysis-content" "";;
  w ← get;
  match outputFormat w with
  | None => throw "Cannot read properties of null (reading 'value')"
  | Some fmt =>
      (if String.eqb fmt "summary" then
         match out ≫= Js.parsed with
         | Some (Js.JObj fs) =>
             emit (RenderSummary (orNA (Js.assoc "actionsPerformed" fs))
                     (orNA (Js.assoc "emotionalContent" fs))
                     (orNA (Js.assoc "location" fs)))
         | Some Js.JNull | None =>
             console "error" "Failed to parse JSON for summary display:";;
             setText "analysis-content"
               ("Error: Could not generate summary. Raw output: " +:+ rawOutput out)
         | Some _ => emit (RenderSummary None None None)
         end
       else if String.eqb fmt "expanded" then
         match out ≫= Js.parsed with
         | Some (Js.JObj fs) => emit (RenderExpanded (truthySections fs))
         | Some Js.JNull | None =>
             console "error" "Failed to parse JSON analysis for expanded display:";;
             setText "analysis-content"
               ("Error: Could not parse expanded analysis. Raw output: " +:+ rawOutput out)
         | Some _ => emit (RenderExpanded [])
         end
       else ret tt);;
      emit (SetHidden "dream-analysis-output" false)
  end.

Definition apiUrl : string :=
  "https://generativelanguage.googleapis.com/v1beta/models/gemini-2.0-flash:generateContent?key=".

Definition fullDreamText (dreamText dreamTitle : string) : string :=
  if Js.truthyStr dreamTitle
  then "Title: " +:+ dreamTitle +:+ String (ascii_of_nat 10) "Dream: " +:+ dreamText
  else dreamText.

Definition performDreamAnalysis (dreamText dreamTitle : string) (forArchiving : bool)
  : M Analysis :=
  w ← get;
  if negb (authenticated w) then
    showMessage "error" "Please sign in to analyze dreams.";;
    ret ANull
  else
    emit (SetHidden "loading-dream-analysis" false);;
    emit (SetDisabled "analyze-dream-in-analysis-tab" true);;
    console "log" "Sending prompt to Gemini:";;
    finally
      (tryCatch
         (response ← fetchJson apiUrl (fullDreamText dreamText dreamTitle);
          match snd response with
          | None => throw "Cannot read properties of null (reading 'candidates')"
          | Some result =>
              match firstPart result with
              | Some part =>
                  let analysisOutputJsonString := Gemini.text part in
                  (if forArchiving then ret tt
                   else displayAnalysis analysisOutputJsonString);;
                  ret (match analysisOutputJsonString with
                       | Some t => AText t
                       | None => AUndefined
                       end)
              | None =>
                  showMessage "error" "Could not analyze dream. Please try again.";;
                  setText "analysis-content" "Failed to get analysis.";;
                  emit (SetHidden "dream-analysis-output" true);;
                  ret ANull
              end
          end)
         (fun e =>
            console "error" "Dream analysis error:";;
            showMessage "error" ("Dream analysis failed: " +:+ e);;
            setText "analysis-content" ("Error during analysis: " +:+ e);;
            emit (SetHidden "dream-analysis-output" true);;
            ret ANull))
      (emit (SetHidden "loading-dream-analysis" true);;
       emit (SetDisabled "analyze-dream-in-analysis-tab" false)).

Definition analyzeAndArchiveDream (draftId dreamText dreamTitle : string) : M unit :=
  w ← get;
  if negb (authenticated w) then
    showMessage "error" "Please sign in to analyze and archive dreams."
  else
    showLoading;;
    finally
      (tryCatch
         (analysisJsonString ← performDreamAnalysis dreamText dreamTitle true;
          match analysisTruthy analysisJsonString with
          | Some analysis =>
              saveAnalyzedDream dreamText analysis dreamTitle;;
              deleteDraftDream draftId;;
              showMessage "success" "Dream analyzed and moved to Archive!";;
              detached loadArchivedDreams;;
              detached loadDraftDreams
          | None =>
              showMessage "error" "Analysis failed, dream not archived."
          end)
         (fun e =>
            console "error" "Error analyzing and archiving dream:";;
            showMessage "error" ("Failed to analyze and archive dream: " +:+ e)))
      hideLoading.

(** The click handler of [#save-match-button]. *)
Definition saveMatchClick : M unit :=
  w ← get;
  match currentDreamIdForMatch w with
  | Some dreamId =>
      if negb (Js.truthyStr dreamId) then
        showMessage "error" "No dream selected for matching."
      else
        let matchedEventText := Js.trim (matchedEventInput w) in
        if negb (Js.truthyStr matchedEventText) then
          showMessage "info" "Please describe the matched reality event."
        else
          showLoading;;
          finally
            (tryCatch
               (updateDoc archivedColl dreamId
                  (fun _ d => Archived.setMatch matchedEventText d);;
                showMessage "success" "Reality match saved!";;
                emit (SetHidden "add-match-modal" true);;
                modify (set_matchedEventInput "");;
                modify (set_currentDreamIdForMatch None);;
                detached loadMatchedDreams;;
                console "log" "Match saved. If on Search tab, remember to refresh search results.")
               (fun e =>
                  console "error" "Error saving reality match:";;
                  showMessage "error" ("Failed to save reality match: " +:+ e)))
            hideLoading
  | None => showMessage "error" "No dream selected for matching."
  end.

(** The click handler of [#cancel-match-button]. *)
Definition cancelMatchClick : M unit :=
  emit (SetHidden "add-match-modal" true);;
  modify (set_matchedEventInput "");;
  modify (set_currentDreamIdForMatch None).

Definition snippet (n : nat) (s : string) : string :=
  Js.substring n s +:+ (if (n <? Js.codeUnits s)%nat then "..." else "").

Definition openMatchModalForSearch (dreamId : string) (dreamText : option string)
    (existingMatchText : string) : M unit :=
  modify (set_currentDreamIdForMatch (Some dreamId));;
  match dreamText with
  | None => throw "Cannot read properties of undefined (reading 'substring')"
  | Some t =>
      setText "match-dream-snippet" (snippet 200 t);;
      modify (set_matchedEventInput existingMatchText);;
      emit (SetHidden "add-match-modal" false)
  end.

End Dreams.

(* ===================================================================== *)
(** * reality-module.js: daily events                                    *)
(* ===================================================================== *)

Module Reality.
Import Runtime.

Definition saveDailyEvent (eventText : string) : M unit :=
  w ← get;
  if negb (authenticated w) then
    showMessage "error" "Please sign in to log daily events."
  else
    showLoading;;
    finally
      (tryCatch
         (addDoc eventColl (fun ts => Event.mk (Some eventText) (Some ts));;
          showMessage "success" "Daily event logged!";;
          setText "daily-event-input" "")
         (fun e =>
            console "error" "Error saving daily event:";;
            showMessage "error" ("Failed to log daily event: " +:+ e)))
      hideLoading.

(** [query(..., orderBy("timestamp", "desc"), limit(10))] *)
Definition recentEvents (w : World) (u : string) : list (string * Event.t) :=
  firstn 10 (snapshotDesc eventColl Event.timestamp w u).

Definition loadDailyEvents : M unit :=
  w ← get;
  if negb (authenticated w) then
    setText "daily-events-list" "Please sign in to see your daily events."
  else
    setText "daily-events-list" "Loading daily events...";;
    showLoading;;
    onSnapshot eventColl recentEvents
      (fun rows =>
         hideLoading;;
         emit (RenderRows "daily-events-list" (map fst rows)))
      (fun e =>
         hideLoading;;
         console "error" "Error loading daily events:";;
         showMessage "error" ("Failed to load daily events: " +:+ e)).

End Reality.

(* ===================================================================== *)
(** * search-module.js                                                   *)
(* ===================================================================== *)

Module Search.
Import Runtime.

Definition updateMatchSelectedButtonState : M unit :=
  w ← get;
  match selectedDreamForMatch w, selectedEventForMatch w with
  | Some _, Some _ => modify (set_matchSelectedDisabled false)
  | _, _ => modify (set_matchSelectedDisabled true)
  end.

Definition day : Z := 24 * 60 * 60 * 1000.

(** [startDate.getTime()] for the selected time scope. *)
Definition startDate (w : World) (selectedTimeScope : string) : Z :=
  if String.eqb selectedTimeScope "last7Days" then nowMs w - 7 * day
  else if String.eqb selectedTimeScope "last30Days" then nowMs w - 30 * day
  else if String.eqb selectedTimeScope "lastYear" then lastYearStartMs w
  else 0.

(** [x ? x.toLowerCase() : ''] *)
Definition lowerOrEmpty (o : option string) : string :=
  match o with
  | Some x => if Js.truthyStr x then Js.toLowerCase x else ""
  | None => ""
  end.

(** [x.timestamp ? x.timestamp.toDate().getTime() : 0] *)
Definition millis (t : option Z) : Z :=
  match t with Some x => x | None => 0 end.

Definition dreamMatches (searchTerm : string) (start : Z) (d : Archived.t) : bool :=
  (Js.includes (lowerOrEmpty (Archived.dreamText d)) searchTerm
   || Js.includes (lowerOrEmpty (Archived.dreamTitle d)) searchTerm)
  && (start <=? millis (Archived.timestamp d)).

Definition eventMatches (searchTerm : string) (start : Z) (e : Event.t) : bool :=
  Js.includes (lowerOrEmpty (Event.eventText e)) searchTerm
  && (start <=? millis (Event.timestamp e)).

Definition dreamItem (r : string * Archived.t) : DreamItem :=
  mkDreamItem (fst r) (Archived.dreamText (snd r)) (Archived.dreamTitle (snd r))
    (Archived.timestamp (snd r))
    (if Js.truthyOpt (Archived.matchedRealityEvent (snd r))
     then Js.orEmpty (Archived.matchedRealityEvent (snd r)) else "").

Definition eventItem (r : string * Event.t) : EventItem :=
  mkEventItem (fst r) (Event.eventText (snd r)) (Event.timestamp (snd r)).

Definition dreamResults (searchTerm : string) (start : Z)
    (snap : list (string * Archived.t)) : list DreamItem :=
  map dreamItem (List.filter (fun r => dreamMatches searchTerm start (snd r)) snap).

Definition eventResults (searchTerm : string) (start : Z)
    (snap : list (string * Event.t)) : list EventItem :=
  map eventItem (List.filter (fun r => eventMatches searchTerm start (snd r)) snap).

(** The comparator [(a, b) => timestampB - timestampA] is not positive
    when [b] is not later than [a]. *)
Definition newerFirst (a b : option Z) : bool := millis b <=? millis a.

Definition sortDreams : list DreamItem -> list DreamItem :=
  Js.sort (fun a b => newerFirst (di_timestamp a) (di_timestamp b)).

Definition sortEvents : list EventItem -> list EventItem :=
  Js.sort (fun a b => newerFirst (ei_timestamp a) (ei_timestamp b)).

(** Rendering a row reads [item.content.substring]: it throws on a row
    without content. *)
Definition renderable (content : option string) : M unit :=
  match content with
  | Some _ => ret tt
  | None => throw "Cannot read properties of undefined (reading 'substring')"
  end.

Definition displaySearchResults (dreams : list DreamItem) (events : list EventItem)
  : M unit :=
  modify (set_searchResultsList (PanelResults [] []));;
  console "log" "Displaying search results.";;
  let dreams := sortDreams dreams in
  let events := sortEvents events in
  forEach (fun i => renderable (di_content i)) dreams;;
  modify (set_searchResultsList (PanelResults (map (fun i => (i, false)) dreams) []));;
  forEach (fun i => renderable (ei_content i)) events;;
  modify (set_searchResultsList
            (PanelResults (map (fun i => (i, false)) dreams)
                          (map (fun i => (i, false)) events)));;
  match dreams, events with
  | [], [] =>
      modify (set_searchResultsList
                (PanelMessage "No results found for your search criteria in either dreams or daily events."))
  | _, _ => ret tt
  end.

(** [searchInput] and [timeScopeSearch] are the values of the two
    controls, [None] when the control is not in the page. *)
Definition performSearch (searchInput timeScopeSearch : option string) : M unit :=
  let searchTerm :=
    match searchInput with Some v => Js.toLowerCase (Js.trim v) | None => "" end in
  let selectedTimeScope :=
    match timeScopeSearch with Some v => v | None => "allTime" end in
  if negb (Js.truthyStr searchTerm) then
    modify (set_searchResultsList (PanelMessage "Please enter a search term."))
  else
    w ← get;
    if negb (authenticated w) then
      modify (set_searchResultsList (PanelMessage "Please sign in to search your data."))
    else
      modify (set_searchResultsList (PanelMessage "Searching..."));;
      showLoading;;
      modify (set_selectedDreamForMatch None);;
      modify (set_selectedEventForMatch None);;
      updateMatchSelectedButtonState;;
      finally
        (tryCatch
           (w1 ← get;
            let start := startDate w1 selectedTimeScope in
            dreamSnapshot ← getDocsDesc archivedColl Archived.timestamp;
            let dreams := dreamResults searchTerm start dreamSnapshot in
            eventSnapshot ← getDocsDesc eventColl Event.timestamp;
            let events := eventResults searchTerm start eventSnapshot in
            displaySearchResults dreams events)
           (fun e =>
              console "error" "Error during search:";;
              showMessage "error" ("Failed to perform search: " +:+ e);;
              modify (set_searchResultsList (PanelMessage "Error performing search."))))
        hideLoading.

(** ** Selection *)

(** The [change] handler of the checkbox of dream row [i], run after the
    browser has flipped the box: the row's item becomes the selection when
    the box is now checked, and every other dream box is unchecked. *)
Definition setOnly {A} (i : nat) (checked : bool) (rows : list (A * bool)) : list (A * bool) :=
  imap (fun j r => (fst r, if Nat.eqb j i then checked else false)) rows.

Definition dreamCheckboxChange (i : nat) : M unit :=
  w ← get;
  match searchResultsList w with
  | PanelResults dreams events =>
      match dreams !! i with
      | Some (item, was) =>
          let checked := negb was in
          modify (set_selectedDreamForMatch
                    (if checked
                     then Some (mkSelectedDream (di_id item) (di_content item) (di_title item))
                     else None));;
          modify (set_searchResultsList (PanelResults (setOnly i checked dreams) events));;
          updateMatchSelectedButtonState
      | None => ret tt
      end
  | PanelMessage _ => ret tt
  end.

Definition eventCheckboxChange (i : nat) : M unit :=
  w ← get;
  match searchResultsList w with
  | PanelResults dreams events =>
      match events !! i with
      | Some (item, was) =>
          let checked := negb was in
          modify (set_selectedEventForMatch
                    (if checked
                     then Some (mkSelectedEvent (ei_id item) (ei_content item))
                     else None));;
          modify (set_searchResultsList (PanelResults dreams (setOnly i checked events)));;
          updateMatchSelectedButtonState
      | None => ret tt
      end
  | PanelMessage _ => ret tt
  end.

Definition quote : string := String (ascii_of_nat 34) EmptyString.

Definition orUndefined (o : option string) : string :=
  match o with Some x => x | None => "undefined" end.

Definition handleMatchSelectedClick : M unit :=
  w ← get;
  match selectedDreamForMatch w, selectedEventForMatch w with
  | Some d, Some e =>
      Dreams.openMatchModalForSearch (sd_id d) (sd_content d)
        ("Matched with daily event: " +:+ quote +:+ orUndefined (se_content e) +:+ quote)
  | _, _ =>
      showMessage "info" "Please select exactly one dream and one daily event to match."
  end.

End Search.

(* ===================================================================== *)
(** * stats-module.js                                                    *)
(* ===================================================================== *)

Module Stats.
Import Runtime.

Definition stopWords : list string := [
  "a"; "an"; "the"; "and"; "but"; "or"; "for"; "nor"; "on"; "at"; "to";
    "from"; "by"; "with"; "in"; "out"; "into"; "through"; "over"; "under";
    "of"; "about"; "above"; "below"; "up"; "down"; "then"; "now"; "here";
    "there"; "when"; "where"; "why"; "how"; "all"; "any"; "both"; "each";
    "few"; "more"; "most"; "other"; "some"; "such"; "no"; "not"; "only";
    "own"; "same"; "so"; "than"; "too"; "very"; "s"; "t"; "can"; "will";
    "just"; "don"; "should"; "now"; "ve"; "ll"; "m"; "re"; "d"; "this";
    "that"; "these"; "those"; "is"; "was"; "were"; "be"; "been"; "being";
    "have"; "has"; "had"; "do"; "does"; "did"; "doing"; "would"; "could";
    "shall"; "may"; "might"; "must"; "it"; "its"; "i"; "me"; "my"; "myself";
    "we"; "us"; "our"; "ours"; "ourselves"; "you"; "your"; "yours";
    "yourself"; "yourselves"; "he"; "him"; "his"; "himself"; "she"; "her";
    "hers"; "herself"; "it"; "its"; "itself"; "they"; "them"; "their";
    "theirs"; "themselves"; "what"; "which"; "who"; "whom"; "whose"; "this";
    "that"; "these"; "those"; "am"; "are"; "was"; "were"; "be"; "been";
    "being"; "have"; "has"; "had"; "having"; "do"; "does"; "did"; "doing";
    "go"; "went"; "gone"; "goes"; "going"; "come"; "came"; "comes"; "coming";
    "say"; "says"; "said"; "saying"; "make"; "makes"; "made"; "making";
    "get"; "gets"; "got"; "getting"; "see"; "sees"; "saw"; "seeing"; "know";
    "knows"; "knew"; "knowing"; "take"; "takes"; "took"; "taking"; "think";
    "thinks"; "thought"; "thinking"; "look"; "looks"; "looked"; "looking";
    "want"; "wants"; "wanted"; "wanting"; "give"; "gives"; "gave"; "giving";
    "use"; "uses"; "used"; "using"; "find"; "finds"; "found"; "finding";
    "tell"; "tells"; "told"; "telling"; "ask"; "asks"; "asked"; "asking";
    "work"; "works"; "worked"; "working"; "seem"; "seems"; "seemed";
    "seeming"; "feel"; "feels"; "felt"; "feeling"; "try"; "tries"; "tried";
    "trying"; "leave"; "leaves"; "left"; "leaving"; "call"; "calls";
    "called"; "calling"; "also"; "very"; "much"; "too"; "often"; "always";
    "never"; "sometimes"; "usually"; "really"; "just"; "even"; "still";
    "yet"; "already"; "almost"; "around"; "away"; "back"; "down"; "forward";
    "here"; "in"; "off"; "on"; "out"; "over"; "under"; "of"; "about";
    "above"; "below"; "beneath"; "beside"; "between"; "beyond"; "but"; "by";
    "despite"; "during"; "except"; "for"; "from"; "in"; "inside"; "into";
    "like"; "near"; "of"; "off"; "on"; "onto"; "opposite"; "out"; "outside";
    "over"; "past"; "per"; "plus"; "round"; "save"; "since"; "than";
    "through"; "to"; "toward"; "under"; "underneath"; "until"; "up"; "upon";
    "with"; "within"; "without"; "i'm"; "you're"; "he's"; "she's"; "it's";
    "we're"; "they're"; "i've"; "you've"; "we've"; "they've"; "i'd"; "you'd";
    "he'd"; "she'd"; "we'd"; "they'd"; "i'll"; "you'll"; "he'll"; "she'll";
    "it'll"; "we'll"; "they'll"; "isn't"; "aren't"; "wasn't"; "weren't";
    "hasn't"; "haven't"; "hadn't"; "doesn't"; "don't"; "didn't"; "won't";
    "wouldn't"; "shan't"; "shouldn't"; "can't"; "cannot"; "couldn't";
    "mustn't"; "here's"; "there's"; "what's"; "where's"; "when's"; "why's";
    "how's"; "let's"; "that's"; "who's"; "whom's"; "whose's"; "this's";
    "these's"; "those's"; "mr"; "mrs"; "ms"; "dr"; "prof"; "etc"; "e.g.";
    "i.e."; "vs"; "via"; "etc"; "eg"; "ie"; "dr"; "mr"; "mrs"; "ms"; "prof";
    "fig"; "figs"; "cf"; "viz"
].

Definition isStopWord (word : string) : bool :=
  existsb (String.eqb word) stopWords.

(** [text.split(/[^a-z0-9]+/)]: the pieces between the maximal runs of
    characters outside [[a-z0-9]]; a run at either end leaves an empty
    piece there. *)
Definition startsWithSeparator (s : string) : bool :=
  match s with
  | EmptyString => false
  | String c _ => negb (Js.isAlnumLower c)
  end.

Fixpoint split (s : string) : list string :=
  match s with
  | EmptyString => [EmptyString]
  | String c r =>
      if Js.isAlnumLower c then
        match split r with
        | piece :: pieces => String c piece :: pieces
        | [] => [String c EmptyString]
        end
      else if startsWithSeparator r then split r
      else EmptyString :: split r
  end.

Definition keepWord (word : string) : bool :=
  (1 <? String.length word)%nat && negb (isStopWord word).

(** [tokenizeAndClean(text)], [text] being the result of a property read.
    A truthy value that is not a string has no [toLowerCase]: the call
    throws. *)
Definition tokenizeAndClean (text : option Js.json) : Res (list string) :=
  if negb (Js.truthyVal text) then Ok []
  else
    match text with
    | Some (Js.JStr s) => Ok (List.filter keepWord (split (Js.toLowerCase s)))
    | _ => Throw "text.toLowerCase is not a function"
    end.

(** ** Frequency maps

    A frequency map is a plain object: its own properties in creation
    order, each with its value.  A value is a count, except for a property
    whose name the object inherits ([constructor] is the only inherited
    name the tokenizer can produce): [map[term] || 0] then reads the
    inherited function and [+ 1] makes a string of it. *)
Inductive Freq : Type :=
  | Count (n : Z)
  | NotANumber.

Definition FreqMap : Type := list (string * Freq).

Definition inherited (term : string) : bool := String.eqb term "constructor".

Definition plusOne (f : Freq) : Freq :=
  match f with Count n => Count (n + 1) | NotANumber => NotANumber end.

Fixpoint bumpOwn (term : string) (m : FreqMap) : FreqMap :=
  match m with
  | [] => []
  | (k, f) :: r => if String.eqb term k then (k, plusOne f) :: r else (k, f) :: bumpOwn term r
  end.

(** [map[term] = (map[term] || 0) + 1] *)
Definition bump (m : FreqMap) (term : string) : FreqMap :=
  match Js.assoc term m with
  | Some _ => bumpOwn term m
  | None => (m ++ [(term, if inherited term then NotANumber else Count 1)])%list
  end.

Definition updateFrequencyMap (m : FreqMap) (terms : list string) : FreqMap :=
  fold_left bump terms m.

(** ** [Object.entries]

    Own properties are enumerated with the array indices first, in
    ascending numeric order, then the other names in creation order.  An
    array index is the canonical decimal form of an integer up to
    [2^32 - 2]. *)
Fixpoint allDigits (s : string) : bool :=
  match s with
  | EmptyString => true
  | String c r => Js.isDigit c && allDigits r
  end.

Fixpoint digitsValue (acc : Z) (s : string) : Z :=
  match s with
  | EmptyString => acc
  | String c r => digitsValue (10 * acc + Z.of_nat (Js.code c - 48)) r
  end.

Definition arrayIndex (s : string) : option Z :=
  match s with
  | EmptyString => None
  | String c r =>
      if allDigits s && (negb (Nat.eqb (Js.code c) 48) || String.eqb r "")
      then (if digitsValue 0 s <=? 4294967294 then Some (digitsValue 0 s) else None)
      else None
  end.

Definition isIndex {V} (kv : string * V) : bool :=
  match arrayIndex (fst kv) with Some _ => true | None => false end.

(** Ascending numeric order of the array indices (a name that is not an
    array index would come last; none is compared here). *)
Definition indexLe {V} (a b : string * V) : bool :=
  match arrayIndex (fst a), arrayIndex (fst b) with
  | Some x, Some y => x <=? y
  | Some _, None => true
  | None, Some _ => false
  | None, None => true
  end.

Definition objectEntries {V} (m : list (string * V)) : list (string * V) :=
  (Js.sort indexLe (List.filter isIndex m)
   ++ List.filter (fun kv => negb (isIndex kv)) m)%list.

(** ** [displayTopTerms] *)

Fixpoint counts (m : FreqMap) : option (list (string * Z)) :=
  match m with
  | [] => Some []
  | (k, Count n) :: r =>
      match counts r with Some l => Some ((k, n) :: l) | None => None end
  | (_, NotANumber) :: _ => None
  end.

(** The comparator [([,a],[,b]) => b - a] is not positive when the count
    of [b] does not exceed the count of [a]. *)
Definition higherFirst (a b : string * Z) : bool := snd b <=? snd a.

(** The rows [displayTopTerms] shows.  When a value of the map is not a
    number the comparator yields [NaN] on some pairs, the order of the
    sort is then left to the implementation: no list is given. *)
Definition topTerms (m : FreqMap) : option (list (string * Z)) :=
  match counts (objectEntries m) with
  | Some entries => Some (firstn 5 (Js.sort higherFirst entries))
  | None => None
  end.

Definition displayTopTerms (element : string) (m : FreqMap) : M unit :=
  match m with
  | [] => setText element "No data"
  | _ => emit (RenderTopTerms element (topTerms m))
  end.

(** ** [loadTopInsights] *)

(** The six tokenized fields, in the order the loop body reads them, each
    with the list element that shows its top terms. *)
Definition topFields : list (string * string) :=
  [ ("emotionalContent", "top-emotional-content");
    ("location", "top-locations");
    ("familiarPersonsSpokenTo", "top-familiar-persons");
    ("actionsPerformed", "top-actions-performed");
    ("surfacePsychologicalContent", "top-surface-psychological-content");
    ("messagesReceived", "top-messages-received") ].

(** The frequency maps, by field. *)
Abbreviation FreqMaps := (string -> FreqMap).

Definition noMaps : FreqMaps := fun _ => [].

(** The body of the [try] block for one parsed analysis: the six updates
    in sequence, stopped by the first read or tokenization that throws;
    the updates already made stay. *)
Fixpoint tallyFields (analysis : Js.json) (fields : list string) (maps : FreqMaps)
  : Res unit * FreqMaps :=
  match fields with
  | [] => (Ok tt, maps)
  | f :: rest =>
      match Js.getProp analysis f with
      | None => (Throw "Cannot read properties of null", maps)
      | Some text =>
          match tokenizeAndClean text with
          | Ok terms =>
              tallyFields analysis rest (<[f := updateFrequencyMap (maps f) terms]> maps)
          | Throw e => (Throw e, maps)
          end
      end
  end.

Definition tallyDream (fields : list string) (maps : FreqMaps) (analysisText : Js.JsonText)
  : Res unit * FreqMaps :=
  match Js.parsed analysisText with
  | None => (Throw "Unexpected token", maps)
  | Some analysis => tallyFields analysis fields maps
  end.

(** The loop over the snapshot: the maps, and the identifiers of the
    dreams the [catch] block warned about. *)
Fixpoint tallyAll (fields : list string) (snap : list (string * Archived.t))
    (maps : FreqMaps) : FreqMaps * list string :=
  match snap with
  | [] => (maps, [])
  | (id, d) :: rest =>
      match tallyDream fields maps (Archived.analysisText d) with
      | (Ok _, maps') => tallyAll fields rest maps'
      | (Throw _, maps') =>
          let (maps'', warned) := tallyAll fields rest maps' in (maps'', id :: warned)
      end
  end.

Definition loadTopInsights : M unit :=
  w ← get;
  if negb (authenticated w) then
    forEach (fun f => setText (snd f) "No data") topFields
  else
    showLoading;;
    finally
      (tryCatch
         (dreamsSnapshot ← getDocs archivedColl;
          let (maps, warned) := tallyAll (map fst topFields) dreamsSnapshot noMaps in
          forEach (fun id => console "warn" ("Could not parse analysis for top insights: " +:+ id))
            warned;;
          forEach (fun f => displayTopTerms (snd f) (maps (fst f))) topFields)
         (fun e =>
            console "error" "Error loading top insights:";;
            showMessage "error" ("Failed to load top insights: " +:+ e)))
      hideLoading.

(** ** [loadDetailedDreamStats] *)

(** The twelve keys of [categoryCounts], in creation order, each with the
    element that shows its count. *)
Definition categories : list (string * string) :=
  [ ("actionsPerformed", "stat-actions-performed");
    ("location", "stat-location-info");
    ("timeInDream", "stat-time-in-dream");
    ("movementsThroughTime", "stat-movements-through-time");
    ("emotionalContent", "stat-emotional-content");
    ("surfacePsychologicalContent", "stat-surface-psychological-content");
    ("workDoneInDream", "stat-work-done-in-dream");
    ("familiarPersonsSpokenTo", "stat-familiar-persons-spoken-to");
    ("relationToPastEvents", "stat-relation-to-past-events");
    ("relationToFutureEvents", "stat-relation-to-future-events");
    ("messagesReceived", "stat-messages-received");
    ("awarenessOfSpace", "stat-awareness-of-space") ].

Abbreviation CategoryCounts := (string -> Z).

Definition noCounts : CategoryCounts := fun _ => 0.

(** The [for (const key in categoryCounts)] loop over one parsed analysis:
    [if (analysis[key] && analysis[key].trim() !== '') categoryCounts[key]++].
    A truthy value that is not a string has no [trim]: the call throws,
    and the counts already raised stay. *)
Fixpoint countFields (analysis : Js.json) (keys : list string) (categoryCounts : CategoryCounts)
  : Res unit * CategoryCounts :=
  match keys with
  | [] => (Ok tt, categoryCounts)
  | key :: rest =>
      match Js.getProp analysis key with
      | None => (Throw "Cannot read properties of null", categoryCounts)
      | Some v =>
          if Js.truthyVal v then
            match v with
            | Some (Js.JStr s) =>
                countFields analysis rest
                  (if Js.truthyStr (Js.trim s)
                   then <[key := categoryCounts key + 1]> categoryCounts
                   else categoryCounts)
            | _ => (Throw "analysis[key].trim is not a function", categoryCounts)
            end
          else countFields analysis rest categoryCounts
      end
  end.

Definition countDream (keys : list string) (categoryCounts : CategoryCounts)
    (analysisText : Js.JsonText) : Res unit * CategoryCounts :=
  match Js.parsed analysisText with
  | None => (Throw "Unexpected token", categoryCounts)
  | Some analysis => countFields analysis keys categoryCounts
  end.

Fixpoint countAll (keys : list string) (snap : list (string * Archived.t))
    (categoryCounts : CategoryCounts) : CategoryCounts * list string :=
  match snap with
  | [] => (categoryCounts, [])
  | (id, d) :: rest =>
      match countDream keys categoryCounts (Archived.analysisText d) with
      | (Ok _, c) => countAll keys rest c
      | (Throw _, c) =>
          let (c', warned) := countAll keys rest c in (c', id :: warned)
      end
  end.

Definition loadDetailedDreamStats : M unit :=
  w ← get;
  if negb (authenticated w) then
    forEach (fun c => setText (snd c) "N/A") categories
  else
    showLoading;;
    finally
      (tryCatch
         (dreamsSnapshot ← getDocs archivedColl;
          let (categoryCounts, warned) :=
            countAll (map fst categories) dreamsSnapshot noCounts in
          forEach (fun id => console "warn" ("Could not parse analysis for dream: " +:+ id))
            warned;;
          forEach (fun c => emit (SetCount (snd c) (categoryCounts (fst c)))) categories)
         (fun e =>
            console "error" "Error loading detailed dream stats:";;
            showMessage "error" ("Failed to load detailed dream statistics: " +:+ e)))
      hideLoading.

(** ** [loadStats] *)

Definition loadStats : M unit :=
  w ← get;
  if negb (authenticated w) then
    setText "stat-total-dreams" "N/A";;
    setText "stat-total-events" "N/A";;
    setText "stat-total-chats" "N/A";;
    setText "stat-matched-dreams" "N/A"
  else
    showLoading;;
    finally
      (tryCatch
         (dreamsSnapshot ← getDocs archivedColl;
          emit (SetCount "stat-total-dreams" (Z.of_nat (length dreamsSnapshot)));;
          eventsSnapshot ← getDocs eventColl;
          emit (SetCount "stat-total-events" (Z.of_nat (length eventsSnapshot)));;
          chatsSnapshot ← getDocs conversationColl;
          emit (SetCount "stat-total-chats" (Z.of_nat (length chatsSnapshot)));;
          emit (SetCount "stat-matched-dreams"
                  (Z.of_nat (length (List.filter (fun r => Archived.matched (snd r))
                                       dreamsSnapshot)))))
         (fun e =>
            console "error" "Error loading stats:";;
            showMessage "error" ("Failed to load statistics: " +:+ e)))
      hideLoading.

End Stats.

(* ===================================================================== *)
(** * Vocabulary of the statements                                       *)
(* ===================================================================== *)

Module Spec.
Import Runtime.

(** [contains s t]: the text [t] occurs in [s]. *)
Definition contains (s t : string) : Prop := ∃ a b, s = a +:+ t +:+ b.

(** [keeps R m]: running [m] takes every world to an [R]-related one,
    whether [m] returns or throws. *)
Definition keeps {A} (R : relation World) (m : M A) : Prop :=
  ∀ w, R w (snd (m w)).

(** [same proj]: the part [proj] of the world is left as it was. *)
Definition same {X} (proj : World -> X) : relation World :=
  fun w w' => proj w' = proj w.

(** Every archived dream is still stored, as it was or with the match
    text [t]. *)
Definition matchKept (t : string) : relation World := fun w w' =>
  ∀ u id d, docs archivedColl w u !! id = Some d →
    docs archivedColl w' u !! id = Some d
    ∨ docs archivedColl w' u !! id = Some (Archived.setMatch t d).

(** The answers on which [performDreamAnalysis] gives up: no answer, an
    unreadable body, or a body without the candidates/content/parts
    path. *)
Definition failedAnswer (script : list Gemini.Outcome) : Prop :=
  match script with
  | [] => True
  | Gemini.NetworkError _ :: _ => True
  | Gemini.Response _ (Gemini.NotJson _) :: _ => True
  | Gemini.Response _ Gemini.JsonNull :: _ => True
  | Gemini.Response _ (Gemini.Json result) :: _ => Dreams.firstPart result = None
  end.

(** The search panel showing the result rows [ds] and [es], all boxes
    unchecked; with no row at all it shows a sentence instead. *)
Definition resultsPanel (ds : list DreamItem) (es : list EventItem) : Panel :=
  match ds, es with
  | [], [] =>
      PanelMessage "No results found for your search criteria in either dreams or daily events."
  | _, _ => PanelResults (map (fun i => (i, false)) ds) (map (fun i => (i, false)) es)
  end.

(** The search term the code works with: the input trimmed, in lower
    case. *)
Definition searchTermOf (input : string) : string := Js.toLowerCase (Js.trim input).

Definition scopeOf (timeScopeSearch : option string) : string :=
  match timeScopeSearch with Some v => v | None => "allTime" end.

(** No store call of the script is rejected. *)
Definition storeAnswers (w : World) : Prop := Forall (eq None) (storeOutcomes w).

(** What the search panel shows after a search. *)
Definition searched (w : World) (input : string) (scope : option string) : Panel :=
  searchResultsList (snd (Search.performSearch (Some input) scope w)).

Definition dreamsShown (p : Panel) : list DreamItem := map fst (shownDreams p).
Definition eventsShown (p : Panel) : list EventItem := map fst (shownEvents p).


(** ** Statistics *)

(** The keys that come before [key] in the loop over [keys]. *)
Fixpoint before (keys : list string) (key : string) : list string :=
  match keys with
  | [] => []
  | k :: rest => if String.eqb k key then [] else k :: before rest key
  end.

(** A field value the counting loop gets past: a falsy value (or no
    value), or a string. *)
Definition passes (v : option Js.json) : bool :=
  negb (Js.truthyVal v) || match v with Some (Js.JStr _) => true | _ => false end.

(** A field value that is text, not empty once trimmed. *)
Definition nonEmptyText (v : option Js.json) : bool :=
  match v with
  | Some (Js.JStr s) => Js.truthyStr (Js.trim s)
  | _ => false
  end.

Definition readPasses (a : Js.json) (k : string) : bool :=
  match Js.getProp a k with Some v => passes v | None => false end.

Definition readNonEmpty (a : Js.json) (k : string) : bool :=
  match Js.getProp a k with Some v => nonEmptyText v | None => false end.

(** The dream with analysis text [t] counts for [key]: the text parses,
    the value of [key] is text that is not empty once trimmed, and the
    loop gets past every earlier key. *)
Definition adds (a : Js.json) (keys : list string) (key : string) : bool :=
  existsb (String.eqb key) keys
  && forallb (readPasses a) (before keys key)
  && readNonEmpty a key.

Definition countsFor (keys : list string) (key : string) (t : Js.JsonText) : bool :=
  match Js.parsed t with
  | None => false
  | Some a => adds a keys key
  end.

(** The text parses and the value of [key] is text that is not empty once
    trimmed. *)
Definition filled (key : string) (t : Js.JsonText) : bool :=
  match Js.parsed t with
  | None => false
  | Some a => readNonEmpty a key
  end.

Definition one (b : bool) : Z := if b then 1 else 0.

(** How many rows of a snapshot satisfy [p]. *)
Definition howMany {D} (p : Js.JsonText → bool) (text : D → Js.JsonText)
    (snap : list (string * D)) : Z :=
  Z.of_nat (length (List.filter (λ r, p (text (snd r))) snap)).

(** The twelve keys of [categoryCounts], in the order of the object
    literal, and what the aggregation leaves for a snapshot. *)
Definition countedKeys : list string := map fst Stats.categories.

Definition aggregated (snap : list (string * Archived.t)) : Stats.CategoryCounts * list string :=
  Stats.countAll countedKeys snap Stats.noCounts.

(** The loop runs through for the dream: the text parses and every value
    read passes. *)
Definition runsThrough (keys : list string) (t : Js.JsonText) : bool :=
  match Js.parsed t with
  | None => false
  | Some a => forallb (readPasses a) keys
  end.

(** The analysis is typed as the response schema asks: an object whose
    values, for the given keys, are strings when present. *)
Definition schemaTyped (keys : list string) (t : Js.JsonText) : Prop :=
  match Js.parsed t with
  | None => True
  | Some a => forallb (readPasses a) keys = true
  end.

(** ** Vocabulary of the top terms *)

(** [precedes a b l]: an occurrence of [a] comes before one of [b] in [l]. *)
Definition precedes {A} (a b : A) (l : list A) : Prop :=
  ∃ l1 l2 l3, l = (l1 ++ a :: l2 ++ b :: l3)%list.

(** The distinct terms of a sequence, each at its first occurrence. *)
Fixpoint firstSeen (terms : list string) : list string :=
  match terms with
  | [] => []
  | t :: r => t :: List.filter (λ u, negb (String.eqb u t)) (firstSeen r)
  end.

Definition occurrences (t : string) (terms : list string) : Z :=
  Z.of_nat (length (List.filter (String.eqb t) terms)).

Fixpoint allAlnumLower (s : string) : bool :=
  match s with
  | EmptyString => true
  | String c r => Js.isAlnumLower c && allAlnumLower r
  end.

(** The terms the loop body adds to the map of field [f] for one parsed
    analysis: the updates are made field by field until a read or a
    tokenization throws. *)
Fixpoint fieldTerms (analysis : Js.json) (fields : list string) (f : string) : list string :=
  match fields with
  | [] => []
  | g :: rest =>
      match Js.getProp analysis g with
      | None => []
      | Some text =>
          match Stats.tokenizeAndClean text with
          | Ok terms =>
              ((if String.eqb g f then terms else []) ++ fieldTerms analysis rest f)%list
          | Throw _ => []
          end
      end
  end.

Definition dreamTerms (fields : list string) (f : string) (t : Js.JsonText) : list string :=
  match Js.parsed t with
  | None => []
  | Some a => fieldTerms a fields f
  end.

(** The terms met for field [f] over a snapshot, in the order met. *)
Definition encountered (fields : list string) (f : string)
    (snap : list (string * Archived.t)) : list string :=
  flat_map (λ r, dreamTerms fields f (Archived.analysisText (snd r))) snap.

(** The value a frequency map holds for a term met in [terms]. *)
Definition freqOf (terms : list string) (t : string) : Stats.Freq :=
  if Stats.inherited t then Stats.NotANumber else Stats.Count (occurrences t terms).

(** The order of [Object.entries] between two own property names of a
    map whose names were created in the order [seen]. *)
Definition entriesOrder (seen : list string) (a b : string) : Prop :=
  match Stats.arrayIndex a, Stats.arrayIndex b with
  | Some x, Some y => x < y
  | Some _, None => True
  | None, Some _ => False
  | None, None => precedes a b seen
  end.

(** A term as the tokenizer lets it through. *)
Definition goodTerm (t : string) : Prop :=
  (1 < String.length t)%nat ∧ allAlnumLower t = true ∧ Stats.isStopWord t = false.

(** The six tokenized fields, the maps and warnings the loop leaves for
    a snapshot, and the terms met for a field. *)
Definition topKeys : list string := map fst Stats.topFields.

Definition tallied (snap : list (string * Archived.t)) : Stats.FreqMaps * list string :=
  Stats.tallyAll topKeys snap Stats.noMaps.

Definition met (f : string) (snap : list (string * Archived.t)) : list string :=
  encountered topKeys f snap.

(** What [displayTopTerms] writes. *)
Definition written (element : string) (m : Stats.FreqMap) : Effect :=
  match m with
  | [] => SetText element "No data"
  | _ => RenderTopTerms element (Stats.topTerms m)
  end.

(** The decimal numeral of an array index: digits, with no leading zero
    unless the numeral is the digit zero. *)
Definition canonical (s : string) : Prop :=
  Stats.allDigits s = true
  ∧ ∃ c r, s = String c r ∧ (Js.code c ≠ 48%nat ∨ r = "").

(** ** The search page as a transition system *)

(** What the user can do on the search page. *)
Inductive Action : Type :=
  | SearchFor (input scope : option string)   (* search button, scope change *)
  | ClickDreamBox (i : nat)                   (* checkbox of dream row [i] *)
  | ClickEventBox (i : nat)                   (* checkbox of event row [i] *)
  | ClickMatchSelected                        (* "Match Selected" *)
  | ClickAddMatch (i : nat).                  (* "Add Match" of dream row [i] *)

Definition handler (a : Action) : M unit :=
  match a with
  | SearchFor input scope => Search.performSearch input scope
  | ClickDreamBox i => Search.dreamCheckboxChange i
  | ClickEventBox i => Search.eventCheckboxChange i
  | ClickMatchSelected => Search.handleMatchSelectedClick
  | ClickAddMatch i =>
      w ← get;
      match shownDreams (searchResultsList w) !! i with
      | Some (item, _) =>
          Dreams.openMatchModalForSearch (di_id item) (di_content item)
            (di_matchedRealityEvent item)
      | None => ret tt
      end
  end.

(** The part of the world the selection lives in. *)
Definition selection (w : World)
  : Panel * option SelectedDream * option SelectedEvent :=
  (searchResultsList w, selectedDreamForMatch w, selectedEventForMatch w).

(** One step of the page: a handler of the search page runs, or anything
    else happens that leaves the panel and the two selection variables
    alone (the other modules never write them). *)
Inductive step : World -> World -> Prop :=
  | step_action a w : step w (snd (handler a w))
  | step_other w w' : selection w' = selection w -> step w w'.

(** The page as loaded: no result row, nothing selected. *)
Definition pageLoaded (w : World) : Prop :=
  (exists html, searchResultsList w = PanelMessage html)
  /\ selectedDreamForMatch w = None
  /\ selectedEventForMatch w = None.

Definition selectDream (item : DreamItem) : SelectedDream :=
  mkSelectedDream (di_id item) (di_content item) (di_title item).

Definition selectEvent (item : EventItem) : SelectedEvent :=
  mkSelectedEvent (ei_id item) (ei_content item).

(** At most one box of each kind is checked, and a checked box is the row
    held in the selection variable. *)
Definition singleSelection (w : World) : Prop :=
  (length (checked (shownDreams (searchResultsList w))) <= 1)%nat
  /\ (length (checked (shownEvents (searchResultsList w))) <= 1)%nat
  /\ (forall item, In item (checked (shownDreams (searchResultsList w))) ->
        selectedDreamForMatch w = Some (selectDream item))
  /\ (forall item, In item (checked (shownEvents (searchResultsList w))) ->
        selectedEventForMatch w = Some (selectEvent item)).

(** No box is checked. *)
Definition noneChecked (w : World) : Prop :=
  checked (shownDreams (searchResultsList w)) = []
  /\ checked (shownEvents (searchResultsList w)) = [].

(** Boxes that are all unchecked stay so. *)
Definition staysUnchecked : relation World :=
  fun w w' => noneChecked w -> noneChecked w'.

(** The world after a store call that is answered. *)
Definition answered (c : RemoteCall) (w : World) : World :=
  set_storeOutcomes (tail (storeOutcomes w)) (set_trace (trace w ++ [Remote c]) w).

End Spec.

(* ===================================================================== *)
(** * Sample worlds                                                      *)
(* ===================================================================== *)

Module Examples.
Import Runtime.

Definition q (s : string) : string := Search.quote +:+ s +:+ Search.quote.

(** A dream archived on 14 November 2023, matched to nothing yet. *)
Definition flying : Archived.t :=
  Archived.mk (Some "I was flying over Paris") (Js.mkJsonText "{}" (Some (Js.JObj [])))
    (Some "Flight") (Some 1700000000000) (Some "").

Definition oneDream : UserData :=
  mkUserData ∅ {[ "d1" := flying ]} ∅ ∅.

(** A signed-in user with the match modal open on dream [d1]. *)
Definition matching (typed : string) : World :=
  mkWorld (Some "u1") true {[ "u1" := oneDream ]}
    1700000500000 1700000500000 1668900000000 [] []
    None (Some "d1") None None true (PanelMessage "") typed (Some "summary") [].

(** An analysis as the model answers it. *)
Definition analysis : Js.JsonText :=
  Js.mkJsonText
    ("{" +:+ q "actionsPerformed" +:+ ":" +:+ q "flying" +:+ ","
         +:+ q "location" +:+ ":" +:+ q "Paris" +:+ "}")
    (Some (Js.JObj [("actionsPerformed", Js.JStr "flying"); ("location", Js.JStr "Paris")])).

Definition answer (text : option Js.JsonText) : Gemini.Body :=
  Gemini.Json
    (Gemini.mkResult
       (Some [Gemini.mkCandidate
                (Some (Gemini.mkContent (Some [Gemini.mkPart text])))])).

Definition draft : Draft.t :=
  Draft.mk "I was flying over Paris" "Flight" (Some 1700000000000) false.

(** A signed-in user with one draft, about to pre-analyse it: [answers]
    scripts the endpoint, [outcomes] the store. *)
Definition archiving (answers : list Gemini.Outcome) (outcomes : list (option string))
  : World :=
  mkWorld (Some "u1") true {[ "u1" := mkUserData {[ "d1" := draft ]} ∅ ∅ ∅ ]}
    1700000500000 1700000500000 1668900000000 outcomes answers
    None None None None true (PanelMessage "") "" (Some "summary") [].

Definition denied : option string := Some "Missing or insufficient permissions.".

(** The user of [matching] after signing out elsewhere: the modal is still
    open on dream [d1]. *)
Definition signedOut (typed : string) : World :=
  mkWorld None true {[ "u1" := oneDream ]}
    1700000500000 1700000500000 1668900000000 [denied] []
    None (Some "d1") None None true (PanelMessage "") typed (Some "summary") [].

(** A journal: three archived dreams, one of them forty days old and one
    without timestamp, and two daily events, one without timestamp. *)
Definition now : Z := 1700000500000.

Definition journal : UserData :=
  mkUserData ∅
    {[ "d1" := flying;
       "d2" := Archived.mk (Some "Flying fish in the bay") analysis (Some "Fish")
                 (Some (now - 40 * Search.day)) (Some "");
       "d3" := Archived.mk (Some "A fly on the wall") analysis (Some "")
                 None (Some "") ]}
    {[ "e1" := Event.mk (Some "Butterfly garden visit") (Some (now - Search.day));
       "e2" := Event.mk (Some "Fly fishing with Ann") None ]}
    ∅.

Definition searcher : World :=
  mkWorld (Some "u1") true {[ "u1" := journal ]}
    now now (now - 365 * Search.day) [] []
    None None None None true (PanelMessage "") "" (Some "summary") [].

(** Eleven daily events, one a minute, all mentioning a walk. *)
Definition walk (i : nat) : string * Event.t :=
  (String (ascii_of_nat (97 + i)) "",
   Event.mk (Some "Morning walk") (Some (now - 60000 * Z.of_nat (11 - i)))).

Definition busy : World :=
  mkWorld (Some "u1") true
    {[ "u1" := mkUserData ∅ ∅ (list_to_map (map walk (seq 0 11))) ∅ ]}
    now now (now - 365 * Search.day) [] []
    None None None None true (PanelMessage "") "" (Some "summary") [].

(** An analysis whose first field came back as a number. *)
Definition mistyped : Js.JsonText :=
  Js.mkJsonText
    ("{" +:+ q "actionsPerformed" +:+ ":5,"
         +:+ q "location" +:+ ":" +:+ q "home" +:+ "}")
    (Some (Js.JObj [("actionsPerformed", Js.JNum 5); ("location", Js.JStr "home")])).

(** A signed-in user with two archived dreams: the analysis of one is
    [mistyped], that of the other is no JSON. *)
Definition dreamer : World :=
  mkWorld (Some "u1") true
    {[ "u1" := mkUserData ∅
         {[ "d1" := Archived.mk (Some "At home") mistyped (Some "Home")
                      (Some 1700000000000) (Some "");
            "d2" := Archived.mk (Some "Lost") (Js.mkJsonText "Analysis failed" None)
                      (Some "Lost") (Some 1700000100000) (Some "") ]} ∅ ∅ ]}
    now now (now - 365 * Search.day) [] []
    None None None None true (PanelMessage "") "" (Some "summary") [].

(** An analysis that mentions a room number. *)
Definition lodging : Js.JsonText :=
  Js.mkJsonText
    ("{" +:+ q "location" +:+ ":" +:+ q "Room 10, hotel" +:+ "}")
    (Some (Js.JObj [("location", Js.JStr "Room 10, hotel")])).

(** A signed-in user with one archived dream, analysed as [lodging]. *)
Definition lodger : World :=
  mkWorld (Some "u1") true
    {[ "u1" := mkUserData ∅
         {[ "d1" := Archived.mk (Some "A night away") lodging (Some "Hotel")
                      (Some 1700000000000) (Some "") ]} ∅ ∅ ]}
    now now (now - 365 * Search.day) [] []
    None None None None true (PanelMessage "") "" (Some "summary") [].

(** The journal searched for "fly"; then a dream, an event and a second
    dream are checked. *)
Definition afterClicks : World :=
  snd (Spec.handler (Spec.ClickDreamBox 1)
    (snd (Spec.handler (Spec.ClickEventBox 0)
      (snd (Spec.handler (Spec.ClickDreamBox 0)
        (snd (Spec.handler (Spec.SearchFor (Some "fly") (Some "allTime")) searcher))))))).

End Examples.
Local Open Scope list_scope.

(* ===================================================================== *)
(** * The buttons of the Dreams and Reality tabs                         *)
(* ===================================================================== *)

Module Buttons.
Import Runtime.

(** The value of an input, trimmed; empty when the input is not in the
    page ([input ? input.value.trim() : '']). *)
Definition trimmedValue (input : option string) : string :=
  match input with Some v => Js.trim v | None => "" end.

(** [if (input) input.value = ''] *)
Definition clearInput (element : string) (input : option string) : M unit :=
  match input with Some _ => setText element "" | None => ret tt end.

(** dreams-module.js, [initializeDreamsModule]: the click handler of
    [#add-dream-button].  [dreamInputDraft] and [dreamTitleDraft] are the
    values of the two inputs of the Drafts tab. *)
Definition addDreamClick (dreamInputDraft dreamTitleDraft : option string) : M unit :=
  let dreamText := trimmedValue dreamInputDraft in
  let dreamTitle := trimmedValue dreamTitleDraft in
  if negb (Js.truthyStr dreamText) then
    showMessage "info" "Please enter some text for your dream."
  else
    tryCatch
      (w ← get;
       (if Js.truthyOpt (currentDraftId w) then
          Dreams.updateDraftDream (Js.orEmpty (currentDraftId w)) dreamText dreamTitle false;;
          modify (set_currentDraftId None);;
          showMessage "success" "Draft dream updated!"
        else
          Dreams.saveDraftDream dreamText dreamTitle false;;
          showMessage "success" "New dream added to drafts!");;
       clearInput "dream-input-draft" dreamInputDraft;;
       clearInput "dream-title-draft" dreamTitleDraft;;
       detached Dreams.loadDraftDreams)
      (fun e =>
         console "error" "Error adding/updating dream:";;
         showMessage "error" ("Failed to add/update dream: " +:+ e)).

(** reality-module.js, [initializeRealityModule]: the click handler of
    [#log-daily-event-button]. *)
Definition logDailyEventClick (dailyEventInput : option string) : M unit :=
  let eventText := trimmedValue dailyEventInput in
  if Js.truthyStr eventText then Reality.saveDailyEvent eventText
  else showMessage "info" "Please enter some text for your daily event.".

End Buttons.

(* ===================================================================== *)
(** * dreams-module.js: the details of an archived dream                 *)
(* ===================================================================== *)

Module Details.
Import Runtime.

(** A child of [#view-analysis-content]: a section (heading and text) or
    the paragraph of the [catch] block. *)
Inductive Node : Type :=
  | SectionItem (heading text : string)
  | Paragraph (text : string).

(** The modal [#view-dream-details-modal]: what its title and text
    elements were given, the children of its analysis element and its
    [hidden] class. *)
Record Modal : Type := mkModal {
  title : string;
  dreamText : option string;
  analysisContent : list Node;
  hidden : bool
}.

Definition analysisHeadings : list (string * string) :=
  [ ("actionsPerformed", "Actions Performed");
    ("location", "Location");
    ("timeInDream", "Time in Dream");
    ("movementsThroughTime", "Movements Through Time");
    ("emotionalContent", "Emotional Content");
    ("surfacePsychologicalContent", "Surface Psychological Content");
    ("workDoneInDream", "Work Done Within the Dream");
    ("familiarPersonsSpokenTo", "Familiar Persons Spoken To");
    ("relationToPastEvents", "Relation to Past Events");
    ("relationToFutureEvents", "Relation to Future Events");
    ("messagesReceived", "Messages Given or Received");
    ("awarenessOfSpace", "Awareness of Space") ].

(** The [for (const key in analysisHeadings)] loop:
    [if (parsedAnalysis[key] && parsedAnalysis[key].trim() !== '')] a
    section is appended.  A truthy value that is not a string has no
    [trim]: the call throws, and the sections already appended stay. *)
Fixpoint appendSections (parsedAnalysis : Js.json) (headings : list (string * string))
    (content : list Node) : Res unit * list Node :=
  match headings with
  | [] => (Ok tt, content)
  | (key, heading) :: rest =>
      match Js.getProp parsedAnalysis key with
      | None => (Throw "Cannot read properties of null", content)
      | Some v =>
          if Js.truthyVal v then
            match v with
            | Some (Js.JStr s) =>
                appendSections parsedAnalysis rest
                  (if Js.truthyStr (Js.trim s)
                   then content ++ [SectionItem heading s]
                   else content)
            | _ => (Throw "parsedAnalysis[key].trim is not a function", content)
            end
          else appendSections parsedAnalysis rest content
      end
  end.

Definition rawContent (analysisText : Js.JsonText) : string :=
  "Error: Could not display detailed analysis. Raw content: " +:+ Js.raw analysisText.

(** [displayArchivedDreamDetails(dreamData)], on the modal as it is;
    [elementsPresent] says that the four elements are in the page.  The
    result is the modal and what was written to the console. *)
Definition displayArchivedDreamDetails (elementsPresent : bool) (dreamData : Archived.t)
    (modal : Modal) : Modal * list string :=
  if negb elementsPresent then
    (modal, ["Missing UI elements for dream details modal."])
  else
    let viewTitle :=
      if Js.truthyOpt (Archived.dreamTitle dreamData)
      then Js.orEmpty (Archived.dreamTitle dreamData) else "Untitled Dream" in
    let viewText := Archived.dreamText dreamData in
    match
      match Js.parsed (Archived.analysisText dreamData) with
      | None => (Throw "Unexpected token", [])
      | Some parsedAnalysis => appendSections parsedAnalysis analysisHeadings []
      end
    with
    | (Ok _, content) => (mkModal viewTitle viewText content false, [])
    | (Throw _, content) =>
        (mkModal viewTitle viewText
           (content ++ [Paragraph (rawContent (Archived.analysisText dreamData))]) false,
         ["Failed to parse JSON for archived dream details:"])
    end.

End Details.

(* ===================================================================== *)
(** * dreams-module.js: the Analysis tab                                 *)
(* ===================================================================== *)

Module AnalysisTab.
Import Runtime.

(** A fetched dream: [{ id: doc.id, ...dreamData }]. *)
Abbreviation Fetched := (string * Archived.t)%type.

(** [dreamTimestamp >= startDate.getTime()], with
    [dream.timestamp ? dream.timestamp.toDate().getTime() : 0]. *)
Definition since (start : Z) (dream : Fetched) : bool :=
  start <=? Search.millis (Archived.timestamp (snd dream)).

(** The view of the four holistic scopes: the list of single dreams is
    hidden and the button shown. *)
Definition holisticView : M unit :=
  emit (SetHidden "per-dream-analysis-list" true);;
  emit (SetHidden "analyze-dream-in-analysis-tab" false);;
  setText "analyze-dream-in-analysis-tab" "Analyze Dreams Holistically".

(** The [switch (selectedScope)]: what is assigned to [dreamsToAnalyze],
    [None] in the [default] case.  [todayStartMs] is the time of
    [new Date(now).setHours(0, 0, 0, 0)]. *)
Definition inScope (todayStartMs : Z) (selectedScope : string)
    (fetchedDreams : list Fetched) : M (option (list Fetched)) :=
  w ← get;
  if String.eqb selectedScope "lastNight" then
    emit (SetHidden "per-dream-analysis-list" false);;
    emit (SetHidden "analyze-dream-in-analysis-tab" true);;
    ret (Some (List.filter (since todayStartMs) fetchedDreams))
  else if String.eqb selectedScope "last7Days" then
    holisticView;;
    ret (Some (List.filter (since (nowMs w - 7 * Search.day)) fetchedDreams))
  else if String.eqb selectedScope "last30Days" then
    holisticView;;
    ret (Some (List.filter (since (nowMs w - 30 * Search.day)) fetchedDreams))
  else if String.eqb selectedScope "lastYear" then
    holisticView;;
    ret (Some (List.filter (since (lastYearStartMs w)) fetchedDreams))
  else if String.eqb selectedScope "allTime" then
    holisticView;;
    ret (Some fetchedDreams)
  else
    setText "per-dream-analysis-list" "Invalid time scope selected.";;
    emit (SetHidden "analyze-dream-in-analysis-tab" true);;
    ret None.

(** [dreamsToAnalyze.sort((a, b) => timestampB - timestampA)] *)
Definition newestFirst : list Fetched -> list Fetched :=
  Js.sort (fun a b => Search.newerFirst (Archived.timestamp (snd a))
                        (Archived.timestamp (snd b))).

(** The rows of the last-night list; a row reads
    [dreamData.dreamText.substring] and throws on a dream without text. *)
Definition listSingleDreams (dreams : list Fetched) : M unit :=
  match dreams with
  | [] => setText "per-dream-analysis-list" "No archived dreams logged from last night."
  | _ =>
      forEach (fun d => Search.renderable (Archived.dreamText (snd d))) dreams;;
      emit (RenderRows "per-dream-analysis-list" (map fst dreams))
  end.

Definition loadFailed (e : string) : M unit :=
  console "error" "Error loading dreams for analysis scope:";;
  showMessage "error" ("Failed to load dreams for analysis: " +:+ e);;
  setText "per-dream-analysis-list" "Error loading dreams for analysis.".

(** [loadDreamsForAnalysisTab()].  [timeScopeSelect] is the value of the
    scope selector ([None] when it is not in the page) and
    [dreamsToAnalyze] the module variable, whose value after the call is
    what the call returns.  The variable is assigned and sorted before the
    list is rendered: when the rendering throws, the [catch] block runs on
    the new value.  The two [console.log] lines are left out. *)
Definition loadDreamsForAnalysisTab (timeScopeSelect : option string) (todayStartMs : Z)
    (dreamsToAnalyze : list Fetched) : M (list Fetched) :=
  w ← get;
  if negb (authenticated w) then
    setText "per-dream-analysis-list" "Please sign in to load dreams for analysis.";;
    ret dreamsToAnalyze
  else
    let selectedScope := match timeScopeSelect with Some v => v | None => "allTime" end in
    setText "per-dream-analysis-list" "Loading dreams...";;
    showLoading;;
    finally
      (tryCatch
         (snapshot ← getDocsDesc archivedColl Archived.timestamp;
          assigned ← inScope todayStartMs selectedScope snapshot;
          match assigned with
          | None => ret dreamsToAnalyze
          | Some kept =>
              let dreamsToAnalyze := newestFirst kept in
              rendered ← attempt
                (setText "per-dream-analysis-list" "";;
                 (if String.eqb selectedScope "lastNight"
                  then listSingleDreams dreamsToAnalyze else ret tt);;
                 setText "analysis-content" "";;
                 emit (SetHidden "dream-analysis-output" true));
              match rendered with
              | Ok _ => ret dreamsToAnalyze
              | Throw e => loadFailed e;; ret dreamsToAnalyze
              end
          end)
         (fun e => loadFailed e;; ret dreamsToAnalyze))
      hideLoading.

(** [d => `${titlePart}Dream: ${d.dreamText}`] *)
Definition holisticEntry (d : Fetched) : string :=
  (if Js.truthyOpt (Archived.dreamTitle (snd d))
   then "Title: " +:+ Js.orEmpty (Archived.dreamTitle (snd d)) +:+ String (ascii_of_nat 10) ""
   else "")
  +:+ "Dream: " +:+ Search.orUndefined (Archived.dreamText (snd d)).

(** [parts.join(separator)] *)
Fixpoint join (separator : string) (parts : list string) : string :=
  match parts with
  | [] => ""
  | [p] => p
  | p :: rest => p +:+ separator +:+ join separator rest
  end.

Definition holisticSeparator : string :=
  String (ascii_of_nat 10) (String (ascii_of_nat 10) "---")
  +:+ String (ascii_of_nat 10) (String (ascii_of_nat 10) "").

(** The click handler of [#analyze-dream-in-analysis-tab].  Reading the
    selected output format throws when no radio is checked. *)
Definition analyzeClick (timeScopeSelect : option string) (dreamsToAnalyze : list Fetched)
  : M unit :=
  let selectedScope := match timeScopeSelect with Some v => v | None => "allTime" end in
  w ← get;
  match outputFormat w with
  | None => throw "Cannot read properties of null (reading 'value')"
  | Some _ =>
      if String.eqb selectedScope "lastNight" then
        match dreamsToAnalyze with
        | [] =>
            showMessage "info"
              "No archived dreams found for last night. Please pre-analyse dreams in the 'Drafts' tab first."
        | _ =>
            showMessage "info"
              ("For " +:+ Search.quote +:+ "Last Night" +:+ Search.quote
               +:+ " analysis, please click the " +:+ Search.quote +:+ "View Analysis"
               +:+ Search.quote +:+ " button next to each dream in the list above.")
        end
      else
        match dreamsToAnalyze with
        | [] =>
            showMessage "info"
              ("No archived dreams found for " +:+ selectedScope
               +:+ " to analyze. Please pre-analyse dreams in the 'Drafts' tab first.")
        | _ =>
            let dreamTextForAnalysis :=
              join holisticSeparator (map holisticEntry dreamsToAnalyze) in
            if negb (Js.truthyStr dreamTextForAnalysis) then
              showMessage "info"
                ("No archived dreams found for " +:+ selectedScope
                 +:+ " to perform holistic analysis.")
            else
              Dreams.performDreamAnalysis dreamTextForAnalysis "" false;;
              ret tt
        end
  end.

End AnalysisTab.

Module SingleAnalysis.
Import Runtime.

(** [displayIndividualAnalysis(dreamData)]: the stored analysis of one
    dream of the last-night list, in the selected output format.  The
    elements and the radios are taken to be in the page; reading the
    selected format throws when no radio is checked, before the [try]
    block.  Nothing is appended before a statement of the block throws,
    so that the paragraph of the [catch] block is all the content. *)
Definition displayIndividualAnalysis (dreamData : Archived.t) : M unit :=
  setText "analysis-content" "";;
  w ← get;
  match outputFormat w with
  | None => throw "Cannot read properties of null (reading 'value')"
  | Some selectedFormatForDisplay =>
      let analysisOutputJsonString := Archived.analysisText dreamData in
      tryCatch
        (if negb (Js.truthyStr (Js.raw analysisOutputJsonString)) then
           setText "analysis-content" "No detailed analysis available for this dream.";;
           emit (SetHidden "dream-analysis-output" false)
         else
           match Js.parsed analysisOutputJsonString with
           | None => throw "Unexpected token"
           | Some parsedAnalysis =>
               (if String.eqb selectedFormatForDisplay "summary" then
                  match parsedAnalysis with
                  | Js.JNull => throw "Cannot read properties of null"
                  | Js.JObj fs =>
                      emit (RenderSummary (Dreams.orNA (Js.assoc "actionsPerformed" fs))
                              (Dreams.orNA (Js.assoc "emotionalContent" fs))
                              (Dreams.orNA (Js.assoc "location" fs)))
                  | _ => emit (RenderSummary None None None)
                  end
                else if String.eqb selectedFormatForDisplay "expanded" then
                  match parsedAnalysis with
                  | Js.JNull => throw "Cannot read properties of null"
                  | Js.JObj fs => emit (RenderExpanded (Dreams.truthySections fs))
                  | _ => emit (RenderExpanded [])
                  end
                else ret tt);;
               emit (SetHidden "dream-analysis-output" false)
           end)
        (fun _ =>
           console "error" "Failed to parse JSON for displayIndividualAnalysis:";;
           setText "analysis-content"
             ("Error: Could not display detailed analysis. Raw content: "
              +:+ Js.raw analysisOutputJsonString);;
           emit (SetHidden "dream-analysis-output" false))
  end.

End SingleAnalysis.

(* ===================================================================== *)
(** * Vocabulary of the store operations and of the views                *)
(* ===================================================================== *)

Module Script.
Import Runtime.

(** The error the next store call is rejected with, if it is. *)
Definition rejection (w : World) : option string :=
  match storeOutcomes w with
  | Some e :: _ => Some e
  | _ => None
  end.

Definition accepted (w : World) : bool :=
  match rejection w with Some _ => false | None => true end.

(** The world after the effect [e]. *)
Definition said (e : Effect) (w : World) : World := set_trace (trace w ++ [e]) w.

(** Every collection of every user is as it was, except the collection
    [name] of user [u]. *)
Definition otherDocsKept (name u : string) (w w' : World) : Prop :=
  ∀ u',
    ((u' = u ∧ name = "draft_dreams") ∨ docs draftColl w' u' = docs draftColl w u')
    ∧ ((u' = u ∧ name = "archived_dreams")
       ∨ docs archivedColl w' u' = docs archivedColl w u')
    ∧ ((u' = u ∧ name = "daily_events") ∨ docs eventColl w' u' = docs eventColl w u')
    ∧ ((u' = u ∧ name = "conversations")
       ∨ docs conversationColl w' u' = docs conversationColl w u').

(** The world after [if (input) input.value = ''] on [element]. *)
Definition cleared (element : string) (input : option string) (w : World) : World :=
  match input with Some _ => said (SetText element "") w | None => w end.

End Script.

Module Quiet.
Import Runtime.


End Quiet.

Module Answers.
Import Runtime.

(** The analysis that [analyzeAndArchiveDream] takes from the endpoint's
    next answer: the text of the first part of the first candidate, when
    the body is read, carries that path and the text is not empty. *)
Definition answeredAnalysis (script : list Gemini.Outcome) : option Js.JsonText :=
  match script with
  | Gemini.Response _ (Gemini.Json result) :: _ =>
      match Dreams.firstPart result with
      | Some part =>
          match Gemini.text part with
          | Some t => if Js.truthyStr (Js.raw t) then Some t else None
          | None => None
          end
      | None => None
      end
  | _ => None
  end.

End Answers.

Module DetailsSpec.
Import Runtime Spec Details.

(** The text the analysis gives for [key], when it is text. *)
Definition textAt (t : Js.JsonText) (key : string) : string :=
  match Js.parsed t with
  | Some a =>
      match Js.getProp a key with
      | Some (Some (Js.JStr s)) => s
      | _ => ""
      end
  | None => ""
  end.

(** The sections of a dream with analysis text [t]: one for each heading
    whose key the dream counts for in the detailed statistics, in the
    order of the headings. *)
Definition sectionsOf (t : Js.JsonText) : list Node :=
  map (λ kh : string * string, SectionItem (snd kh) (textAt t (fst kh)))
    (List.filter (λ kh, countsFor countedKeys (fst kh) t) analysisHeadings).

End DetailsSpec.

Module Counting.
Import Runtime.

(** The counts written to the statistics elements, oldest first. *)
Definition countsWritten (t : list Effect) : list (string * Z) :=
  omap (λ e, match e with SetCount element n => Some (element, n) | _ => None end) t.

(** The four numbers of the Statistics tab for a user: archived dreams,
    daily events, conversations, and archived dreams with a match. *)
Definition totals (w : World) (u : string) : list (string * Z) :=
  [ ("stat-total-dreams", Z.of_nat (size (docs archivedColl w u)));
    ("stat-total-events", Z.of_nat (size (docs eventColl w u)));
    ("stat-total-chats", Z.of_nat (size (docs conversationColl w u)));
    ("stat-matched-dreams",
     Z.of_nat (length (List.filter (λ r, Archived.matched (snd r))
                         (map_to_list (docs archivedColl w u))))) ].

End Counting.

Module AnalysisSpec.
Import Runtime AnalysisTab.

(** The dreams a scope of the Analysis tab keeps; [None] for a value that
    is none of the five scopes. *)
Definition window (w : World) (todayStartMs : Z) (scope : string)
  : option (Fetched → bool) :=
  if String.eqb scope "lastNight" then Some (since todayStartMs)
  else if String.eqb scope "last7Days" then Some (since (nowMs w - 7 * Search.day))
  else if String.eqb scope "last30Days" then Some (since (nowMs w - 30 * Search.day))
  else if String.eqb scope "lastYear" then Some (since (lastYearStartMs w))
  else if String.eqb scope "allTime" then Some (λ _, true)
  else None.

End AnalysisSpec.

Module Scenes.
Import Runtime.

(** The user of [Examples.searcher] with a dream and an event of the
    search results checked. *)
Definition paired : World :=
  mkWorld (Some "u1") true {[ "u1" := Examples.journal ]}
    Examples.now Examples.now (Examples.now - 365 * Search.day) [] []
    None None
    (Some (mkSelectedDream "d1" (Some "I was flying over Paris") (Some "Flight")))
    (Some (mkSelectedEvent "e1" (Some "Butterfly garden visit")))
    false (PanelMessage "") "" (Some "summary") [].

(** The endpoint answers the analysis of [Examples.analysis]. *)
Definition analysed : list Gemini.Outcome :=
  [Gemini.Response 200 (Examples.answer (Some Examples.analysis))].

(** The user of [Examples.archiving] with no output format checked. *)
Definition unformatted (answers : list Gemini.Outcome) : World :=
  mkWorld (Some "u1") true
    {[ "u1" := mkUserData {[ "d1" := Examples.draft ]} ∅ ∅ ∅ ]}
    Examples.now Examples.now (Examples.now - 365 * Search.day) [] answers
    None None None None true (PanelMessage "") "" None [].

(** [Examples.afterClicks] followed by a search for a blank term. *)
Definition blankSearch : World :=
  snd (Spec.handler (Spec.SearchFor (Some "   ") (Some "allTime")) Examples.afterClicks).

(** A dream stored without text and without date, beside a dated one
    that has its text. *)
Definition untexted : Archived.t :=
  Archived.mk None Examples.analysis (Some "Flight") None (Some "").

Definition incomplete : World :=
  mkWorld (Some "u1") true
    {[ "u1" := mkUserData ∅ {[ "d1" := Examples.flying; "d4" := untexted ]} ∅ ∅ ]}
    Examples.now Examples.now (Examples.now - 365 * Search.day) [] []
    None None None None true (PanelMessage "") "" (Some "summary") [].


(** A user whose only archived dream is told in capitals with accents. *)
Definition school : World :=
  mkWorld (Some "u1") true
    {[ "u1" := mkUserData ∅
         {[ "d1" := Archived.mk (Some "UNE ÉCOLE VIDE, À L'AUBE") Examples.analysis
                      (Some "L'école") (Some 1700000000000) (Some "") ]} ∅ ∅ ]}
    Examples.now Examples.now (Examples.now - 365 * Search.day) [] []
    None None None None true (PanelMessage "") "" (Some "summary") [].

(** U+00A0, the no-break space. *)
Definition nbsp : string := Js.utf8 160.

End Scenes.
Local Open Scope list_scope.

(* ===================================================================== *)
(** * Facts about the JavaScript fragment                                *)
(* ===================================================================== *)

Module JsFacts.
Import Js Spec.

(** ** Substrings *)

Lemma app_cons c s t : String c s +:+ t = String c (s +:+ t).
Proof. reflexivity. Qed.

Lemma startsWith_spec s t : startsWith s t = true ↔ ∃ b, s = t +:+ b.
Proof.
  revert s. induction t as [|c t IH]; intros s; simpl.
  - split; [intros _; by exists s | done].
  - destruct s as [|c' s]; simpl.
    + split; [done | intros [b Hb]; discriminate].
    + destruct (Ascii.eqb_spec c c') as [->|Hne].
      * rewrite IH. split; intros [b Hb]; exists b;
          [by rewrite Hb | rewrite app_cons in Hb; congruence].
      * split; [done | intros [b Hb]; rewrite app_cons in Hb; congruence].
Qed.

Lemma includes_spec s t : includes s t = true ↔ contains s t.
Proof.
  unfold contains. induction s as [|c s IH]; simpl.
  - rewrite orb_false_r, startsWith_spec. split.
    + intros [b Hb]. by exists "", b.
    + intros (a & b & H). destruct a; [by exists b | by rewrite app_cons in H].
  - rewrite orb_true_iff, startsWith_spec, IH. split.
    + intros [[b Hb]|(a & b & H)].
      * by exists "", b.
      * exists (String c a), b. by rewrite app_cons, H.
    + intros (a & b & H). destruct a as [|c' a].
      * left. by exists b.
      * right. rewrite app_cons in H. injection H as -> H. by exists a, b.
Qed.

Lemma includes_empty t : includes "" t = true → t = "".
Proof. destruct t; simpl; [done | discriminate]. Qed.

(** ** Appending and reversing *)

Lemma append_assoc (a b c : string) : (a +:+ b) +:+ c = a +:+ (b +:+ c).
Proof. induction a as [|x a IH]; [done|]. by rewrite !app_cons, IH. Qed.

Lemma append_empty s : s +:+ "" = s.
Proof. induction s as [|c s IH]; [done|]. by rewrite app_cons, IH. Qed.

Lemma length_append s t :
  String.length (s +:+ t) = (String.length s + String.length t)%nat.
Proof. induction s as [|c s IH]; [done|]. rewrite app_cons. simpl. by rewrite IH. Qed.

Lemma reverseOnto_spec s acc : reverseOnto s acc = reverse s +:+ acc.
Proof.
  unfold reverse. revert acc. induction s as [|c s IH]; intros acc; [done|].
  simpl. rewrite IH, (IH (String c "")). by rewrite append_assoc.
Qed.

Lemma reverse_cons c s : reverse (String c s) = reverse s +:+ String c "".
Proof. unfold reverse at 1. simpl. apply reverseOnto_spec. Qed.

Lemma reverse_append s t : reverse (s +:+ t) = reverse t +:+ reverse s.
Proof.
  induction s as [|c s IH]; [by rewrite append_empty|].
  by rewrite app_cons, !reverse_cons, IH, append_assoc.
Qed.

Lemma reverse_reverse s : reverse (reverse s) = s.
Proof.
  induction s as [|c s IH]; [done|].
  by rewrite reverse_cons, reverse_append, IH.
Qed.

Lemma length_reverse s : String.length (reverse s) = String.length s.
Proof.
  induction s as [|c s IH]; [done|].
  rewrite reverse_cons, length_append, IH. simpl. lia.
Qed.

(** ** [trim] *)

Lemma without_spec p s r : without p s = Some r ↔ s = p +:+ r.
Proof.
  revert s. induction p as [|a p IH]; intros s; simpl.
  - split; [by intros [= ->]|by intros ->].
  - destruct s as [|b s]; [done|]. rewrite app_cons.
    destruct (Ascii.eqb_spec a b) as [->|Hne].
    + rewrite IH. split; [by intros ->|by intros [= ->]].
    + split; [done|by intros [= -> _]].
Qed.

Lemma withoutOne_None ps s :
  withoutOne ps s = None ↔ Forall (λ p, without p s = None) ps.
Proof.
  induction ps as [|p ps IH]; simpl.
  - split; [constructor|done].
  - destruct (without p s) eqn:Hp.
    + split; [done|]. intros H. inversion H. congruence.
    + rewrite IH. split; [by constructor|]. by inversion 1.
Qed.

Lemma withoutOne_Some ps s r :
  withoutOne ps s = Some r → ∃ p, p ∈ ps ∧ s = p +:+ r.
Proof.
  induction ps as [|p ps IH]; simpl; [done|].
  destruct (without p s) eqn:Hp.
  - intros [= <-]. exists p. split; [left|]. by apply without_spec.
  - intros (q & Hq & Hs)%IH. exists q. split; [by right|done].
Qed.

(** Something that starts a prefix of a string starts the string. *)
Lemma withoutOne_prefix ps s t :
  withoutOne ps (s +:+ t) = None → withoutOne ps s = None.
Proof.
  rewrite !withoutOne_None. intros H. eapply Forall_impl; [exact H|].
  clear H. intros p Hp. simpl in Hp.
  destruct (without p s) as [r|] eqn:Hr; [|done].
  apply without_spec in Hr. subst s.
  rewrite append_assoc in Hp.
  by rewrite (proj2 (without_spec p _ (r +:+ t)) eq_refl) in Hp.
Qed.

Lemma withoutAll_fixed ps n s : withoutOne ps s = None → withoutAll ps n s = s.
Proof. intros H. destruct n; [done|]. simpl. by rewrite H. Qed.

Lemma withoutAll_suffix ps n s : ∃ p, s = p +:+ withoutAll ps n s.
Proof.
  revert s. induction n as [|n IH]; intros s; simpl; [by exists ""|].
  destruct (withoutOne ps s) as [r|] eqn:Hr; [|by exists ""].
  apply withoutOne_Some in Hr as (q & _ & ->).
  destruct (IH r) as (p & Hp). exists (q +:+ p).
  by rewrite append_assoc, <- Hp.
Qed.

(** The rounds are enough: what is left starts with none of [ps]. *)
Lemma withoutAll_done ps n s :
  Forall (λ p, p ≠ "") ps → (String.length s ≤ n)%nat →
  withoutOne ps (withoutAll ps n s) = None.
Proof.
  intros Hps. revert s. induction n as [|n IH]; intros s Hn; simpl.
  - destruct s; [|simpl in Hn; lia].
    apply withoutOne_None. eapply Forall_impl; [exact Hps|].
    intros [|a p] Hp; done.
  - destruct (withoutOne ps s) as [r|] eqn:Hr; [|done].
    apply IH. apply withoutOne_Some in Hr as (q & Hq & ->).
    rewrite Forall_forall in Hps. specialize (Hps q Hq).
    rewrite length_append in Hn. destruct q; [done|]. simpl in Hn. lia.
Qed.

Lemma spaces_not_empty : Forall (λ p, p ≠ "") (map utf8 whiteSpace).
Proof. repeat constructor; discriminate. Qed.

Lemma spaces_backwards_not_empty :
  Forall (λ p, p ≠ "") (map (λ c, reverse (utf8 c)) whiteSpace).
Proof. repeat constructor; discriminate. Qed.

(** What [trimStart] leaves starts with no white space, what [trimEnd]
    leaves ends with none: the rounds of [withoutAll] were enough. *)
Lemma trimStart_done s : withoutOne (map utf8 whiteSpace) (trimStart s) = None.
Proof. apply withoutAll_done; [apply spaces_not_empty|done]. Qed.

Lemma trimEnd_done s :
  withoutOne (map (λ c, reverse (utf8 c)) whiteSpace) (reverse (trimEnd s)) = None.
Proof.
  unfold trimEnd. rewrite reverse_reverse.
  apply withoutAll_done; [apply spaces_backwards_not_empty|].
  by rewrite length_reverse.
Qed.

Lemma trimStart_fixed s :
  withoutOne (map utf8 whiteSpace) s = None → trimStart s = s.
Proof. apply withoutAll_fixed. Qed.

Lemma trimEnd_fixed s :
  withoutOne (map (λ c, reverse (utf8 c)) whiteSpace) (reverse s) = None →
  trimEnd s = s.
Proof.
  intros H. unfold trimEnd. rewrite withoutAll_fixed by done. apply reverse_reverse.
Qed.

Lemma trimEnd_prefix s : ∃ r, s = trimEnd s +:+ r.
Proof.
  unfold trimEnd.
  destruct (withoutAll_suffix (map (λ c, reverse (utf8 c)) whiteSpace)
              (String.length s) (reverse s)) as (p & Hp).
  exists (reverse p).
  rewrite <- reverse_append, <- Hp. symmetry. apply reverse_reverse.
Qed.

Lemma trim_idem s : trim (trim s) = trim s.
Proof.
  unfold trim at 1.
  assert (Hstart : trimStart (trim s) = trim s).
  { apply trimStart_fixed. unfold trim.
    destruct (trimEnd_prefix (trimStart s)) as (r & Hr).
    apply (withoutOne_prefix _ _ r). rewrite <- Hr. apply trimStart_done. }
  rewrite Hstart. apply trimEnd_fixed. unfold trim. apply trimEnd_done.
Qed.

(** A text whose first byte starts no white space and whose last byte
    ends none is its own trimmed form. *)
Lemma trim_closed a s c :
  (∀ t, withoutOne (map utf8 whiteSpace) (String a t) = None) →
  (∀ t, withoutOne (map (λ c, reverse (utf8 c)) whiteSpace) (String c t) = None) →
  trim (String a (s +:+ String c "")) = String a (s +:+ String c "").
Proof.
  intros Ha Hc. unfold trim. rewrite trimStart_fixed by apply Ha.
  apply trimEnd_fixed. rewrite <- app_cons, reverse_append. apply Hc.
Qed.

(** ** [toLowerCase] *)

Lemma utf8_not_empty c : utf8 c ≠ "".
Proof. unfold utf8. by repeat case_match. Qed.

Lemma chars_cons a r : ∃ c bs rest, chars (String a r) = (c, bs) :: rest ∧ bs ≠ "".
Proof.
  cbn [chars].
  repeat case_match; (eexists _, _, _; split; [reflexivity|discriminate]).
Qed.

Lemma lowered_not_empty before c bs after :
  bs ≠ "" → lowered before c bs after ≠ "".
Proof.
  intros Hbs. unfold lowered.
  repeat case_match; try apply utf8_not_empty; done.
Qed.

Lemma toLowerCase_empty s : toLowerCase s = "" → s = "".
Proof.
  destruct s as [|a r]; [done|]. unfold toLowerCase.
  destruct (chars_cons a r) as (c & bs & rest & -> & Hbs).
  cbn [lowerAll]. pose proof (lowered_not_empty [] c bs rest Hbs) as Hl.
  by destruct (lowered [] c bs rest).
Qed.

(** White space and capitals outside ASCII. *)
Example trim_reads_every_white_space :
  trim (utf8 160 +:+ " Met" +:+ utf8 160 +:+ "Bob " +:+ utf8 12288 +:+ utf8 65279)
  = "Met" +:+ utf8 160 +:+ "Bob"
  ∧ trim (utf8 160) = ""
  ∧ trim (utf8 8232 +:+ "x" +:+ utf8 8203) = "x" +:+ utf8 8203.
Proof. vm_compute. done. Qed.

Example toLowerCase_reads_every_letter :
  toLowerCase "École" = "école" ∧ toLowerCase "ΟΔΟΣ" = "οδος"
  ∧ toLowerCase "ΣΑΣ Σ" = "σας σ" ∧ toLowerCase "İ" = utf8 105 +:+ utf8 775
  ∧ toLowerCase "ŽIVOT" = "život".
Proof. vm_compute. done. Qed.

(** ** The stable sort *)

Section SortFacts.
Context {A : Type} (le : A → A → bool).

Lemma insertSorted_perm x l : insertSorted le x l ≡ₚ x :: l.
Proof.
  induction l as [|y l IH]; simpl; [done|].
  destruct (le x y); [done|]. rewrite IH. apply Permutation_swap.
Qed.

Lemma sort_perm l : sort le l ≡ₚ l.
Proof.
  induction l as [|x l IH]; simpl; [done|].
  by rewrite insertSorted_perm, IH.
Qed.

Hypothesis le_total : ∀ a b, le a b = true ∨ le b a = true.
Hypothesis le_trans : ∀ a b c, le a b = true → le b c = true → le a c = true.

Lemma insertSorted_sorted x l :
  StronglySorted (λ a b, le a b = true) l →
  StronglySorted (λ a b, le a b = true) (insertSorted le x l).
Proof.
  induction 1 as [|y l Hs IH Hy]; simpl.
  - repeat constructor.
  - destruct (le x y) eqn:Hxy.
    + constructor; [by constructor|].
      constructor; [done|]. eapply Forall_impl; [exact Hy|].
      intros z Hz. by eapply le_trans.
    + constructor; [done|].
      rewrite insertSorted_perm. constructor; [|done].
      destruct (le_total x y); congruence.
Qed.

Lemma sort_sorted l : StronglySorted (λ a b, le a b = true) (sort le l).
Proof.
  induction l as [|x l IH]; simpl; [constructor|].
  by apply insertSorted_sorted.
Qed.

End SortFacts.
End JsFacts.

(* ===================================================================== *)
(** * Facts about the runtime                                            *)
(* ===================================================================== *)

Module RuntimeFacts.
Import Runtime Spec.

Section Keeps.
Context (R : relation World) `{!PreOrder R}.

Lemma keeps_ret {A} (a : A) : keeps R (ret a).
Proof. intros w. simpl. reflexivity. Qed.

Lemma keeps_throw {A} e : keeps R (@throw A e).
Proof. intros w. simpl. reflexivity. Qed.

Lemma keeps_get : keeps R get.
Proof. intros w. simpl. reflexivity. Qed.

Lemma keeps_bind {A B} (m : M A) (k : A -> M B) :
  keeps R m → (∀ a, keeps R (k a)) → keeps R (m ≫= k).
Proof.
  intros Hm Hk w. unfold mbind, M_bind, bind.
  specialize (Hm w). destruct (m w) as [[a|e] w1]; simpl in *; [|done].
  etransitivity; [exact Hm | apply Hk].
Qed.

Lemma keeps_tryCatch {A} (m : M A) h :
  keeps R m → (∀ e, keeps R (h e)) → keeps R (tryCatch m h).
Proof.
  intros Hm Hh w. unfold tryCatch.
  specialize (Hm w). destruct (m w) as [[a|e] w1]; simpl in *; [done|].
  etransitivity; [exact Hm | apply Hh].
Qed.

Lemma keeps_finally {A} (m : M A) f :
  keeps R m → keeps R f → keeps R (finally m f).
Proof.
  intros Hm Hf w. unfold finally.
  specialize (Hm w). destruct (m w) as [r w1]; simpl in *.
  specialize (Hf w1). destruct (f w1) as [[[]|e] w2]; simpl in *;
    by etransitivity.
Qed.

Lemma keeps_attempt {A} (m : M A) : keeps R m → keeps R (attempt m).
Proof.
  intros Hm w. unfold attempt. specialize (Hm w).
  by destruct (m w) as [r w1].
Qed.

Lemma keeps_detached m : keeps R m → keeps R (detached m).
Proof. intros Hm. apply keeps_tryCatch; [done|]. intros _. apply keeps_ret. Qed.

Lemma keeps_modify f : (∀ w, R w (f w)) → keeps R (modify f).
Proof. intros Hf w. apply Hf. Qed.

Lemma keeps_forEach {A} (f : A -> M unit) l :
  (∀ x, keeps R (f x)) → keeps R (forEach f l).
Proof.
  intros Hf. induction l as [|x l IH]; simpl.
  - apply keeps_ret.
  - apply keeps_bind; [apply Hf | intros _; apply IH].
Qed.

End Keeps.

Lemma keeps_weaken {A} (R R' : relation World) (m : M A) :
  (∀ w w', R w w' → R' w w') → keeps R m → keeps R' m.
Proof. intros H Hm w. apply H, Hm. Qed.

Lemma keeps_at {A} R (m : M A) w : keeps R m → R w (snd (m w)).
Proof. intros H. apply H. Qed.

#[global] Instance same_preorder {X} (proj : World -> X) : PreOrder (same proj).
Proof.
  split.
  - intros w. reflexivity.
  - intros w1 w2 w3 H12 H23. unfold same in *. congruence.
Qed.

(** A step that only writes fields [proj] does not read. *)
Ltac keeps_prim :=
  solve [ let w := fresh "w" in
          intros w; unfold same;
          cbv [emit modify remote fetchJson get ret throw];
          repeat case_match; simplify_eq; reflexivity ].

Ltac keeps_unfold :=
  unfold showMessage, showLoading, hideLoading, console, setText,
    getDocs, getDocsDesc, onSnapshot.

(** Structural descent through a handler. *)
Ltac keeps_go :=
  keeps_unfold;
  repeat first
    [ apply keeps_ret | apply keeps_throw | apply keeps_get
    | apply keeps_bind | apply keeps_tryCatch | apply keeps_finally
    | apply keeps_detached | apply keeps_attempt | apply keeps_forEach
    | progress intros
    | match goal with
      | |- keeps _ (match ?x with _ => _ end) => destruct x
      | |- keeps _ (if ?b then _ else _) => destruct b
      | |- keeps _ (let (_, _) := ?x in _) => destruct x
      end
    | match goal with |- PreOrder _ => apply _ end
    | keeps_prim
    | eassumption ].

(** From a handler run at [w] to the handler as a program. *)
Ltac at_world :=
  lazymatch goal with |- _ _ (snd (?f ?x)) => apply (keeps_at _ f x) end.

(** Running a guard-style [bind] on [get]. *)
Lemma run_get_bind {A} (k : World -> M A) w : (get ≫= k) w = k w w.
Proof. reflexivity. Qed.

Lemma docs_setDocs_archived u u' m w :
  docs archivedColl (setDocs archivedColl u m w) u'
  = if decide (u = u') then m else docs archivedColl w u'.
Proof.
  unfold docs, setDocs, userData. simpl.
  rewrite lookup_insert. case_decide; reflexivity.
Qed.

Lemma truthyStr_false s : Js.truthyStr s = false ↔ s = "".
Proof. destruct s; simpl; split; congruence. Qed.

Lemma truthyStr_true s : Js.truthyStr s = true ↔ s ≠ "".
Proof. destruct s; simpl; split; congruence. Qed.

Lemma bind_ok {A B} (m : M A) (k : A → M B) w a w' :
  m w = (Ok a, w') → (m ≫= k) w = k a w'.
Proof. intros H. unfold mbind, M_bind, bind. by rewrite H. Qed.

Lemma bind_throw {A B} (m : M A) (k : A → M B) w e w' :
  m w = (Throw e, w') → (m ≫= k) w = (Throw e, w').
Proof. intros H. unfold mbind, M_bind, bind. by rewrite H. Qed.

Lemma remote_answers c w : storeAnswers w → remote c w = (Ok tt, answered c w).
Proof.
  unfold storeAnswers, remote, answered. intros H.
  destruct w as [a b c0 d e f so g h i j k l m n o p]; simpl in *.
  destruct so as [|[x|] r]; [done| |done].
  by inversion H.
Qed.

Lemma answered_answers c w : storeAnswers w → storeAnswers (answered c w).
Proof.
  unfold storeAnswers, answered. simpl. intros H.
  destruct (storeOutcomes w); simpl; [done|]. by inversion H.
Qed.

Lemma getDocsDesc_answers {D} (c : Coll D) ts w :
  storeAnswers w →
  getDocsDesc c ts w
  = (Ok (snapshotDesc c ts w (userSegment w)),
     answered (GetDocs (userSegment w) (cname c)) w).
Proof.
  intros H. unfold getDocsDesc. rewrite run_get_bind.
  erewrite bind_ok; [|by apply remote_answers]. reflexivity.
Qed.

End RuntimeFacts.

(* ===================================================================== *)
(** * Facts about dreams-module.js                                       *)
(* ===================================================================== *)

Module DreamsFacts.
Import Runtime Spec RuntimeFacts Dreams.

Lemma loadMatchedDreams_store : keeps (same store) loadMatchedDreams.
Proof. unfold loadMatchedDreams. keeps_go. Qed.

#[global] Instance matchKept_preorder t : PreOrder (matchKept t).
Proof.
  split.
  - intros w u id d H. by left.
  - intros w1 w2 w3 H12 H23 u id d H.
    destruct (H12 u id d H) as [H2|H2]; destruct (H23 _ _ _ H2) as [H3|H3]; auto.
Qed.

Lemma same_store_matchKept t w w' : same store w w' → matchKept t w w'.
Proof.
  unfold same, matchKept, docs, userData. intros -> u id d H. by left.
Qed.

Ltac via_store := apply (keeps_weaken (same store)); [apply same_store_matchKept|].

Lemma matchKept_setDocs t u id d m w w1 :
  same store w w1 → docs archivedColl w u = m → m !! id = Some d →
  matchKept t w (setDocs archivedColl u (<[id := Archived.setMatch t d]> m) w1).
Proof.
  intros Hs Hm Hd u' id' d' H.
  rewrite docs_setDocs_archived.
  assert (Hw : docs archivedColl w1 u' = docs archivedColl w u').
  { unfold docs, userData. by rewrite Hs. }
  case_decide as Hu.
  - subst u'. rewrite Hm in H.
    destruct (decide (id = id')) as [->|Hne].
    + right. rewrite lookup_insert_eq. congruence.
    + left. by rewrite lookup_insert_ne.
  - left. by rewrite Hw.
Qed.

Lemma updateDoc_matchKept t id :
  keeps (matchKept t) (updateDoc archivedColl id (fun _ d => Archived.setMatch t d)).
Proof.
  intros w. unfold updateDoc, mbind, M_bind, bind, get, remote, modify, throw.
  destruct (storeOutcomes w) as [|[e|] r]; simpl;
    try (apply same_store_matchKept; reflexivity);
    match goal with |- context [?m !! id] => destruct (m !! id) as [d|] eqn:Hd end;
    simpl; try (apply same_store_matchKept; reflexivity);
    eapply matchKept_setDocs; eauto; reflexivity.
Qed.

Lemma saveMatchClick_matchKept w :
  matchKept (Js.trim (matchedEventInput w)) w (snd (saveMatchClick w)).
Proof.
  unfold saveMatchClick. rewrite run_get_bind.
  set (t := Js.trim (matchedEventInput w)).
  pose proof loadMatchedDreams_store as HL.
  assert (HL' : keeps (matchKept t) loadMatchedDreams).
  { via_store. exact HL. }
  pose proof (updateDoc_matchKept t) as HU.
  at_world.
  destruct (currentDreamIdForMatch w) as [dreamId|]; [|via_store; keeps_go].
  destruct (negb (Js.truthyStr dreamId)); [via_store; keeps_go|].
  destruct (negb (Js.truthyStr t)); [via_store; keeps_go|].
  apply keeps_bind; [apply _| via_store; keeps_go |intros _].
  apply keeps_finally; [apply _| |via_store; keeps_go].
  apply keeps_tryCatch; [apply _| |intros e; via_store; keeps_go].
  apply keeps_bind; [apply _| apply HU |intros _].
  repeat (apply keeps_bind;
          [apply _
          |first [via_store; keeps_go | apply keeps_detached; [apply _|exact HL']]
          |intros _]).
  via_store; keeps_go.
Qed.

(** With no dream selected, or nothing but white space typed, the handler
    shows one message and does nothing else. *)
Lemma saveMatchClick_refused w :
  Js.truthyOpt (currentDreamIdForMatch w) = false ∨ Js.trim (matchedEventInput w) = "" →
  ∃ kind message,
    snd (saveMatchClick w) = set_trace (trace w ++ [ShowMessage kind message]) w.
Proof.
  intros H. unfold saveMatchClick. rewrite run_get_bind.
  destruct (currentDreamIdForMatch w) as [dreamId|] eqn:Hc; [|by eexists _, _].
  destruct (Js.truthyStr dreamId) eqn:Hd; simpl; [|by eexists _, _].
  destruct H as [H|H]; [simpl in H; congruence|].
  rewrite H. simpl. by eexists _, _.
Qed.

(** C9.  The save-match handler never writes an empty match text.  With no
    dream selected, or with a match input that is empty once trimmed, it
    shows a message and touches neither the store nor the network.  In
    every case each archived dream is afterwards either as it was or
    carries the trimmed input, which is then not empty; so a dream that
    was matched is still matched. *)
Theorem saveMatch_never_clears_a_match (w : World) :
  (Js.truthyOpt (currentDreamIdForMatch w) = false
   ∨ Js.trim (matchedEventInput w) = "" →
   store (snd (saveMatchClick w)) = store w
   ∧ remoteCalls (trace (snd (saveMatchClick w))) = remoteCalls (trace w))
  ∧ (∀ u id d, docs archivedColl w u !! id = Some d →
       docs archivedColl (snd (saveMatchClick w)) u !! id = Some d
       ∨ (Js.trim (matchedEventInput w) ≠ ""
          ∧ docs archivedColl (snd (saveMatchClick w)) u !! id
            = Some (Archived.setMatch (Js.trim (matchedEventInput w)) d)))
  ∧ (∀ u id d, docs archivedColl w u !! id = Some d →
       Archived.matched d = true →
       ∃ d', docs archivedColl (snd (saveMatchClick w)) u !! id = Some d'
             ∧ Archived.matched d' = true).
Proof.
  assert (Hrefused :
    Js.truthyOpt (currentDreamIdForMatch w) = false
    ∨ Js.trim (matchedEventInput w) = "" →
    store (snd (saveMatchClick w)) = store w
    ∧ remoteCalls (trace (snd (saveMatchClick w))) = remoteCalls (trace w)).
  { intros H. destruct (saveMatchClick_refused w H) as (k & m & ->).
    split; [reflexivity|]. simpl. unfold remoteCalls.
    rewrite omap_app. simpl. by rewrite app_nil_r. }
  assert (Hkept : ∀ u id d, docs archivedColl w u !! id = Some d →
       docs archivedColl (snd (saveMatchClick w)) u !! id = Some d
       ∨ (Js.trim (matchedEventInput w) ≠ ""
          ∧ docs archivedColl (snd (saveMatchClick w)) u !! id
            = Some (Archived.setMatch (Js.trim (matchedEventInput w)) d))).
  { intros u id d Hd.
    destruct (decide (Js.trim (matchedEventInput w) = "")) as [He|Hne].
    - left. destruct (Hrefused (or_intror He)) as [Hs _].
      unfold docs, userData in *. by rewrite Hs.
    - destruct (saveMatchClick_matchKept w u id d Hd); auto. }
  split; [exact Hrefused|]. split; [exact Hkept|].
  intros u id d Hd Hm. destruct (Hkept u id d Hd) as [H|[Hne H]].
  - by exists d.
  - eexists. split; [exact H|].
    unfold Archived.matched. simpl. by apply truthyStr_true.
Qed.

(** A run of the handler that saves: the typed text is stored trimmed. *)
Example saveMatch_saves :
  docs archivedColl (snd (saveMatchClick (Examples.matching "  met Bob at noon "))) "u1" !! "d1"
  = Some (Archived.setMatch "met Bob at noon" Examples.flying).
Proof. vm_compute. reflexivity. Qed.

(** No-break spaces around the match are trimmed like the others, and a
    match made of them alone is refused. *)
Example saveMatch_trims_every_white_space :
  docs archivedColl
    (snd (saveMatchClick
            (Examples.matching (Scenes.nbsp +:+ "met Bob at noon" +:+ Scenes.nbsp))))
    "u1" !! "d1"
  = Some (Archived.setMatch "met Bob at noon" Examples.flying)
  ∧ trace (snd (saveMatchClick (Examples.matching Scenes.nbsp)))
    = [ShowMessage "info" "Please describe the matched reality event."].
Proof. vm_compute. repeat split. Qed.

(** ** [performDreamAnalysis] *)

Lemma messages_snoc t e :
  messages (t ++ [e]) = messages t ++ messages [e].
Proof. unfold messages. by rewrite omap_app. Qed.

Ltac run_handler :=
  cbv [mbind M_bind bind get ret throw emit modify tryCatch finally
       showMessage showLoading hideLoading console setText fetchJson remote];
  simpl.

Ltac tidy_messages :=
  simpl; rewrite ?messages_snoc; simpl; rewrite ?app_nil_r, <- ?app_assoc; simpl.

(** C2, as amended.  [performDreamAnalysis] resolves to [null] after
    exactly one error message when the user is not signed in, when the
    request fails, when the body cannot be read as JSON, when the body
    lacks candidates, content or a non-empty parts list and, when the
    analysis is to be displayed, when no output format is checked.  In
    every other case in which the first part of the first candidate has a
    text it resolves to that text, whatever the HTTP status of the
    response, and shows no message. *)
Theorem performDreamAnalysis_contract (dreamText dreamTitle : string)
    (forArchiving : bool) (w : World) :
  (authenticated w = false ∨ failedAnswer (fetchOutcomes w)
   ∨ (forArchiving = false ∧ outputFormat w = None) →
   fst (performDreamAnalysis dreamText dreamTitle forArchiving w) = Ok ANull
   ∧ ∃ message,
       messages (trace (snd (performDreamAnalysis dreamText dreamTitle forArchiving w)))
       = messages (trace w) ++ [("error", message)])
  ∧ (∀ status result rest part text,
       authenticated w = true →
       fetchOutcomes w = Gemini.Response status (Gemini.Json result) :: rest →
       firstPart result = Some part →
       Gemini.text part = Some text →
       forArchiving = true ∨ is_Some (outputFormat w) →
       fst (performDreamAnalysis dreamText dreamTitle forArchiving w) = Ok (AText text)
       ∧ messages (trace (snd (performDreamAnalysis dreamText dreamTitle forArchiving w)))
         = messages (trace w)).
Proof.
  unfold performDreamAnalysis. rewrite run_get_bind. split.
  - intros Hcase.
    destruct (authenticated w); run_handler; [|split; [done|eexists; by tidy_messages]].
    destruct (fetchOutcomes w) as [|[e|st [e| |res]] rest]; simpl;
      try (split; [done|eexists; by tidy_messages]).
    destruct (firstPart res) as [part|] eqn:Hpart; simpl;
      [|split; [done|eexists; by tidy_messages]].
    destruct Hcase as [?|[Hfail|[-> Hfmt]]]; [done|simpl in Hfail; congruence|].
    simpl. unfold displayAnalysis. run_handler. rewrite Hfmt. simpl.
    split; [done|eexists; by tidy_messages].
  - intros st res rest part text Hauth Hf Hp Ht Hfmt.
    rewrite Hauth. run_handler. rewrite Hf. simpl. rewrite Hp, Ht. simpl.
    destruct forArchiving; simpl.
    + split; [done|]. by tidy_messages.
    + destruct Hfmt as [?|[fmt Hfmt]]; [done|].
      unfold displayAnalysis. run_handler. rewrite Hfmt. simpl.
      destruct (String.eqb fmt "summary"); [|destruct (String.eqb fmt "expanded")];
        simpl; destruct (Js.parsed text) as [[]|]; simpl;
        (split; [done|by tidy_messages]).
Qed.

(** C2, a run: a signed-in user analyses a draft for display, the summary
    format being checked, and the endpoint answers the analysis. *)
Lemma performDreamAnalysis_run :
  fst (performDreamAnalysis "I was flying over Paris" "Flight" false
         (Examples.archiving Scenes.analysed []))
  = Ok (AText Examples.analysis)
  ∧ messages (trace (snd (performDreamAnalysis "I was flying over Paris" "Flight" false
         (Examples.archiving Scenes.analysed []))))
    = [].
Proof.
  refine (proj2 (performDreamAnalysis_contract "I was flying over Paris" "Flight" false
                   (Examples.archiving Scenes.analysed []))
            200 _ [] _ Examples.analysis _ _ _ _ _).
  - reflexivity.
  - reflexivity.
  - reflexivity.
  - reflexivity.
  - right. by eexists.
Defined.

(** C2, counterexample.  A response with status 500 whose body carries the
    whole path is taken as a success: the text is returned and no message
    is shown.  And a first part without [text] makes the call resolve to
    [undefined], not [null], again without a message. *)
Lemma analysis_accepted_whatever_the_status :
  fst (performDreamAnalysis "I was flying over Paris" "Flight" true
         (Examples.archiving
            [Gemini.Response 500 (Examples.answer (Some Examples.analysis))] []))
  = Ok (AText Examples.analysis)
  ∧ messages (trace (snd (performDreamAnalysis "I was flying over Paris" "Flight" true
         (Examples.archiving
            [Gemini.Response 500 (Examples.answer (Some Examples.analysis))] []))))
    = []
  ∧ fst (performDreamAnalysis "I was flying over Paris" "Flight" true
           (Examples.archiving [Gemini.Response 200 (Examples.answer None)] []))
    = Ok AUndefined
  ∧ messages (trace (snd (performDreamAnalysis "I was flying over Paris" "Flight" true
           (Examples.archiving [Gemini.Response 200 (Examples.answer None)] []))))
    = [].
Proof. vm_compute. repeat split. Qed.

(** A run beside the contract: with no output format checked, an
    analysis that is to be displayed is lost.  Reading the checked radio
    throws, the error is shown and the call resolves to [null]. *)
Example analysis_without_output_format :
  fst (performDreamAnalysis "I was flying over Paris" "Flight" false
         (Scenes.unformatted
            [Gemini.Response 200 (Examples.answer (Some Examples.analysis))]))
  = Ok ANull
  ∧ messages (trace (snd (performDreamAnalysis "I was flying over Paris" "Flight" false
         (Scenes.unformatted
            [Gemini.Response 200 (Examples.answer (Some Examples.analysis))]))))
    = [("error",
        "Dream analysis failed: Cannot read properties of null (reading 'value')")].
Proof. vm_compute. repeat split. Qed.

(** ** [analyzeAndArchiveDream] *)

(** C1, at the failing inputs.  When the write to the archive is rejected,
    [saveAnalyzedDream] reports the error itself and returns normally:
    the draft is deleted all the same and success is reported, with no
    archived dream.  When the delete is rejected, success is reported
    with the draft still there beside its archived copy. *)
Theorem analyzeAndArchive_reports_success_after_a_failed_step :
  messages (trace (snd (analyzeAndArchiveDream "d1" "I was flying over Paris" "Flight"
      (Examples.archiving
         [Gemini.Response 200 (Examples.answer (Some Examples.analysis))]
         [Examples.denied]))))
  = [ ("error", "Failed to save analyzed dream: Missing or insufficient permissions.");
      ("success", "Draft dream deleted!");
      ("success", "Dream analyzed and moved to Archive!") ]
  ∧ map_to_list (docs draftColl (snd (analyzeAndArchiveDream "d1" "I was flying over Paris" "Flight"
      (Examples.archiving
         [Gemini.Response 200 (Examples.answer (Some Examples.analysis))]
         [Examples.denied]))) "u1") = []
  ∧ map_to_list (docs archivedColl (snd (analyzeAndArchiveDream "d1" "I was flying over Paris" "Flight"
      (Examples.archiving
         [Gemini.Response 200 (Examples.answer (Some Examples.analysis))]
         [Examples.denied]))) "u1") = []
  ∧ messages (trace (snd (analyzeAndArchiveDream "d1" "I was flying over Paris" "Flight"
      (Examples.archiving
         [Gemini.Response 200 (Examples.answer (Some Examples.analysis))]
         [None; Examples.denied]))))
  = [ ("success", "Dream analyzed and archived successfully!");
      ("error", "Failed to delete draft dream: Missing or insufficient permissions.");
      ("success", "Dream analyzed and moved to Archive!") ]
  ∧ docs draftColl (snd (analyzeAndArchiveDream "d1" "I was flying over Paris" "Flight"
      (Examples.archiving
         [Gemini.Response 200 (Examples.answer (Some Examples.analysis))]
         [None; Examples.denied]))) "u1" !! "d1" = Some Examples.draft.
Proof. vm_compute. repeat split. Qed.

(** The run in which the three steps succeed: the draft is gone and the
    archive holds one dream, with the draft's text and no match. *)
Example analyzeAndArchive_all_steps_succeed :
  messages (trace (snd (analyzeAndArchiveDream "d1" "I was flying over Paris" "Flight"
      (Examples.archiving
         [Gemini.Response 200 (Examples.answer (Some Examples.analysis))] []))))
  = [ ("success", "Dream analyzed and archived successfully!");
      ("success", "Draft dream deleted!");
      ("success", "Dream analyzed and moved to Archive!") ]
  ∧ map_to_list (docs draftColl (snd (analyzeAndArchiveDream "d1" "I was flying over Paris" "Flight"
      (Examples.archiving
         [Gemini.Response 200 (Examples.answer (Some Examples.analysis))] []))) "u1") = []
  ∧ map snd (map_to_list (docs archivedColl (snd (analyzeAndArchiveDream "d1"
      "I was flying over Paris" "Flight"
      (Examples.archiving
         [Gemini.Response 200 (Examples.answer (Some Examples.analysis))] []))) "u1"))
    = [ Archived.mk (Some "I was flying over Paris") Examples.analysis (Some "Flight")
          (Some 1700000500000) (Some "") ].
Proof. vm_compute. repeat split. Qed.

(** ** The guard on authentication *)

(** The exported operations of the module refuse a user who is not signed
    in: one error message, nothing else. *)
Lemma dream_operations_refuse_signed_out (w : World) :
  authenticated w = false →
  (∀ text title pre, saveDraftDream text title pre w
     = (Ok None, set_trace (trace w ++ [ShowMessage "error" "Please sign in to save dreams."]) w))
  ∧ (∀ id text title pre, snd (updateDraftDream id text title pre w)
     = set_trace (trace w ++ [ShowMessage "error"
         "Cannot update draft. Please sign in or select a draft."]) w)
  ∧ (∀ id, snd (deleteDraftDream id w)
     = set_trace (trace w ++ [ShowMessage "error"
         "Cannot delete draft. Please sign in or select a draft."]) w)
  ∧ (∀ text a title, snd (saveAnalyzedDream text a title w)
     = set_trace (trace w ++ [ShowMessage "error" "Please sign in to save dreams."]) w)
  ∧ (∀ id, snd (deleteArchivedDream id w)
     = set_trace (trace w ++ [ShowMessage "error"
         "Cannot delete archived dream. Please sign in or select a dream."]) w)
  ∧ (∀ text title arch, performDreamAnalysis text title arch w
     = (Ok ANull, set_trace (trace w ++ [ShowMessage "error"
         "Please sign in to analyze dreams."]) w))
  ∧ (∀ id text title, snd (analyzeAndArchiveDream id text title w)
     = set_trace (trace w ++ [ShowMessage "error"
         "Please sign in to analyze and archive dreams."]) w).
Proof.
  intros Hauth.
  unfold saveDraftDream, updateDraftDream, deleteDraftDream, saveAnalyzedDream,
    deleteArchivedDream, performDreamAnalysis, analyzeAndArchiveDream.
  repeat split; intros; rewrite run_get_bind, Hauth; reflexivity.
Qed.

(** C8, at the failing input.  The click handler of the save-match button
    has no such guard: for a user who is not signed in, with the modal
    open on a dream and a match typed, it sends the update, under the
    user segment null. *)
Theorem saveMatch_is_sent_when_signed_out :
  authenticated (Examples.signedOut "met Bob at noon") = false
  ∧ remoteCalls (trace (snd (saveMatchClick (Examples.signedOut "met Bob at noon"))))
    = [UpdateDoc "null" "archived_dreams" "d1"]
  ∧ messages (trace (snd (saveMatchClick (Examples.signedOut "met Bob at noon"))))
    = [("error", "Failed to save reality match: Missing or insufficient permissions.")].
Proof. vm_compute. repeat split. Qed.

End DreamsFacts.

(* ===================================================================== *)
(** * Facts about search-module.js                                       *)
(* ===================================================================== *)

Module SearchFacts.
Import Runtime Spec JsFacts RuntimeFacts Search.

Lemma forEach_renderable {A} (content : A → option string) (l : list A) w :
  Forall (λ i, is_Some (content i)) l →
  forEach (λ i, renderable (content i)) l w = (Ok tt, w).
Proof.
  induction 1 as [|x l [c Hc] Hl IH]; simpl; [done|].
  unfold mbind, M_bind, bind. rewrite Hc. simpl. exact IH.
Qed.

Lemma elem_of_List_filter {A} (f : A → bool) x l :
  x ∈ List.filter f l ↔ x ∈ l ∧ f x = true.
Proof. by rewrite !list_elem_of_In, filter_In. Qed.

Lemma sortDreams_perm l : sortDreams l ≡ₚ l.
Proof. apply sort_perm. Qed.

Lemma sortEvents_perm l : sortEvents l ≡ₚ l.
Proof. apply sort_perm. Qed.

Lemma dreamResults_content term start snap :
  Forall (λ r, is_Some (Archived.dreamText (snd r))) snap →
  Forall (λ i, is_Some (di_content i)) (dreamResults term start snap).
Proof.
  intros H. unfold dreamResults. apply Forall_map.
  apply Forall_forall. intros r Hr. apply elem_of_List_filter in Hr as [Hr _].
  rewrite Forall_forall in H. by apply H.
Qed.

Lemma lowerOrEmpty_includes o term :
  Js.truthyStr term = true → Js.includes (lowerOrEmpty o) term = true → is_Some o.
Proof.
  intros Ht H. destruct o as [x|]; [by eexists|].
  simpl in H. apply includes_empty in H. subst. discriminate.
Qed.

Lemma eventResults_content term start snap :
  Js.truthyStr term = true →
  Forall (λ i, is_Some (ei_content i)) (eventResults term start snap).
Proof.
  intros Ht. unfold eventResults. apply Forall_map.
  apply Forall_forall. intros r Hr. apply elem_of_List_filter in Hr as [_ Hr].
  unfold eventMatches in Hr. apply andb_true_iff in Hr as [Hr _].
  simpl. by eapply lowerOrEmpty_includes.
Qed.

Lemma search_body w term scope :
  storeAnswers w →
  Js.truthyStr term = true →
  Forall (λ r, is_Some (Archived.dreamText (snd r)))
    (snapshotDesc archivedColl Archived.timestamp w (userSegment w)) →
  ∃ w',
    (get ≫= λ w1,
       getDocsDesc archivedColl Archived.timestamp ≫= λ dreamSnapshot,
       getDocsDesc eventColl Event.timestamp ≫= λ eventSnapshot,
       displaySearchResults
         (dreamResults term (startDate w1 scope) dreamSnapshot)
         (eventResults term (startDate w1 scope) eventSnapshot)) w = (Ok tt, w')
    ∧ searchResultsList w'
      = resultsPanel
          (sortDreams (dreamResults term (startDate w scope)
             (snapshotDesc archivedColl Archived.timestamp w (userSegment w))))
          (sortEvents (eventResults term (startDate w scope)
             (snapshotDesc eventColl Event.timestamp w (userSegment w))))
    ∧ selectedDreamForMatch w' = selectedDreamForMatch w
    ∧ selectedEventForMatch w' = selectedEventForMatch w
    ∧ matchSelectedDisabled w' = matchSelectedDisabled w.
Proof.
  intros Hstore Hterm Htext.
  pose proof (dreamResults_content term (startDate w scope) _ Htext) as Hd.
  pose proof (eventResults_content term (startDate w scope)
    (snapshotDesc eventColl Event.timestamp w (userSegment w)) Hterm) as He.
  rewrite <- (sortDreams_perm _) in Hd. rewrite <- (sortEvents_perm _) in He.
  rewrite run_get_bind.
  erewrite bind_ok; [|by apply getDocsDesc_answers].
  erewrite bind_ok; [|by apply getDocsDesc_answers, answered_answers].
  unfold displaySearchResults.
  cbv [mbind M_bind bind modify console emit].
  erewrite forEach_renderable by exact Hd.
  erewrite forEach_renderable by exact He.
  change (snapshotDesc eventColl Event.timestamp
            (answered (GetDocs (userSegment w) (cname archivedColl)) w)
            (userSegment (answered (GetDocs (userSegment w) (cname archivedColl)) w)))
    with (snapshotDesc eventColl Event.timestamp w (userSegment w)).
  clear Hd He. unfold resultsPanel.
  destruct (sortDreams _), (sortEvents _); (eexists; split; [reflexivity|done]).
Qed.
Lemma performSearch_panel w input scope :
  authenticated w = true →
  storeAnswers w →
  Js.truthyStr (searchTermOf input) = true →
  Forall (λ r, is_Some (Archived.dreamText (snd r)))
    (snapshotDesc archivedColl Archived.timestamp w (userSegment w)) →
  fst (performSearch (Some input) scope w) = Ok tt
  ∧ searchResultsList (snd (performSearch (Some input) scope w))
    = resultsPanel
        (sortDreams (dreamResults (searchTermOf input) (startDate w (scopeOf scope))
                       (snapshotDesc archivedColl Archived.timestamp w (userSegment w))))
        (sortEvents (eventResults (searchTermOf input) (startDate w (scopeOf scope))
                       (snapshotDesc eventColl Event.timestamp w (userSegment w))))
  ∧ selectedDreamForMatch (snd (performSearch (Some input) scope w)) = None
  ∧ selectedEventForMatch (snd (performSearch (Some input) scope w)) = None.
Proof.
  intros Hauth Hstore Hterm Htext.
  unfold performSearch. fold (searchTermOf input). fold (scopeOf scope).
  rewrite Hterm. cbn [negb]. rewrite run_get_bind, Hauth. cbn [negb].
  do 5 (erewrite bind_ok by reflexivity).
  unfold finally, tryCatch.
  match goal with |- context [(get ≫= _) ?w1] =>
    destruct (search_body w1 (searchTermOf input) (scopeOf scope))
      as (w' & Hrun & Hpanel & Hsd & Hse & _);
      [exact Hstore|exact Hterm|exact Htext|]
  end.
  rewrite Hrun. simpl. rewrite Hpanel, Hsd, Hse. done.
Qed.
Lemma List_filter_perm {A} (f : A → bool) l l' :
  l ≡ₚ l' → List.filter f l ≡ₚ List.filter f l'.
Proof.
  induction 1 as [|x l l' _ IH|x y l|l1 l2 l3 _ IH1 _ IH2]; simpl.
  - done.
  - destruct (f x); by rewrite IH.
  - destruct (f x), (f y); try done. apply Permutation_swap.
  - by etransitivity.
Qed.

Lemma snapshotDesc_perm {D} (c : Coll D) ts w u :
  snapshotDesc c ts w u ≡ₚ map_to_list (docs c w u).
Proof. apply sort_perm. Qed.

Lemma shown_resultsPanel ds es :
  map fst (shownDreams (resultsPanel ds es)) = ds
  ∧ map fst (shownEvents (resultsPanel ds es)) = es.
Proof.
  unfold resultsPanel.
  destruct ds, es; simpl; rewrite ?map_map, ?map_id; done.
Qed.

Lemma StronglySorted_weaken {A} (R R' : A → A → Prop) l :
  (∀ a b, R a b → R' a b) → StronglySorted R l → StronglySorted R' l.
Proof.
  intros H. induction 1 as [|x l Hl IH Hx]; constructor; [done|].
  eapply Forall_impl; [exact Hx|]. intros y. apply H.
Qed.

Lemma sorted_newerFirst {A} (ts : A → option Z) (l : list A) :
  StronglySorted (λ a b, millis (ts b) ≤ millis (ts a))
    (Js.sort (λ a b, newerFirst (ts a) (ts b)) l).
Proof.
  eapply StronglySorted_weaken; [|apply sort_sorted].
  - intros a b H. by apply Z.leb_le.
  - intros a b. unfold newerFirst. rewrite !Z.leb_le. lia.
  - intros a b c. unfold newerFirst. rewrite !Z.leb_le. lia.
Qed.

Lemma dreamMatches_spec term start d :
  dreamMatches term start d = true
  ↔ (contains (lowerOrEmpty (Archived.dreamText d)) term
     ∨ contains (lowerOrEmpty (Archived.dreamTitle d)) term)
    ∧ start ≤ millis (Archived.timestamp d).
Proof.
  unfold dreamMatches.
  by rewrite andb_true_iff, orb_true_iff, !includes_spec, Z.leb_le.
Qed.

Lemma eventMatches_spec term start e :
  eventMatches term start e = true
  ↔ contains (lowerOrEmpty (Event.eventText e)) term
    ∧ start ≤ millis (Event.timestamp e).
Proof.
  unfold eventMatches. by rewrite andb_true_iff, includes_spec, Z.leb_le.
Qed.

Lemma snapshot_has_text w :
  map_Forall (λ _ d, is_Some (Archived.dreamText d)) (docs archivedColl w (userSegment w)) →
  Forall (λ r, is_Some (Archived.dreamText (snd r)))
    (snapshotDesc archivedColl Archived.timestamp w (userSegment w)).
Proof.
  intros H. rewrite snapshotDesc_perm.
  apply map_Forall_to_list in H.
  eapply Forall_impl; [exact H|]. by intros [id d].
Qed.

Lemma searched_empty_term w input scope :
  searchTermOf input = "" →
  searched w input scope = PanelMessage "Please enter a search term.".
Proof.
  intros H. unfold searched, performSearch. fold (searchTermOf input).
  by rewrite H.
Qed.

Lemma searched_dreams w input scope :
  authenticated w = true → storeAnswers w →
  map_Forall (λ _ d, is_Some (Archived.dreamText d)) (docs archivedColl w (userSegment w)) →
  searchTermOf input ≠ "" →
  dreamsShown (searched w input scope)
  = sortDreams (dreamResults (searchTermOf input) (startDate w (scopeOf scope))
      (snapshotDesc archivedColl Archived.timestamp w (userSegment w)))
  ∧ eventsShown (searched w input scope)
    = sortEvents (eventResults (searchTermOf input) (startDate w (scopeOf scope))
        (snapshotDesc eventColl Event.timestamp w (userSegment w))).
Proof.
  intros Hauth Hstore Htext Hterm.
  apply truthyStr_true in Hterm.
  destruct (performSearch_panel w input scope Hauth Hstore Hterm (snapshot_has_text w Htext))
    as (_ & Hpanel & _).
  unfold searched, dreamsShown, eventsShown. rewrite Hpanel.
  apply shown_resultsPanel.
Qed.

Lemma shown_dreams_perm w input scope :
  authenticated w = true → storeAnswers w →
  map_Forall (λ _ d, is_Some (Archived.dreamText d)) (docs archivedColl w (userSegment w)) →
  searchTermOf input ≠ "" →
  dreamsShown (searched w input scope)
  ≡ₚ map dreamItem
       (List.filter
          (λ r, dreamMatches (searchTermOf input) (startDate w (scopeOf scope)) (snd r))
          (map_to_list (docs archivedColl w (userSegment w)))).
Proof.
  intros Hauth Hstore Htext Hterm.
  destruct (searched_dreams w input scope Hauth Hstore Htext Hterm) as [-> _].
  rewrite sortDreams_perm. unfold dreamResults.
  apply Permutation_map, List_filter_perm, snapshotDesc_perm.
Qed.

Lemma shown_events_perm w input scope :
  authenticated w = true → storeAnswers w →
  map_Forall (λ _ d, is_Some (Archived.dreamText d)) (docs archivedColl w (userSegment w)) →
  searchTermOf input ≠ "" →
  eventsShown (searched w input scope)
  ≡ₚ map eventItem
       (List.filter
          (λ r, eventMatches (searchTermOf input) (startDate w (scopeOf scope)) (snd r))
          (map_to_list (docs eventColl w (userSegment w)))).
Proof.
  intros Hauth Hstore Htext Hterm.
  destruct (searched_dreams w input scope Hauth Hstore Htext Hterm) as [_ ->].
  rewrite sortEvents_perm. unfold eventResults.
  apply Permutation_map, List_filter_perm, snapshotDesc_perm.
Qed.

(** A stored dream is shown exactly when it matches. *)
Lemma dream_shown_iff w input scope id d :
  authenticated w = true → storeAnswers w →
  map_Forall (λ _ d, is_Some (Archived.dreamText d)) (docs archivedColl w (userSegment w)) →
  searchTermOf input ≠ "" →
  docs archivedColl w (userSegment w) !! id = Some d →
  dreamItem (id, d) ∈ dreamsShown (searched w input scope)
  ↔ dreamMatches (searchTermOf input) (startDate w (scopeOf scope)) d = true.
Proof.
  intros Hauth Hstore Htext Hterm Hd.
  rewrite (shown_dreams_perm w input scope Hauth Hstore Htext Hterm).
  rewrite list_elem_of_fmap. split.
  - intros ([id' d'] & Hr & Hin). apply elem_of_List_filter in Hin as [Hin Hm].
    apply elem_of_map_to_list in Hin. simpl in *.
    assert (id' = id) as -> by (by injection Hr). by simplify_eq.
  - intros Hm. exists (id, d). split; [done|].
    apply elem_of_List_filter. split; [by apply elem_of_map_to_list|done].
Qed.

Lemma event_shown_iff w input scope id e :
  authenticated w = true → storeAnswers w →
  map_Forall (λ _ d, is_Some (Archived.dreamText d)) (docs archivedColl w (userSegment w)) →
  searchTermOf input ≠ "" →
  docs eventColl w (userSegment w) !! id = Some e →
  eventItem (id, e) ∈ eventsShown (searched w input scope)
  ↔ eventMatches (searchTermOf input) (startDate w (scopeOf scope)) e = true.
Proof.
  intros Hauth Hstore Htext Hterm He.
  rewrite (shown_events_perm w input scope Hauth Hstore Htext Hterm).
  rewrite list_elem_of_fmap. split.
  - intros ([id' e'] & Hr & Hin). apply elem_of_List_filter in Hin as [Hin Hm].
    apply elem_of_map_to_list in Hin. simpl in *.
    assert (id' = id) as -> by (by injection Hr). by simplify_eq.
  - intros Hm. exists (id, e). split; [done|].
    apply elem_of_List_filter. split; [by apply elem_of_map_to_list|done].
Qed.

(** C3, as amended.  For a signed-in user whose reads are answered and
    whose archived dreams all carry their text: a search term that is
    empty once trimmed returns nothing (the panel asks for a term);
    otherwise, [T] being the term trimmed and in lower case, the panel
    shows exactly the archived dreams whose lower-case text or title
    contains [T], and the daily events whose lower-case text contains
    [T], with a timestamp not before the start of the selected window
    (seven or thirty days before now, this day of last year, or the epoch
    for all-time; the window has no upper end), each list latest first.
    A dream dated forty days ago that matches is left out under the
    thirty-day scope and shown under all-time. *)
Theorem search_shows_the_matches_of_the_window (w : World) (input : string)
    (scope : option string) :
  authenticated w = true →
  storeAnswers w →
  map_Forall (λ _ d, is_Some (Archived.dreamText d)) (docs archivedColl w (userSegment w)) →
  (searchTermOf input = "" →
   searched w input scope = PanelMessage "Please enter a search term.")
  ∧ (searchTermOf input ≠ "" →
     dreamsShown (searched w input scope)
     ≡ₚ map dreamItem
          (List.filter
             (λ r, dreamMatches (searchTermOf input) (startDate w (scopeOf scope)) (snd r))
             (map_to_list (docs archivedColl w (userSegment w))))
     ∧ eventsShown (searched w input scope)
       ≡ₚ map eventItem
            (List.filter
               (λ r, eventMatches (searchTermOf input) (startDate w (scopeOf scope)) (snd r))
               (map_to_list (docs eventColl w (userSegment w))))
     ∧ StronglySorted (λ a b, millis (di_timestamp b) ≤ millis (di_timestamp a))
         (dreamsShown (searched w input scope))
     ∧ StronglySorted (λ a b, millis (ei_timestamp b) ≤ millis (ei_timestamp a))
         (eventsShown (searched w input scope)))
  ∧ (∀ start d,
       (dreamMatches (searchTermOf input) start d = true)
       ↔ ((contains (lowerOrEmpty (Archived.dreamText d)) (searchTermOf input)
           ∨ contains (lowerOrEmpty (Archived.dreamTitle d)) (searchTermOf input))
          ∧ start ≤ millis (Archived.timestamp d)))
  ∧ (∀ start e,
       (eventMatches (searchTermOf input) start e = true)
       ↔ (contains (lowerOrEmpty (Event.eventText e)) (searchTermOf input)
          ∧ start ≤ millis (Event.timestamp e)))
  ∧ (startDate w "last7Days" = nowMs w - 7 * day
     ∧ startDate w "last30Days" = nowMs w - 30 * day
     ∧ startDate w "lastYear" = lastYearStartMs w
     ∧ startDate w "allTime" = 0)
  ∧ (∀ id d,
       searchTermOf input ≠ "" →
       docs archivedColl w (userSegment w) !! id = Some d →
       contains (lowerOrEmpty (Archived.dreamText d)) (searchTermOf input) →
       Archived.timestamp d = Some (nowMs w - 40 * day) →
       (dreamItem (id, d) ∉ dreamsShown (searched w input (Some "last30Days")))
       ∧ (40 * day ≤ nowMs w →
          dreamItem (id, d) ∈ dreamsShown (searched w input (Some "allTime")))).
Proof.
  intros Hauth Hstore Htext.
  pose proof (λ sc, shown_dreams_perm w input sc Hauth Hstore Htext) as Hshown.
  split; [apply searched_empty_term|].
  split.
  { intros Hterm. split; [by apply Hshown|].
    destruct (searched_dreams w input scope Hauth Hstore Htext Hterm) as [Hd He].
    split; [|split].
    - by apply shown_events_perm.
    - rewrite Hd. apply sorted_newerFirst.
    - rewrite He. apply sorted_newerFirst. }
  split; [intros; apply dreamMatches_spec|].
  split; [intros; apply eventMatches_spec|].
  split; [done|].
  intros id d Hterm Hd Hc Hts.
  rewrite !(dream_shown_iff w input _ id d Hauth Hstore Htext Hterm Hd).
  rewrite !dreamMatches_spec, Hts.
  unfold scopeOf, startDate, millis, day. simpl. split.
  - intros [_ H]. lia.
  - intros Hnow. split; [by left|lia].
Qed.

(** C3, a run: the journal searched for "fly", typed in capitals between
    spaces, over the last thirty days. *)
Lemma search_run :
  dreamsShown (searched Examples.searcher "  FLY " (Some "last30Days"))
  ≡ₚ map dreamItem
       (List.filter
          (λ r, dreamMatches "fly" (Examples.now - 30 * day) (snd r))
          (map_to_list (docs archivedColl Examples.searcher "u1"))).
Proof.
  refine (proj1 (proj1 (proj2
    (search_shows_the_matches_of_the_window Examples.searcher "  FLY "
       (Some "last30Days") _ _ _)) _)).
  - reflexivity.
  - constructor.
  - apply (bool_decide_unpack _). vm_compute. exact I.
  - discriminate.
Defined.

(** Letters outside ASCII are lowered like the others, and a no-break
    space around the term is trimmed. *)
Example search_lowers_every_letter :
  map di_id (dreamsShown (searched Scenes.school "École" (Some "allTime"))) = ["d1"]
  ∧ map di_id (dreamsShown (searched Scenes.school (Scenes.nbsp +:+ "à l'Aube" +:+ Scenes.nbsp)
                              (Some "last7Days"))) = ["d1"]
  ∧ searched Scenes.school Scenes.nbsp (Some "allTime")
    = PanelMessage "Please enter a search term.".
Proof. vm_compute. repeat split. Qed.

(** C3, counterexample.  Every text contains the empty term, yet a search
    for it shows nothing.  And the term is trimmed before it is looked
    for: "fly " with its space does not occur in the first dream of the
    journal, which is shown.  (A dream that matches by its title and was
    stored without text stops the rendering: nothing is shown then.) *)
Lemma search_trims_and_refuses_empty :
  Js.includes (Js.toLowerCase "I was flying over Paris") (Js.toLowerCase "") = true
  ∧ dreamsShown (searched Examples.searcher "" (Some "allTime")) = []
  ∧ Js.includes (Js.toLowerCase "I was flying over Paris") (Js.toLowerCase "fly ") = false
  ∧ map di_id (dreamsShown (searched Examples.searcher "fly " (Some "allTime")))
    = ["d1"; "d2"; "d3"]
  ∧ Js.includes (lowerOrEmpty (Archived.dreamTitle Examples.flying)) "flight" = true
  ∧ docs archivedColl Scenes.incomplete "u1" !! "d1" = Some Examples.flying
  ∧ searched Scenes.incomplete "flight" (Some "allTime")
    = PanelMessage "Error performing search.".
Proof. vm_compute. repeat split. Qed.




End SearchFacts.

(* ===================================================================== *)
(** * Facts about reality-module.js                                      *)
(* ===================================================================== *)

Module RealityFacts.
Import Runtime Spec JsFacts RuntimeFacts Reality SearchFacts.

Lemma tsLe_total a b : tsLe a b = true ∨ tsLe b a = true.
Proof. destruct a, b; simpl; auto. rewrite !Z.leb_le. lia. Qed.

Lemma tsLe_trans a b c : tsLe a b = true → tsLe b c = true → tsLe a c = true.
Proof. destruct a, b, c; simpl; try done. rewrite !Z.leb_le. lia. Qed.

Lemma leb_trans_str a b c :
  String.leb a b = true → String.leb b c = true → String.leb a c = true.
Proof.
  intros H1%Is_true_true H2%Is_true_true. apply Is_true_true.
  change (String.le a c). by etransitivity.
Qed.

Lemma leb_total_str a b : String.leb a b = true ∨ String.leb b a = true.
Proof. destruct (String.leb_total a b); auto. Qed.

Section Desc.
Context {D : Type} (ts : D → option Z).

Lemma byTimestampDesc_total a b :
  byTimestampDesc ts a b = true ∨ byTimestampDesc ts b a = true.
Proof.
  unfold byTimestampDesc, tsLt.
  destruct (tsLe (ts (snd a)) (ts (snd b))) eqn:Hab,
           (tsLe (ts (snd b)) (ts (snd a))) eqn:Hba; simpl; auto.
  apply leb_total_str.
Qed.

Lemma byTimestampDesc_trans a b c :
  byTimestampDesc ts a b = true → byTimestampDesc ts b c = true →
  byTimestampDesc ts a c = true.
Proof.
  unfold byTimestampDesc, tsLt.
  rewrite !orb_true_iff, !andb_true_iff, !negb_true_iff.
  intros [H1|[H1 S1]] [H2|[H2 S2]].
  - left. destruct (ts (snd a)), (ts (snd b)), (ts (snd c)); simpl in *;
      rewrite ?Z.leb_gt in *; try done; lia.
  - left. destruct (ts (snd a)), (ts (snd b)), (ts (snd c)); simpl in *;
      rewrite ?Z.leb_gt, ?Z.leb_le in *; try done; lia.
  - left. destruct (ts (snd a)), (ts (snd b)), (ts (snd c)); simpl in *;
      rewrite ?Z.leb_gt, ?Z.leb_le in *; try done; lia.
  - destruct (tsLe (ts (snd a)) (ts (snd c))) eqn:Hac; [right|by left].
    split; [by eapply tsLe_trans|by eapply leb_trans_str].
Qed.

Lemma byTimestampDesc_later a b :
  byTimestampDesc ts a b = true → tsLe (ts (snd b)) (ts (snd a)) = true.
Proof.
  unfold byTimestampDesc, tsLt. intros [H|[H _]%andb_true_iff]%orb_true_iff; [|done].
  destruct (tsLe_total (ts (snd b)) (ts (snd a))) as [?|H']; [done|].
  by rewrite H' in H.
Qed.

Lemma snapshotDesc_sorted (c : Coll D) w u :
  StronglySorted (λ a b, tsLe (ts (snd b)) (ts (snd a)) = true) (snapshotDesc c ts w u).
Proof.
  eapply StronglySorted_weaken; [|apply sort_sorted].
  - apply byTimestampDesc_later.
  - apply byTimestampDesc_total.
  - apply byTimestampDesc_trans.
Qed.

End Desc.

Lemma attempt_run {A} (m : M A) w : attempt m w = (Ok (fst (m w)), snd (m w)).
Proof. unfold attempt. by destruct (m w). Qed.

Lemma recentEvents_split w u :
  snapshotDesc eventColl Event.timestamp w u
  = recentEvents w u ++ skipn 10 (snapshotDesc eventColl Event.timestamp w u).
Proof. unfold recentEvents. by rewrite firstn_skipn. Qed.

Lemma loadDailyEvents_trace w :
  authenticated w = true → storeAnswers w →
  trace (snd (loadDailyEvents w))
  = trace w ++
    [ SetText "daily-events-list" "Loading daily events...";
      ShowLoading;
      Remote (OnSnapshot (userSegment w) "daily_events");
      HideLoading;
      RenderRows "daily-events-list" (map fst (recentEvents w (userSegment w))) ].
Proof.
  intros Hauth Hstore. unfold loadDailyEvents.
  rewrite run_get_bind, Hauth. cbn [negb].
  do 2 (erewrite bind_ok by reflexivity).
  unfold onSnapshot. rewrite run_get_bind.
  erewrite bind_ok; [|rewrite attempt_run, remote_answers by exact Hstore; reflexivity].
  cbn [fst snd]. rewrite run_get_bind.
  erewrite bind_ok by reflexivity.
  simpl. rewrite <- !app_assoc. reflexivity.
Qed.

(** C7, as amended.  The list of daily events of the Reality tab
    ([loadDailyEvents]) holds at most ten events, all of them stored, none
    twice, latest first, and no stored event left out is later than one
    that is listed; that list is what the tab renders.  (The search reads
    the daily events without such a limit.) *)
Theorem daily_events_list_is_the_ten_latest (w : World) (u : string) :
  (length (recentEvents w u) ≤ 10)%nat
  ∧ (∀ r, r ∈ recentEvents w u → docs eventColl w u !! fst r = Some (snd r))
  ∧ NoDup (map fst (recentEvents w u))
  ∧ StronglySorted
      (λ a b, tsLe (Event.timestamp (snd b)) (Event.timestamp (snd a)) = true)
      (recentEvents w u)
  ∧ (∀ id e, docs eventColl w u !! id = Some e → (id, e) ∉ recentEvents w u →
       length (recentEvents w u) = 10%nat
       ∧ ∀ r, r ∈ recentEvents w u →
              tsLe (Event.timestamp e) (Event.timestamp (snd r)) = true)
  ∧ (authenticated w = true → storeAnswers w → u = userSegment w →
     trace (snd (loadDailyEvents w))
     = trace w ++
       [ SetText "daily-events-list" "Loading daily events...";
         ShowLoading;
         Remote (OnSnapshot u "daily_events");
         HideLoading;
         RenderRows "daily-events-list" (map fst (recentEvents w u)) ]).
Proof.
  pose proof (snapshotDesc_sorted Event.timestamp eventColl w u) as Hsorted.
  pose proof (snapshotDesc_perm eventColl Event.timestamp w u) as Hperm.
  rewrite recentEvents_split in Hsorted.
  split; [apply firstn_le_length|].
  split.
  { intros [id e] Hr. simpl. apply elem_of_map_to_list. rewrite <- Hperm.
    rewrite recentEvents_split. apply elem_of_app. by left. }
  split.
  { assert (NoDup (map fst (snapshotDesc eventColl Event.timestamp w u))) as Hnd.
    { rewrite Hperm. apply NoDup_fst_map_to_list. }
    rewrite recentEvents_split, map_app in Hnd. by apply NoDup_app in Hnd as [? _]. }
  split; [by apply StronglySorted_app_1_l in Hsorted|].
  split.
  { intros id e He Hout.
    assert ((id, e) ∈ skipn 10 (snapshotDesc eventColl Event.timestamp w u)) as Hrest.
    { apply elem_of_map_to_list in He. rewrite <- Hperm, recentEvents_split in He.
      apply elem_of_app in He as [?|?]; done. }
    split.
    - unfold recentEvents. apply firstn_length_le.
      destruct (decide (10 ≤ length (snapshotDesc eventColl Event.timestamp w u))%nat)
        as [?|Hshort]; [done|].
      rewrite skipn_all2 in Hrest by lia. by apply elem_of_nil in Hrest.
    - intros r Hr.
      apply (StronglySorted_app_1_elem_of _ _ _ r (id, e) Hsorted Hr Hrest). }
  intros Hauth Hstore ->. by apply loadDailyEvents_trace.
Qed.

(** C7, counterexample.  With eleven daily events that mention a walk, the
    Reality tab lists ten of them and a search for "walk" retrieves and
    shows all eleven. *)
Lemma search_reads_every_daily_event :
  length (eventsShown (searched Examples.busy "walk" (Some "allTime"))) = 11%nat
  ∧ length (recentEvents Examples.busy "u1") = 10%nat.
Proof. vm_compute. split; reflexivity. Qed.

End RealityFacts.

(* ===================================================================== *)
(** * The selection of the search page                                   *)
(* ===================================================================== *)

Module SelectionFacts.
Import Runtime Spec JsFacts RuntimeFacts Search SearchFacts.

(** ** The boxes *)

Lemma checked_unchecked {A} (l : list A) : checked (map (λ i, (i, false)) l) = [].
Proof. unfold checked. induction l; simpl; auto. Qed.

Lemma checked_none {A} (rows : list (A * bool)) :
  (∀ j r, rows !! j = Some r → snd r = false) → checked rows = [].
Proof.
  unfold checked. induction rows as [|r rows IH]; intros H; simpl; [done|].
  rewrite (H 0%nat r eq_refl). apply IH. intros j r' Hj. by apply (H (S j)).
Qed.

(** When only the box of row [i] can be checked, at most one box is, and
    it is the box of row [i]. *)
Lemma checked_only {A} (rows : list (A * bool)) i :
  (∀ j r, rows !! j = Some r → snd r = true → j = i) →
  (length (checked rows) ≤ 1)%nat
  ∧ ∀ x, In x (checked rows) → rows !! i = Some (x, true).
Proof.
  revert i. induction rows as [|[x b] rows IH]; intros i H.
  - split; [simpl; lia|]. intros x [].
  - destruct i as [|i].
    + assert (checked rows = []) as Hrest.
      { apply checked_none. intros j r Hj. destruct (snd r) eqn:Hr; [|done].
        by specialize (H (S j) r Hj Hr). }
      unfold checked in *. simpl. destruct b; simpl; rewrite Hrest.
      * split; [simpl; lia|]. by intros y [<-|[]].
      * split; [simpl; lia|]. intros y [].
    + assert (b = false) as ->.
      { destruct b; [|done]. by specialize (H 0%nat (x, true) eq_refl eq_refl). }
      destruct (IH i) as [Hlen Hin].
      { intros j r Hj Hr. specialize (H (S j) r Hj Hr). lia. }
      unfold checked in *. simpl. by split.
Qed.

Lemma setOnly_lookup {A} i c (rows : list (A * bool)) j :
  setOnly i c rows !! j
  = (λ r, (fst r, if Nat.eqb j i then c else false)) <$> rows !! j.
Proof. unfold setOnly. by rewrite list_lookup_imap. Qed.

Lemma setOnly_checked {A} i c (rows : list (A * bool)) :
  (length (checked (setOnly i c rows)) ≤ 1)%nat
  ∧ ∀ x, In x (checked (setOnly i c rows)) →
         c = true ∧ ∃ b, rows !! i = Some (x, b).
Proof.
  destruct (checked_only (setOnly i c rows) i) as [Hlen Hin].
  { intros j r. rewrite setOnly_lookup.
    destruct (rows !! j) as [r'|]; simpl; [|done]. intros [= <-]. simpl.
    by destruct (Nat.eqb_spec j i). }
  split; [done|]. intros x Hx. specialize (Hin x Hx).
  rewrite setOnly_lookup, Nat.eqb_refl in Hin.
  destruct (rows !! i) as [[y b]|]; simpl in Hin; [|done].
  injection Hin as -> ->. eauto.
Qed.

(** ** The handlers *)

#[global] Instance staysUnchecked_preorder : PreOrder staysUnchecked.
Proof.
  split.
  - intros w H. exact H.
  - intros w1 w2 w3 H12 H23 H. apply H23, H12, H.
Qed.

Ltac unchecked_prim :=
  solve [ let w := fresh "w" in let H := fresh "H" in
          intros w H; destruct H; split;
          cbv [emit modify remote fetchJson get ret throw];
          repeat case_match; simplify_eq; simpl;
          rewrite ?checked_unchecked; done ].

Lemma performSearch_rest_unchecked (term scope : string) :
  keeps staysUnchecked
    (showLoading ≫= λ _,
     modify (set_selectedDreamForMatch None) ≫= λ _,
     modify (set_selectedEventForMatch None) ≫= λ _,
     updateMatchSelectedButtonState ≫= λ _,
     finally
       (tryCatch
          (get ≫= λ w1,
           getDocsDesc archivedColl Archived.timestamp ≫= λ dreamSnapshot,
           getDocsDesc eventColl Event.timestamp ≫= λ eventSnapshot,
           displaySearchResults
             (dreamResults term (startDate w1 scope) dreamSnapshot)
             (eventResults term (startDate w1 scope) eventSnapshot))
          (λ e,
             console "error" "Error during search:" ≫= λ _,
             showMessage "error" ("Failed to perform search: " +:+ e) ≫= λ _,
             modify (set_searchResultsList (PanelMessage "Error performing search."))))
       hideLoading).
Proof.
  unfold updateMatchSelectedButtonState, displaySearchResults, renderable.
  keeps_go; unchecked_prim.
Qed.

Lemma performSearch_noneChecked input scope w :
  noneChecked (snd (performSearch input scope w)).
Proof.
  unfold performSearch.
  destruct (negb _); [done|].
  rewrite run_get_bind. destruct (negb _); [done|].
  erewrite bind_ok by reflexivity.
  apply (performSearch_rest_unchecked _ _ _). done.
Qed.

Lemma noneChecked_single w : noneChecked w → singleSelection w.
Proof.
  intros [Hd He]. unfold singleSelection. rewrite Hd, He. simpl.
  repeat split; (lia || by intros ? []).
Qed.

Lemma dreamCheckboxChange_single i w :
  singleSelection w → singleSelection (snd (dreamCheckboxChange i w)).
Proof.
  intros Hw. unfold dreamCheckboxChange. rewrite run_get_bind.
  destruct (searchResultsList w) as [html|dreams events] eqn:Hp; [done|].
  destruct (dreams !! i) as [[item was]|] eqn:Hi; [|done].
  destruct Hw as (_ & He & _ & Hse). rewrite Hp in He, Hse. simpl in He, Hse.
  destruct (setOnly_checked i (negb was) dreams) as [Hlen Hin].
  assert (selectedEventForMatch
            (snd ((modify (set_selectedDreamForMatch
                     (if negb was then Some (selectDream item) else None)) ≫= λ _,
                   modify (set_searchResultsList
                     (PanelResults (setOnly i (negb was) dreams) events)) ≫= λ _,
                   updateMatchSelectedButtonState) w))
          = selectedEventForMatch w) as Hsame.
  { unfold updateMatchSelectedButtonState.
    cbv [mbind M_bind bind modify get]. simpl. by repeat case_match. }
  assert (selectedDreamForMatch
            (snd ((modify (set_selectedDreamForMatch
                     (if negb was then Some (selectDream item) else None)) ≫= λ _,
                   modify (set_searchResultsList
                     (PanelResults (setOnly i (negb was) dreams) events)) ≫= λ _,
                   updateMatchSelectedButtonState) w))
          = (if negb was then Some (selectDream item) else None)) as Hsel.
  { unfold updateMatchSelectedButtonState.
    cbv [mbind M_bind bind modify get]. simpl. by repeat case_match. }
  assert (searchResultsList
            (snd ((modify (set_selectedDreamForMatch
                     (if negb was then Some (selectDream item) else None)) ≫= λ _,
                   modify (set_searchResultsList
                     (PanelResults (setOnly i (negb was) dreams) events)) ≫= λ _,
                   updateMatchSelectedButtonState) w))
          = PanelResults (setOnly i (negb was) dreams) events) as Hpanel.
  { unfold updateMatchSelectedButtonState.
    cbv [mbind M_bind bind modify get]. simpl. by repeat case_match. }
  unfold singleSelection. unfold selectDream in *. rewrite Hpanel, Hsame, Hsel. simpl.
  repeat split; try done.
  intros x Hx. destruct (Hin x Hx) as [-> [b Hb]]. rewrite Hi in Hb. by injection Hb as <- _.
Qed.

Lemma eventCheckboxChange_single i w :
  singleSelection w → singleSelection (snd (eventCheckboxChange i w)).
Proof.
  intros Hw. unfold eventCheckboxChange. rewrite run_get_bind.
  destruct (searchResultsList w) as [html|dreams events] eqn:Hp; [done|].
  destruct (events !! i) as [[item was]|] eqn:Hi; [|done].
  destruct Hw as (Hd & _ & Hsd & _). rewrite Hp in Hd, Hsd. simpl in Hd, Hsd.
  destruct (setOnly_checked i (negb was) events) as [Hlen Hin].
  assert (selectedDreamForMatch
            (snd ((modify (set_selectedEventForMatch
                     (if negb was then Some (selectEvent item) else None)) ≫= λ _,
                   modify (set_searchResultsList
                     (PanelResults dreams (setOnly i (negb was) events))) ≫= λ _,
                   updateMatchSelectedButtonState) w))
          = selectedDreamForMatch w) as Hsame.
  { unfold updateMatchSelectedButtonState.
    cbv [mbind M_bind bind modify get]. simpl. by repeat case_match. }
  assert (selectedEventForMatch
            (snd ((modify (set_selectedEventForMatch
                     (if negb was then Some (selectEvent item) else None)) ≫= λ _,
                   modify (set_searchResultsList
                     (PanelResults dreams (setOnly i (negb was) events))) ≫= λ _,
                   updateMatchSelectedButtonState) w))
          = (if negb was then Some (selectEvent item) else None)) as Hsel.
  { unfold updateMatchSelectedButtonState.
    cbv [mbind M_bind bind modify get]. simpl. by repeat case_match. }
  assert (searchResultsList
            (snd ((modify (set_selectedEventForMatch
                     (if negb was then Some (selectEvent item) else None)) ≫= λ _,
                   modify (set_searchResultsList
                     (PanelResults dreams (setOnly i (negb was) events))) ≫= λ _,
                   updateMatchSelectedButtonState) w))
          = PanelResults dreams (setOnly i (negb was) events)) as Hpanel.
  { unfold updateMatchSelectedButtonState.
    cbv [mbind M_bind bind modify get]. simpl. by repeat case_match. }
  unfold singleSelection. unfold selectEvent in *. rewrite Hpanel, Hsame, Hsel. simpl.
  repeat split; try done.
  intros x Hx. destruct (Hin x Hx) as [-> [b Hb]]. rewrite Hi in Hb. by injection Hb as <- _.
Qed.

Lemma openMatchModal_selection id text existing :
  keeps (same selection) (Dreams.openMatchModalForSearch id text existing).
Proof. unfold Dreams.openMatchModalForSearch. keeps_go. Qed.

Lemma singleSelection_same w w' :
  selection w' = selection w → singleSelection w → singleSelection w'.
Proof.
  unfold selection, singleSelection. intros [= Hp Hd He]. by rewrite Hp, Hd, He.
Qed.

Lemma step_single w w' : step w w' → singleSelection w → singleSelection w'.
Proof.
  intros [a w1|w1 w2 Hsame] Hw.
  - destruct a as [input scope|i|i| |i]; simpl.
    + apply noneChecked_single, performSearch_noneChecked.
    + by apply dreamCheckboxChange_single.
    + by apply eventCheckboxChange_single.
    + eapply singleSelection_same; [|exact Hw].
      unfold handleMatchSelectedClick. rewrite run_get_bind.
      destruct (selectedDreamForMatch w1), (selectedEventForMatch w1); try done.
      apply openMatchModal_selection.
    + eapply singleSelection_same; [|exact Hw].
      rewrite run_get_bind.
      destruct (shownDreams (searchResultsList w1) !! i) as [[item b]|]; [|done].
      apply openMatchModal_selection.
  - by eapply singleSelection_same.
Qed.

Lemma reachable_single w0 w : pageLoaded w0 → rtc step w0 w → singleSelection w.
Proof.
  intros ([html Hp] & Hd & He) Hreach.
  assert (singleSelection w0) as H0.
  { apply noneChecked_single. unfold noneChecked. by rewrite Hp. }
  clear Hp Hd He. induction Hreach as [|w1 w2 w3 Hstep _ IH]; [done|].
  apply IH. by eapply step_single.
Qed.

Lemma dreamCheckboxChange_run i w dreams events item was :
  searchResultsList w = PanelResults dreams events →
  dreams !! i = Some (item, was) →
  searchResultsList (snd (dreamCheckboxChange i w))
  = PanelResults (setOnly i (negb was) dreams) events
  ∧ selectedDreamForMatch (snd (dreamCheckboxChange i w))
    = (if negb was then Some (selectDream item) else None).
Proof.
  intros Hp Hi. unfold dreamCheckboxChange. rewrite run_get_bind, Hp, Hi.
  unfold updateMatchSelectedButtonState.
  cbv [mbind M_bind bind modify get]. simpl. by repeat case_match.
Qed.

Lemma eventCheckboxChange_run i w dreams events item was :
  searchResultsList w = PanelResults dreams events →
  events !! i = Some (item, was) →
  searchResultsList (snd (eventCheckboxChange i w))
  = PanelResults dreams (setOnly i (negb was) events)
  ∧ selectedEventForMatch (snd (eventCheckboxChange i w))
    = (if negb was then Some (selectEvent item) else None).
Proof.
  intros Hp Hi. unfold eventCheckboxChange. rewrite run_get_bind, Hp, Hi.
  unfold updateMatchSelectedButtonState.
  cbv [mbind M_bind bind modify get]. simpl. by repeat case_match.
Qed.

(** The boxes of the search page.  In every state the page can reach, at
    most one dream box and at most one event box are checked, and a
    checked box is the row held in the selection variable (the converse
    fails, see [stale_selection_is_matched]); checking the box of a second dream
    (or event) unchecks the first and selects the second; and
    "Match Selected" opens the match modal only when a dream and an event
    are both selected: otherwise it shows a message and does nothing
    else. *)
Theorem selection_is_single (w0 w : World) :
  pageLoaded w0 → rtc step w0 w →
  singleSelection w
  ∧ (∀ i j a b, i ≠ j →
       shownDreams (searchResultsList w) !! i = Some (a, true) →
       shownDreams (searchResultsList w) !! j = Some (b, false) →
       shownDreams (searchResultsList (snd (dreamCheckboxChange j w))) !! i = Some (a, false)
       ∧ shownDreams (searchResultsList (snd (dreamCheckboxChange j w))) !! j = Some (b, true)
       ∧ selectedDreamForMatch (snd (dreamCheckboxChange j w)) = Some (selectDream b))
  ∧ (∀ i j a b, i ≠ j →
       shownEvents (searchResultsList w) !! i = Some (a, true) →
       shownEvents (searchResultsList w) !! j = Some (b, false) →
       shownEvents (searchResultsList (snd (eventCheckboxChange j w))) !! i = Some (a, false)
       ∧ shownEvents (searchResultsList (snd (eventCheckboxChange j w))) !! j = Some (b, true)
       ∧ selectedEventForMatch (snd (eventCheckboxChange j w)) = Some (selectEvent b))
  ∧ (selectedDreamForMatch w = None ∨ selectedEventForMatch w = None →
     snd (handleMatchSelectedClick w)
     = set_trace
         (trace w ++ [ShowMessage "info"
            "Please select exactly one dream and one daily event to match."]) w)
  ∧ (∀ d e, selectedDreamForMatch w = Some d → selectedEventForMatch w = Some e →
       handleMatchSelectedClick w
       = Dreams.openMatchModalForSearch (sd_id d) (sd_content d)
           ("Matched with daily event: " +:+ quote +:+ orUndefined (se_content e) +:+ quote)
           w).
Proof.
  intros H0 Hreach. split; [by eapply reachable_single|].
  split; [|split; [|split]].
  - intros i j a b Hij Hi Hj.
    destruct (searchResultsList w) as [html|dreams events] eqn:Hp; [done|].
    simpl in Hi, Hj.
    destruct (dreamCheckboxChange_run j w dreams events b false Hp Hj) as [-> ->].
    simpl. rewrite !setOnly_lookup, Hi, Hj. simpl.
    rewrite Nat.eqb_refl. destruct (Nat.eqb_spec i j); done.
  - intros i j a b Hij Hi Hj.
    destruct (searchResultsList w) as [html|dreams events] eqn:Hp; [done|].
    simpl in Hi, Hj.
    destruct (eventCheckboxChange_run j w dreams events b false Hp Hj) as [-> ->].
    simpl. rewrite !setOnly_lookup, Hi, Hj. simpl.
    rewrite Nat.eqb_refl. destruct (Nat.eqb_spec i j); done.
  - unfold handleMatchSelectedClick. rewrite run_get_bind.
    intros [->| ->]; [done|]. by destruct (selectedDreamForMatch w).
  - intros d e Hd He. unfold handleMatchSelectedClick.
    by rewrite run_get_bind, Hd, He.
Qed.

(** A run: the journal searched for "fly", then a dream, an event and a
    second dream are checked. *)
Lemma selection_run :
  singleSelection Examples.afterClicks
  ∧ map di_id (checked (shownDreams (searchResultsList Examples.afterClicks))) = ["d2"]
  ∧ map ei_id (checked (shownEvents (searchResultsList Examples.afterClicks))) = ["e1"].
Proof.
  split; [|by vm_compute].
  refine (proj1 (selection_is_single Examples.searcher Examples.afterClicks _ _)).
  - split; [by eexists|]. split; reflexivity.
  - unfold Examples.afterClicks.
    eapply rtc_r; [|apply (step_action (ClickDreamBox 1))].
    eapply rtc_r; [|apply (step_action (ClickEventBox 0))].
    eapply rtc_r; [|apply (step_action (ClickDreamBox 0))].
    eapply rtc_r; [|apply (step_action (SearchFor (Some "fly") (Some "allTime")))].
    apply rtc_refl.
Defined.

(** C6, at the failing input.  The journal is searched for "fly", a dream
    and an event are checked, and a blank term is searched next.  The
    rows are replaced by a sentence, but [performSearch] returns before it
    resets the two selection variables: no box is checked any more, the
    button is still enabled, and "Match Selected" opens the match modal on
    the rows that were checked before. *)
Theorem stale_selection_is_matched :
  searchResultsList Scenes.blankSearch = PanelMessage "Please enter a search term."
  ∧ checked (shownDreams (searchResultsList Scenes.blankSearch)) = []
  ∧ checked (shownEvents (searchResultsList Scenes.blankSearch)) = []
  ∧ selectedDreamForMatch Scenes.blankSearch
    = Some (mkSelectedDream "d2" (Some "Flying fish in the bay") (Some "Fish"))
  ∧ selectedEventForMatch Scenes.blankSearch
    = Some (mkSelectedEvent "e1" (Some "Butterfly garden visit"))
  ∧ matchSelectedDisabled Scenes.blankSearch = false
  ∧ fst (handleMatchSelectedClick Scenes.blankSearch) = Ok tt
  ∧ messages (trace (snd (handleMatchSelectedClick Scenes.blankSearch)))
    = messages (trace Scenes.blankSearch)
  ∧ currentDreamIdForMatch (snd (handleMatchSelectedClick Scenes.blankSearch)) = Some "d2"
  ∧ matchedEventInput (snd (handleMatchSelectedClick Scenes.blankSearch))
    = "Matched with daily event: " +:+ quote +:+ "Butterfly garden visit" +:+ quote
  ∧ last (trace (snd (handleMatchSelectedClick Scenes.blankSearch)))
    = Some (SetHidden "add-match-modal" false).
Proof. vm_compute. repeat split. Qed.

End SelectionFacts.

(* ===================================================================== *)
(** * Facts about stats-module.js                                        *)
(* ===================================================================== *)

Module StatsFacts.
Import Runtime Spec JsFacts RuntimeFacts SearchFacts Stats.

(** ** Presence counts *)

Lemma eqb_sym_str a b : String.eqb a b = String.eqb b a.
Proof. destruct (String.eqb_spec a b), (String.eqb_spec b a); congruence. Qed.

Lemma adds_cons a k keys key :
  adds a (k :: keys) key
  = if String.eqb k key then readNonEmpty a key
    else readPasses a k && adds a keys key.
Proof.
  unfold adds. simpl. rewrite (eqb_sym_str key k).
  destruct (String.eqb k key); simpl; [done|].
  by destruct (existsb _ _), (readPasses a k), (forallb _ _), (readNonEmpty a key).
Qed.

Lemma adds_notin a keys key : key ∉ keys → adds a keys key = false.
Proof.
  intros Hk. unfold adds.
  assert (existsb (String.eqb key) keys = false) as ->; [|done].
  apply not_true_is_false. intros (k' & Hin & Heq%String.eqb_eq)%existsb_exists.
  subst. by apply Hk, list_elem_of_In.
Qed.

Lemma countFields_adds a keys c key :
  NoDup keys →
  snd (countFields a keys c) key = c key + one (adds a keys key).
Proof.
  intros Hnd. revert c. induction Hnd as [|k keys Hk Hnd IH]; intros c.
  - simpl. unfold adds. simpl. lia.
  - rewrite adds_cons. simpl. unfold readPasses, readNonEmpty, passes.
    destruct (Js.getProp a k) as [v|] eqn:Hg.
    2:{ destruct (String.eqb_spec k key) as [->|Hne]; [rewrite Hg|]; simpl; lia. }
    destruct (String.eqb_spec k key) as [->|Hne].
    + rewrite Hg. destruct (Js.truthyVal v) eqn:Hv.
      * destruct v as [[]|]; simpl in *; try lia.
        rewrite IH, (adds_notin _ _ _ Hk).
        destruct (Js.truthyStr (Js.trim s)); simpl; [rewrite fn_lookup_insert|]; lia.
      * rewrite IH, (adds_notin _ _ _ Hk).
        destruct v as [[]|]; simpl in *; try lia; try done.
        destruct s; simpl in *; [lia|done].
    + destruct (Js.truthyVal v) eqn:Hv; simpl.
      * destruct v as [[]|]; simpl in *; try lia.
        rewrite IH.
        destruct (Js.truthyStr (Js.trim s)); [rewrite fn_lookup_insert_ne by done|]; lia.
      * rewrite IH. lia.
Qed.

Lemma countsFor_adds keys key t :
  countsFor keys key t = match Js.parsed t with Some a => adds a keys key | None => false end.
Proof. reflexivity. Qed.

Lemma countFields_result a keys c :
  fst (countFields a keys c) = Ok tt ↔ forallb (readPasses a) keys = true.
Proof.
  revert c. induction keys as [|k keys IH]; intros c; simpl; [done|].
  unfold readPasses at 1, passes.
  destruct (Js.getProp a k) as [v|]; simpl; [|done].
  destruct (Js.truthyVal v); simpl; [|apply IH].
  destruct v as [[]|]; simpl; try done; apply IH.
Qed.

Lemma countDream_adds keys c t key :
  NoDup keys →
  snd (countDream keys c t) key = c key + one (countsFor keys key t).
Proof.
  intros Hnd. unfold countDream. rewrite countsFor_adds.
  destruct (Js.parsed t) as [a|]; simpl; [|lia]. by apply countFields_adds.
Qed.

Lemma countDream_result keys c t :
  fst (countDream keys c t) = Ok tt ↔ runsThrough keys t = true.
Proof.
  unfold countDream, runsThrough.
  destruct (Js.parsed t) as [a|]; simpl; [|done]. apply countFields_result.
Qed.

Lemma countAll_counts keys snap c key :
  NoDup keys →
  fst (countAll keys snap c) key
  = c key + Z.of_nat (length (List.filter
      (λ r, countsFor keys key (Archived.analysisText (snd r))) snap)).
Proof.
  intros Hnd. revert c. induction snap as [|[id d] snap IH]; intros c; simpl; [lia|].
  pose proof (countDream_adds keys c (Archived.analysisText d) key Hnd) as Hd.
  destruct (countDream keys c (Archived.analysisText d)) as [[[]|e] c1]; simpl in Hd.
  - rewrite IH, Hd. destruct (countsFor _ _ _); simpl; lia.
  - specialize (IH c1). destruct (countAll keys snap c1) as [c2 warned]. simpl in *.
    rewrite IH, Hd. destruct (countsFor _ _ _); simpl; lia.
Qed.

Lemma countAll_warned keys snap c :
  snd (countAll keys snap c)
  = map fst (List.filter
      (λ r, negb (runsThrough keys (Archived.analysisText (snd r)))) snap).
Proof.
  revert c. induction snap as [|[id d] snap IH]; intros c; simpl; [done|].
  pose proof (countDream_result keys c (Archived.analysisText d)) as Hd.
  destruct (countDream keys c (Archived.analysisText d)) as [[[]|e] c1]; simpl in Hd.
  - rewrite (proj1 Hd eq_refl). simpl. apply IH.
  - specialize (IH c1). destruct (countAll keys snap c1) as [c2 warned]. simpl in *.
    destruct (runsThrough keys (Archived.analysisText d)); simpl.
    + by destruct Hd as [_ Hd]; specialize (Hd eq_refl).
    + by rewrite IH.
Qed.

(** On analyses typed as the schema asks, a dream counts for a key when
    its text parses and the value of the key is not empty. *)
Lemma countsFor_typed keys key t :
  In key keys → schemaTyped keys t →
  countsFor keys key t
  = match Js.parsed t with Some a => readNonEmpty a key | None => false end.
Proof.
  unfold schemaTyped, countsFor, adds. intros Hin Ht.
  destruct (Js.parsed t) as [a|]; [|done].
  assert (existsb (String.eqb key) keys = true) as ->.
  { apply existsb_exists. exists key. split; [done|]. apply String.eqb_refl. }
  assert (forallb (readPasses a) (before keys key) = true) as ->; [|done].
  clear Hin. induction keys as [|k keys IH]; simpl in *; [done|].
  apply andb_true_iff in Ht as [Hk Ht].
  destruct (String.eqb k key); simpl; [done|]. rewrite Hk. by apply IH.
Qed.

Lemma categories_NoDup : NoDup (map fst categories).
Proof. apply (bool_decide_unpack _). by vm_compute. Qed.

(** ** Running [loadDetailedDreamStats] *)

Lemma forEach_emit_run {A} (f : A → Effect) (l : list A) w :
  forEach (λ x, emit (f x)) l w = (Ok tt, set_trace (trace w ++ map f l) w).
Proof.
  revert w. induction l as [|x l IH]; intros w; simpl.
  - rewrite app_nil_r. by destruct w.
  - erewrite bind_ok by reflexivity. rewrite IH. simpl.
    by rewrite <- app_assoc.
Qed.

Lemma guarded_total (m : M unit) (h : string → M unit) (f : M unit) :
  (∀ e w, fst (h e w) = Ok tt) → (∀ w, fst (f w) = Ok tt) →
  ∀ w, fst (finally (tryCatch m h) f w) = Ok tt.
Proof.
  intros Hh Hf w. unfold finally, tryCatch.
  destruct (m w) as [[[]|e] w1].
  - specialize (Hf w1). by destruct (f w1) as [[[]|?] ?].
  - specialize (Hh e w1). destruct (h e w1) as [r w2]. simpl in Hh. subst r.
    specialize (Hf w2). by destruct (f w2) as [[[]|?] ?].
Qed.

Lemma getDocs_answers {D} (c : Coll D) w :
  storeAnswers w →
  getDocs c w
  = (Ok (snapshot c w (userSegment w)),
     answered (GetDocs (userSegment w) (cname c)) w).
Proof.
  intros H. unfold getDocs. rewrite run_get_bind.
  erewrite bind_ok; [|by apply remote_answers]. reflexivity.
Qed.

Lemma loadDetailedDreamStats_total w : fst (loadDetailedDreamStats w) = Ok tt.
Proof.
  unfold loadDetailedDreamStats. rewrite run_get_bind.
  destruct (authenticated w); cbn [negb].
  - erewrite bind_ok by reflexivity. apply guarded_total; [|done]. by intros e w1.
  - unfold setText. by rewrite (forEach_emit_run (λ c, SetText (snd c) "N/A")).
Qed.

Lemma loadDetailedDreamStats_trace w :
  authenticated w = true → storeAnswers w →
  trace (snd (loadDetailedDreamStats w))
  = trace w
    ++ [ShowLoading; Remote (GetDocs (userSegment w) "archived_dreams")]
    ++ map (λ id, Console "warn" ("Could not parse analysis for dream: " +:+ id))
         (snd (countAll (map fst categories)
                 (snapshot archivedColl w (userSegment w)) noCounts))
    ++ map (λ c, SetCount (snd c)
                   (fst (countAll (map fst categories)
                           (snapshot archivedColl w (userSegment w)) noCounts) (fst c)))
         categories
    ++ [HideLoading].
Proof.
  intros Hauth Hstore. unfold loadDetailedDreamStats.
  rewrite run_get_bind, Hauth. cbn [negb].
  erewrite bind_ok by reflexivity.
  unfold finally, tryCatch.
  erewrite bind_ok; [|by apply getDocs_answers].
  change (snapshot archivedColl (set_trace (trace w ++ [ShowLoading]) w)
            (userSegment (set_trace (trace w ++ [ShowLoading]) w)))
    with (snapshot archivedColl w (userSegment w)).
  destruct (countAll _ _ _) as [cc warned]. unfold console.
  erewrite bind_ok
    by apply (forEach_emit_run
                (λ id, Console "warn" ("Could not parse analysis for dream: " +:+ id))).
  rewrite (forEach_emit_run (λ c, SetCount (snd c) (cc (fst c)))).
  simpl. by rewrite <- !app_assoc.
Qed.

Lemma countedKeys_NoDup : NoDup countedKeys.
Proof. apply categories_NoDup. Qed.

(** What the presence counts are.  [loadDetailedDreamStats] never throws.  For each of
    the twelve keys its count is the number of dreams whose analysis text
    parses, whose loop gets past every earlier key (each earlier value is
    falsy or a string) and whose value for the key is a string that is not
    empty once trimmed; for analyses whose truthy values are all strings
    this is the number of dreams whose text parses and whose value for the
    key is not empty once trimmed.  The dreams logged are those whose loop
    threw; a dream whose text does not parse is logged and counts for no
    key.  The counts and the warnings are what a signed-in run writes. *)
Theorem presence_counts_follow_the_loop (w : World) (snap : list (string * Archived.t)) :
  fst (loadDetailedDreamStats w) = Ok tt
  ∧ Forall (λ key, fst (aggregated snap) key
                   = howMany (countsFor countedKeys key) Archived.analysisText snap)
      countedKeys
  ∧ snd (aggregated snap)
    = map fst (List.filter
        (λ r, negb (runsThrough countedKeys (Archived.analysisText (snd r)))) snap)
  ∧ (Forall (λ r, schemaTyped countedKeys (Archived.analysisText (snd r))) snap →
     Forall (λ key, fst (aggregated snap) key
                    = howMany (filled key) Archived.analysisText snap)
       countedKeys)
  ∧ (∀ id d, In (id, d) snap → Js.parsed (Archived.analysisText d) = None →
     In id (snd (aggregated snap))
     ∧ ∀ key, countsFor countedKeys key (Archived.analysisText d) = false)
  ∧ (authenticated w = true → storeAnswers w →
     snap = snapshot archivedColl w (userSegment w) →
     trace (snd (loadDetailedDreamStats w))
     = trace w
       ++ [ShowLoading; Remote (GetDocs (userSegment w) "archived_dreams")]
       ++ map (λ id, Console "warn" ("Could not parse analysis for dream: " +:+ id))
            (snd (aggregated snap))
       ++ map (λ c, SetCount (snd c) (fst (aggregated snap) (fst c))) categories
       ++ [HideLoading]).
Proof.
  pose proof countedKeys_NoDup as Hnd.
  assert (Hcount : ∀ key, fst (aggregated snap) key
             = howMany (countsFor countedKeys key) Archived.analysisText snap).
  { intros key. unfold aggregated, howMany. by rewrite countAll_counts. }
  split; [apply loadDetailedDreamStats_total|].
  split; [apply Forall_forall; intros key _; apply Hcount|].
  split; [apply countAll_warned|].
  split; [|split].
  - intros Htyped. apply Forall_forall. intros key Hkey. rewrite Hcount.
    clear Hcount. apply list_elem_of_In in Hkey. unfold howMany. f_equal. f_equal.
    induction Htyped as [|r rest Hr _ IH]; simpl; [done|].
    rewrite (countsFor_typed countedKeys key _ Hkey Hr). fold (filled key (Archived.analysisText (snd r))).
    destruct (filled key _); simpl; by rewrite IH.
  - intros id d Hin Hparse. split.
    + unfold aggregated. rewrite countAll_warned.
      apply (in_map fst _ (id, d)). apply filter_In. split; [done|].
      simpl. unfold runsThrough. by rewrite Hparse.
    + intros key. unfold countsFor. by rewrite Hparse.
  - intros Hauth Hstore ->. by apply loadDetailedDreamStats_trace.
Qed.

(** C5, at the failing input.  The analysis of dream [d1] parses and its
    location is not empty once trimmed, yet the location count written is
    0: the number under the first key has no [trim], the call throws, the
    handler meant for parsing errors catches it and the loop over the
    keys of this dream ends there.  The dream is logged as not
    parsable. *)
Lemma number_in_a_field_hides_the_later_ones :
  filled "location" Examples.mistyped = true
  ∧ docs archivedColl Examples.dreamer "u1" !! "d1"
    = Some (Archived.mk (Some "At home") Examples.mistyped (Some "Home")
              (Some 1700000000000) (Some ""))
  ∧ fst (aggregated (snapshot archivedColl Examples.dreamer "u1")) "location" = 0
  ∧ trace (snd (loadDetailedDreamStats Examples.dreamer))
    = [ShowLoading; Remote (GetDocs "u1" "archived_dreams");
       Console "warn" "Could not parse analysis for dream: d1";
       Console "warn" "Could not parse analysis for dream: d2"]
      ++ map (λ c, SetCount (snd c) 0) categories
      ++ [HideLoading].
Proof. repeat split; by vm_compute. Qed.

(** ** Order of occurrence *)

Lemma precedes_nil {A} (a b : A) : ¬ precedes a b [].
Proof. intros (l1 & l2 & l3 & H). by destruct l1. Qed.

Lemma precedes_cons {A} (a b x : A) l :
  precedes a b (x :: l) ↔ (a = x ∧ b ∈ l) ∨ precedes a b l.
Proof.
  split.
  - intros (l1 & l2 & l3 & H). destruct l1 as [|y l1]; simpl in H; simplify_eq.
    + left. split; [done|]. apply elem_of_app. right. left.
    + right. by exists l1, l2, l3.
  - intros [[-> Hb]|(l1 & l2 & l3 & ->)].
    + apply list_elem_of_split in Hb as (l2 & l3 & ->). by exists [], l2, l3.
    + by exists (x :: l1), l2, l3.
Qed.

Lemma precedes_elem {A} (a b : A) l : precedes a b l → a ∈ l ∧ b ∈ l.
Proof.
  intros (l1 & l2 & l3 & ->). split.
  - apply elem_of_app. right. left.
  - apply elem_of_app. right. right. apply elem_of_app. right. left.
Qed.

Lemma precedes_app {A} (a b : A) l l' :
  precedes a b (l ++ l') ↔ precedes a b l ∨ (a ∈ l ∧ b ∈ l') ∨ precedes a b l'.
Proof.
  induction l as [|x l IH]; simpl.
  - split; [by right; right|]. intros [H|[[H _]|H]]; [|by apply elem_of_nil in H|done].
    by apply precedes_nil in H.
  - rewrite !precedes_cons, IH, elem_of_app, elem_of_cons. tauto.
Qed.

Lemma precedes_map {A B} (f : A → B) a b l :
  precedes a b l → precedes (f a) (f b) (map f l).
Proof.
  intros (l1 & l2 & l3 & ->). exists (map f l1), (map f l2), (map f l3).
  by rewrite map_app, (map_cons f), map_app.
Qed.

Lemma precedes_filter {A} (p : A → bool) a b l :
  precedes a b (List.filter p l) → precedes a b l.
Proof.
  induction l as [|x l IH]; simpl; [done|].
  destruct (p x); rewrite ?precedes_cons; [|by right; apply IH].
  intros [[-> Hb]|H]; [left|right; by apply IH].
  split; [done|]. apply list_elem_of_In, filter_In in Hb as [Hb _]. by apply list_elem_of_In.
Qed.

Lemma precedes_firstn {A} (a b : A) n l : precedes a b (firstn n l) → precedes a b l.
Proof. intros H. rewrite <- (firstn_skipn n l). apply precedes_app. by left. Qed.

Lemma precedes_NoDup {A} (a b : A) l : NoDup l → precedes a b l → a ≠ b.
Proof.
  intros Hnd (l1 & l2 & l3 & ->) ->.
  apply NoDup_app in Hnd as (_ & _ & Hnd). apply NoDup_cons in Hnd as [Hb _].
  apply Hb. apply elem_of_app. right. left.
Qed.

Lemma precedes_sorted {A} (R : A → A → Prop) a b l :
  StronglySorted R l → precedes a b l → R a b.
Proof.
  induction 1 as [|x l Hs IH Hx]; [by intros ?%precedes_nil|].
  rewrite precedes_cons. intros [[-> Hb]|H]; [|by apply IH].
  rewrite List.Forall_forall in Hx. by apply Hx, list_elem_of_In.
Qed.

(** ** The sort is stable *)

Section Stable.
Context {A : Type} (le : A → A → bool).

Lemma precedes_insertSorted a b x l :
  precedes a b (Js.insertSorted le x l) →
  precedes a b l ∨ (a = x ∧ b ∈ l) ∨ (b = x ∧ le x a = false ∧ a ∈ l).
Proof.
  induction l as [|y r IH]; simpl.
  - rewrite precedes_cons. intros [[_ H]|H]; [by apply elem_of_nil in H|].
    by apply precedes_nil in H.
  - destruct (le x y) eqn:Hxy.
    + rewrite precedes_cons. intros [[-> Hb]|H]; [right; left|left]; done.
    + rewrite precedes_cons. intros [[-> Hb]|H].
      * rewrite (insertSorted_perm le x r), elem_of_cons in Hb.
        destruct Hb as [->|Hb].
        -- right. right. repeat split; [done|left].
        -- left. apply precedes_cons. by left.
      * destruct (IH H) as [H'|[[-> Hb]|(-> & Hle & Ha)]].
        -- left. apply precedes_cons. by right.
        -- right. left. split; [done|by right].
        -- right. right. repeat split; [done|by right].
Qed.

(** Two entries the comparator does not tell apart, or tells apart the
    other way round, are never swapped. *)
Lemma sort_stable a b l :
  precedes a b (Js.sort le l) → le b a = true → precedes a b l.
Proof.
  induction l as [|x l IH]; simpl; [done|].
  intros H Hba. apply precedes_insertSorted in H as [H|[[-> Hb]|(-> & Hle & Ha)]].
  - apply precedes_cons. right. by apply IH.
  - apply precedes_cons. left. split; [done|]. by rewrite (sort_perm le l) in Hb.
  - congruence.
Qed.

End Stable.

(** ** The tokenizer *)

Lemma split_alnum s : Forall (λ p, allAlnumLower p = true) (split s).
Proof.
  induction s as [|c r IH]; simpl.
  - by repeat constructor.
  - destruct (Js.isAlnumLower c) eqn:Hc.
    + destruct (split r) as [|piece pieces].
      * repeat constructor. simpl. by rewrite Hc.
      * inversion IH; subst. constructor; [|done]. simpl. by rewrite Hc.
    + destruct (startsWithSeparator r); [done|]. by constructor.
Qed.

Lemma tokenizeAndClean_good v terms :
  tokenizeAndClean v = Ok terms → Forall goodTerm terms.
Proof.
  unfold tokenizeAndClean. destruct (negb _); [by intros [= <-]|].
  destruct v as [[]|]; try done. intros [= <-].
  apply Forall_forall. intros t [Ht Hk]%list_elem_of_In%filter_In.
  apply andb_true_iff in Hk as [Hlen Hstop].
  repeat split.
  - by apply Nat.ltb_lt.
  - pose proof (split_alnum (Js.toLowerCase s)) as Hs.
    rewrite Forall_forall in Hs. by apply Hs, list_elem_of_In.
  - by apply negb_true_iff.
Qed.

Lemma fieldTerms_good a fields f : Forall goodTerm (fieldTerms a fields f).
Proof.
  induction fields as [|g rest IH]; simpl; [done|].
  destruct (Js.getProp a g) as [text|]; [|done].
  destruct (tokenizeAndClean text) as [terms|e] eqn:Htok; [|done].
  apply Forall_app. split; [|done].
  destruct (String.eqb g f); [|done]. by eapply tokenizeAndClean_good.
Qed.

Lemma encountered_good fields f snap : Forall goodTerm (encountered fields f snap).
Proof.
  unfold encountered. induction snap as [|[id d] snap IH]; simpl; [done|].
  apply Forall_app. split; [|done].
  unfold dreamTerms. destruct (Js.parsed _); [apply fieldTerms_good|done].
Qed.

(** ** What the loop leaves in a map *)

Lemma updateFrequencyMap_app m l l' :
  updateFrequencyMap m (l ++ l') = updateFrequencyMap (updateFrequencyMap m l) l'.
Proof. apply fold_left_app. Qed.

Lemma tallyFields_terms a fields maps f :
  snd (tallyFields a fields maps) f
  = updateFrequencyMap (maps f) (fieldTerms a fields f).
Proof.
  revert maps. induction fields as [|g rest IH]; intros maps; simpl; [done|].
  destruct (Js.getProp a g) as [text|]; [|done].
  destruct (tokenizeAndClean text) as [terms|e]; [|done].
  rewrite IH, updateFrequencyMap_app. f_equal.
  destruct (String.eqb g f) eqn:E.
  - apply String.eqb_eq in E as ->. by rewrite fn_lookup_insert.
  - apply String.eqb_neq in E. by rewrite fn_lookup_insert_ne.
Qed.

Lemma tallyDream_terms fields maps t f :
  snd (tallyDream fields maps t) f
  = updateFrequencyMap (maps f) (dreamTerms fields f t).
Proof.
  unfold tallyDream, dreamTerms. destruct (Js.parsed t); [apply tallyFields_terms|done].
Qed.

Lemma tallyAll_terms fields snap maps f :
  fst (tallyAll fields snap maps) f
  = updateFrequencyMap (maps f) (encountered fields f snap).
Proof.
  unfold encountered.
  revert maps. induction snap as [|[id d] snap IH]; intros maps; simpl; [done|].
  pose proof (tallyDream_terms fields maps (Archived.analysisText d) f) as Hd.
  rewrite updateFrequencyMap_app, <- Hd.
  destruct (tallyDream fields maps (Archived.analysisText d)) as [[[]|e] maps1]; simpl.
  - apply IH.
  - specialize (IH maps1). by destruct (tallyAll fields snap maps1).
Qed.

(** ** A frequency map in closed form *)

Lemma firstSeen_elem t l : t ∈ firstSeen l ↔ t ∈ l.
Proof.
  induction l as [|x l IH]; simpl; [done|].
  rewrite !elem_of_cons, list_elem_of_In, filter_In, <- list_elem_of_In, IH.
  rewrite negb_true_iff, String.eqb_neq.
  destruct (decide (t = x)); tauto.
Qed.

Lemma firstSeen_NoDup l : NoDup (firstSeen l).
Proof.
  induction l as [|x l IH]; simpl; [constructor|].
  apply NoDup_cons. split.
  - rewrite list_elem_of_In, filter_In, negb_true_iff, String.eqb_neq. tauto.
  - by apply NoDup_ListNoDup, List.NoDup_filter, NoDup_ListNoDup.
Qed.

Lemma firstSeen_snoc l t :
  firstSeen (l ++ [t]) = if decide (t ∈ l) then firstSeen l else firstSeen l ++ [t].
Proof.
  induction l as [|x l IH]; cbn [firstSeen app].
  - rewrite decide_False by apply not_elem_of_nil. done.
  - rewrite IH. destruct (decide (t ∈ l)) as [Hin|Hout].
    + rewrite decide_True by (by right). done.
    + rewrite List.filter_app. simpl.
      destruct (String.eqb t x) eqn:E; simpl.
      * apply String.eqb_eq in E as ->. rewrite decide_True by left.
        by rewrite app_nil_r.
      * apply String.eqb_neq in E.
        rewrite decide_False; [done|]. rewrite elem_of_cons. tauto.
Qed.

Lemma occurrences_snoc u l t :
  occurrences u (l ++ [t]) = occurrences u l + one (String.eqb u t).
Proof.
  unfold occurrences. rewrite List.filter_app, length_app. simpl.
  destruct (String.eqb u t); simpl; lia.
Qed.

Lemma occurrences_notin u l : u ∉ l → occurrences u l = 0.
Proof.
  unfold occurrences. induction l as [|x l IH]; simpl; [done|].
  rewrite not_elem_of_cons. intros [Hne Hout].
  apply String.eqb_neq in Hne. rewrite Hne. by apply IH.
Qed.

Lemma occurrences_pos u l : u ∈ l → 0 < occurrences u l.
Proof.
  unfold occurrences. induction l as [|x l IH]; simpl.
  - by intros ?%elem_of_nil.
  - destruct (String.eqb u x) eqn:E; simpl; [lia|].
    apply String.eqb_neq in E. rewrite elem_of_cons. intros [?|?]; [done|by apply IH].
Qed.

Lemma assoc_map {V} (g : string → V) t L :
  Js.assoc t (map (λ u, (u, g u)) L) = if decide (t ∈ L) then Some (g t) else None.
Proof.
  induction L as [|x L IH]; cbn [map Js.assoc].
  - by rewrite decide_False by apply not_elem_of_nil.
  - destruct (String.eqb t x) eqn:E.
    + apply String.eqb_eq in E as ->. by rewrite decide_True by left.
    + apply String.eqb_neq in E. rewrite IH.
      destruct (decide (t ∈ L)).
      * by rewrite decide_True by (by right).
      * rewrite decide_False; [done|]. rewrite elem_of_cons. tauto.
Qed.

Lemma map_agree {V} (g g' : string → V) L :
  (∀ u, u ∈ L → g' u = g u) →
  map (λ u, (u, g u)) L = map (λ u, (u, g' u)) L.
Proof.
  intros H. apply map_ext_in. intros u Hu%list_elem_of_In. by rewrite H.
Qed.

Lemma bumpOwn_map (g g' : string → Freq) t L :
  NoDup L → g' t = plusOne (g t) → (∀ u, u ≠ t → g' u = g u) →
  bumpOwn t (map (λ u, (u, g u)) L) = map (λ u, (u, g' u)) L.
Proof.
  intros Hnd Ht Hother. induction L as [|x L IH]; simpl; [done|].
  apply NoDup_cons in Hnd as [Hx Hnd].
  destruct (String.eqb t x) eqn:E.
  - apply String.eqb_eq in E as <-. rewrite Ht. f_equal.
    apply map_agree. intros u Hu. apply Hother. by intros ->.
  - apply String.eqb_neq in E. rewrite Hother by done. f_equal. by apply IH.
Qed.

(** The map holds the distinct terms in the order first met, each with
    the number of its occurrences; [constructor] holds no number. *)
Lemma updateFrequencyMap_closed terms :
  updateFrequencyMap [] terms = map (λ t, (t, freqOf terms t)) (firstSeen terms).
Proof.
  induction terms as [|t terms IH] using rev_ind; [done|].
  rewrite updateFrequencyMap_app, IH. simpl. unfold bump.
  rewrite assoc_map, firstSeen_snoc.
  destruct (decide (t ∈ firstSeen terms)) as [Hin|Hout].
  - rewrite decide_True by (by apply firstSeen_elem).
    apply bumpOwn_map; [apply firstSeen_NoDup| |].
    + unfold freqOf. destruct (inherited t); [done|]. simpl.
      by rewrite occurrences_snoc, String.eqb_refl.
    + intros u Hne. unfold freqOf. rewrite occurrences_snoc.
      apply String.eqb_neq in Hne. rewrite Hne. simpl. by rewrite Z.add_0_r.
  - rewrite firstSeen_elem in Hout. rewrite decide_False by done.
    rewrite map_app. simpl. f_equal.
    + apply map_agree. intros u Hu. unfold freqOf. rewrite occurrences_snoc.
      assert (String.eqb u t = false) as ->; [|simpl; by rewrite Z.add_0_r].
      apply String.eqb_neq. intros ->. by apply Hout, firstSeen_elem.
    + unfold freqOf.
      by rewrite occurrences_snoc, occurrences_notin, String.eqb_refl by done.
Qed.

(** ** Array indices *)

Lemma digitsValue_acc s acc :
  digitsValue acc s = acc * 10 ^ Z.of_nat (String.length s) + digitsValue 0 s.
Proof.
  revert acc. induction s as [|c r IH]; intros acc; simpl String.length.
  - simpl. lia.
  - cbn [digitsValue]. rewrite IH, (IH (10 * 0 + _)).
    rewrite Nat2Z.inj_succ, Z.pow_succ_r by lia. ring.
Qed.

Lemma digitsValue_bound s :
  allDigits s = true → 0 ≤ digitsValue 0 s < 10 ^ Z.of_nat (String.length s).
Proof.
  induction s as [|c r IH]; simpl String.length; [simpl; lia|].
  cbn [allDigits digitsValue]. intros [Hc Hr]%andb_true_iff.
  specialize (IH Hr). rewrite digitsValue_acc.
  rewrite Nat2Z.inj_succ, Z.pow_succ_r by lia.
  unfold Js.isDigit in Hc. apply andb_true_iff in Hc as [H1%Nat.leb_le H2%Nat.leb_le].
  nia.
Qed.

Lemma digit_inj c c' :
  Js.isDigit c = true → Js.isDigit c' = true →
  Z.of_nat (Js.code c - 48) = Z.of_nat (Js.code c' - 48) → c = c'.
Proof.
  unfold Js.isDigit, Js.code.
  intros [H1%Nat.leb_le _]%andb_true_iff [H2%Nat.leb_le _]%andb_true_iff H.
  rewrite <- (ascii_nat_embedding c), <- (ascii_nat_embedding c'). f_equal. lia.
Qed.

Lemma digits_inj s s' :
  allDigits s = true → allDigits s' = true → String.length s = String.length s' →
  digitsValue 0 s = digitsValue 0 s' → s = s'.
Proof.
  revert s'. induction s as [|c r IH]; intros [|c' r']; simpl String.length; try done.
  cbn [allDigits digitsValue].
  intros [Hc Hr]%andb_true_iff [Hc' Hr']%andb_true_iff [= Hlen].
  rewrite (digitsValue_acc r), (digitsValue_acc r'), <- Hlen.
  pose proof (digitsValue_bound r Hr) as Hb.
  pose proof (digitsValue_bound r' Hr') as Hb'. rewrite <- Hlen in Hb'.
  intros H.
  assert (Z.of_nat (Js.code c - 48) = Z.of_nat (Js.code c' - 48)) as Hd by nia.
  rewrite (digit_inj c c') by done. f_equal. apply IH; try done. nia.
Qed.

Lemma arrayIndex_canonical s x :
  arrayIndex s = Some x → canonical s ∧ x = digitsValue 0 s.
Proof.
  unfold arrayIndex. destruct s as [|c r]; [done|].
  destruct (allDigits (String c r)) eqn:Hd; simpl; [|done].
  destruct (negb (Js.code c =? 48)%nat || String.eqb r "") eqn:Hc; [|done].
  destruct (_ <=? _); [|done]. intros [= <-]. split; [|done]. split; [done|].
  exists c, r. split; [done|].
  apply orb_true_iff in Hc as [Hc|Hc].
  - left. by apply negb_true_iff, Nat.eqb_neq in Hc.
  - right. by apply String.eqb_eq.
Qed.

Lemma canonical_longer s s' :
  canonical s → canonical s' → (String.length s < String.length s')%nat →
  digitsValue 0 s < digitsValue 0 s'.
Proof.
  intros [Hd (c0 & r0 & Hs & _)] [Hd' (c & r & -> & Hc)] Hlen.
  pose proof (digitsValue_bound s Hd) as Hb.
  assert (1 ≤ String.length s)%nat by (subst s; simpl; lia).
  simpl in Hlen. destruct Hc as [Hc| ->]; [|simpl in Hlen; lia].
  cbn [allDigits digitsValue] in *. apply andb_true_iff in Hd' as [Hc' Hr].
  pose proof (digitsValue_bound r Hr) as Hb'. rewrite (digitsValue_acc r).
  unfold Js.isDigit in Hc'. apply andb_true_iff in Hc' as [H1%Nat.leb_le _].
  assert (10 ^ Z.of_nat (String.length s) ≤ 10 ^ Z.of_nat (String.length r))
    by (apply Z.pow_le_mono_r; lia).
  assert (1 ≤ Z.of_nat (Js.code c - 48)) by lia.
  nia.
Qed.

Lemma arrayIndex_inj s s' x :
  arrayIndex s = Some x → arrayIndex s' = Some x → s = s'.
Proof.
  intros [Hs ->]%arrayIndex_canonical [Hs' Hx]%arrayIndex_canonical.
  destruct (lt_eq_lt_dec (String.length s) (String.length s')) as [[Hlt|Heq]|Hgt].
  - pose proof (canonical_longer s s' Hs Hs' Hlt). lia.
  - apply digits_inj; try done; [apply Hs|apply Hs'].
  - pose proof (canonical_longer s' s Hs' Hs Hgt). lia.
Qed.

(** ** [Object.entries] and the two comparators *)

Lemma filter_partition_perm {A} (p : A → bool) l :
  List.filter p l ++ List.filter (λ x, negb (p x)) l ≡ₚ l.
Proof.
  induction l as [|x l IH]; simpl; [done|].
  destruct (p x); simpl; [by f_equiv|].
  rewrite <- Permutation_middle. by f_equiv.
Qed.

Lemma objectEntries_perm {V} (m : list (string * V)) : objectEntries m ≡ₚ m.
Proof. unfold objectEntries. rewrite sort_perm. apply filter_partition_perm. Qed.

Lemma indexLe_total {V} (a b : string * V) : indexLe a b = true ∨ indexLe b a = true.
Proof.
  unfold indexLe. destruct (arrayIndex (fst a)), (arrayIndex (fst b)); auto.
  rewrite !Z.leb_le. lia.
Qed.

Lemma indexLe_trans {V} (a b c : string * V) :
  indexLe a b = true → indexLe b c = true → indexLe a c = true.
Proof.
  unfold indexLe.
  destruct (arrayIndex (fst a)), (arrayIndex (fst b)), (arrayIndex (fst c)); try done.
  rewrite !Z.leb_le. lia.
Qed.

Lemma higherFirst_total a b : higherFirst a b = true ∨ higherFirst b a = true.
Proof. unfold higherFirst. rewrite !Z.leb_le. lia. Qed.

Lemma higherFirst_trans a b c :
  higherFirst a b = true → higherFirst b c = true → higherFirst a c = true.
Proof. unfold higherFirst. rewrite !Z.leb_le. lia. Qed.

Lemma counts_Some m l :
  counts m = Some l → m = map (λ kn, (fst kn, Count (snd kn))) l.
Proof.
  revert l. induction m as [|[k [n|]] m IH]; simpl; intros l.
  - by intros [= <-].
  - destruct (counts m) as [l'|]; [|done]. intros [= <-]. simpl. f_equal. by apply IH.
  - done.
Qed.

Lemma counts_is_Some m :
  Forall (λ kv, snd kv ≠ NotANumber) m → is_Some (counts m).
Proof.
  induction 1 as [|[k [n|]] m Hk _ IH]; simpl; [done| |done].
  destruct IH as [l ->]. done.
Qed.

(** The entries of a map in closed form: how two of them are ordered. *)
Lemma objectEntries_order (g : string → Freq) (L : list string) a b :
  NoDup L →
  precedes a b (objectEntries (map (λ t, (t, g t)) L)) →
  entriesOrder L (fst a) (fst b).
Proof.
  intros Hnd. unfold objectEntries. rewrite precedes_app.
  set (M := map (λ t, (t, g t)) L).
  assert (HM : map fst M = L).
  { unfold M. rewrite map_map. simpl. apply map_id. }
  assert (Hne : precedes a b M → fst a ≠ fst b).
  { intros H. apply (precedes_NoDup _ _ L); [done|].
    rewrite <- HM. by apply precedes_map. }
  unfold entriesOrder, isIndex.
  intros [H|[[Ha Hb]|H]].
  - pose proof (precedes_elem _ _ _ H) as [Ha Hb].
    rewrite (sort_perm indexLe) in Ha, Hb.
    apply elem_of_List_filter in Ha as [Ha Ia], Hb as [Hb Ib].
    pose proof (precedes_sorted _ _ _ _
                  (sort_sorted indexLe indexLe_total indexLe_trans _) H) as Hle.
    assert (fst a ≠ fst b) as Hab.
    { apply (precedes_NoDup _ _ (map fst (Js.sort indexLe (List.filter isIndex M)))).
      - rewrite (sort_perm indexLe).
        assert (NoDup (map fst M)) as HndM by (by rewrite HM).
        clear -HndM. induction M as [|x M IH]; simpl; [constructor|].
        apply NoDup_cons in HndM as [Hx HndM]. destruct (isIndex x); simpl; [|by apply IH].
        apply NoDup_cons. split; [|by apply IH].
        intros Hin. apply Hx. apply list_elem_of_In, in_map_iff in Hin as (y & Hy & Hin).
        apply filter_In in Hin as [Hin _]. apply list_elem_of_In, in_map_iff. by exists y.
      - by apply precedes_map. }
    unfold indexLe in Hle. unfold isIndex in Ia, Ib.
    destruct (arrayIndex (fst a)) as [x|] eqn:Ea; [|done].
    destruct (arrayIndex (fst b)) as [y|] eqn:Eb; [|done].
    apply Z.leb_le in Hle. destruct (decide (x = y)) as [->|?]; [|lia].
    exfalso. apply Hab. by eapply arrayIndex_inj.
  - rewrite (sort_perm indexLe) in Ha.
    apply elem_of_List_filter in Ha as [_ Ia], Hb as [_ Ib].
    unfold isIndex in Ia, Ib.
    destruct (arrayIndex (fst a)); [|done]. by destruct (arrayIndex (fst b)).
  - pose proof (precedes_elem _ _ _ H) as [Ha Hb].
    apply elem_of_List_filter in Ha as [_ Ia], Hb as [_ Ib].
    unfold isIndex in Ia, Ib.
    destruct (arrayIndex (fst a)); [done|]. destruct (arrayIndex (fst b)); [done|].
    rewrite <- HM. apply precedes_map. by eapply precedes_filter.
Qed.

(** ** The rows shown *)

Lemma tallied_closed f snap :
  fst (tallied snap) f
  = map (λ t, (t, freqOf (met f snap) t)) (firstSeen (met f snap)).
Proof. unfold tallied, met. rewrite tallyAll_terms. apply updateFrequencyMap_closed. Qed.

Lemma topTerms_rows terms rows :
  Forall goodTerm terms →
  topTerms (map (λ t, (t, freqOf terms t)) (firstSeen terms)) = Some rows →
  (length rows ≤ 5)%nat
  ∧ Forall (λ r, goodTerm (fst r) ∧ snd r = occurrences (fst r) terms ∧ 0 < snd r) rows
  ∧ NoDup (map fst rows)
  ∧ StronglySorted (λ a b, snd b ≤ snd a) rows
  ∧ (∀ a b, precedes a b rows → snd a = snd b →
       entriesOrder (firstSeen terms) (fst a) (fst b))
  ∧ (∀ t, t ∈ terms → t ∉ map fst rows →
       length rows = 5%nat ∧ ∀ r, r ∈ rows → occurrences t terms ≤ snd r).
Proof.
  intros Hgood. set (M := map _ _). unfold topTerms.
  destruct (counts (objectEntries M)) as [entries|] eqn:Hc; [|done].
  intros [= <-]. apply counts_Some in Hc.
  set (g := λ kn : string * Z, (fst kn, Count (snd kn))) in Hc.
  set (sorted := Js.sort higherFirst entries).
  assert (Hsplit : sorted = firstn 5 sorted ++ skipn 5 sorted) by (by rewrite firstn_skipn).
  assert (Hperm : sorted ≡ₚ entries) by apply sort_perm.
  assert (Hsorted : StronglySorted (λ a b, higherFirst a b = true) sorted).
  { apply sort_sorted; [apply higherFirst_total|apply higherFirst_trans]. }
  assert (HM : ∀ e, e ∈ entries ↔ g e ∈ M).
  { intros e. rewrite <- (objectEntries_perm M), Hc, !list_elem_of_In. split.
    - apply in_map.
    - intros (e' & He' & Hin)%in_map_iff. unfold g in He'.
      destruct e, e'. simpl in He'. by simplify_eq. }
  assert (Hentry : ∀ e, e ∈ entries →
            fst e ∈ terms ∧ snd e = occurrences (fst e) terms).
  { intros e He%HM. unfold M in He.
    apply list_elem_of_In, in_map_iff in He as (t & Ht & Hin%list_elem_of_In).
    unfold g, freqOf in Ht. destruct (inherited t); [done|].
    injection Ht as <- <-. split; [by apply firstSeen_elem|done]. }
  assert (Hkeys : NoDup (map fst entries)).
  { assert (map fst entries = map fst (objectEntries M)) as ->.
    { rewrite Hc, map_map. done. }
    rewrite (Permutation_map fst (objectEntries_perm M)).
    unfold M. rewrite map_map. simpl. rewrite map_id. apply firstSeen_NoDup. }
  assert (Hrow : ∀ r, r ∈ firstn 5 sorted → r ∈ entries).
  { intros r Hr. rewrite <- Hperm, Hsplit. apply elem_of_app. by left. }
  split; [apply firstn_le_length|].
  split.
  { apply Forall_forall. intros r [Hr ->]%Hrow%Hentry.
    rewrite Forall_forall in Hgood.
    split; [by apply Hgood|]. split; [done|]. by apply occurrences_pos. }
  split.
  { assert (NoDup (map fst sorted)) as Hnd by (by rewrite (Permutation_map fst Hperm)).
    rewrite Hsplit, map_app in Hnd. by apply NoDup_app in Hnd as [? _]. }
  split.
  { rewrite Hsplit in Hsorted. apply StronglySorted_app_1_l in Hsorted.
    eapply StronglySorted_weaken; [|exact Hsorted].
    intros a b. unfold higherFirst. by rewrite Z.leb_le. }
  split.
  { intros a b Hab Heq.
    apply precedes_firstn, (sort_stable higherFirst) in Hab;
      [|unfold higherFirst; apply Z.leb_le; lia].
    apply (precedes_map g) in Hab. rewrite <- Hc in Hab.
    apply (objectEntries_order (freqOf terms) (firstSeen terms) (g a) (g b));
      [apply firstSeen_NoDup|done]. }
  intros t Ht Hout.
  assert ((t, freqOf terms t) ∈ objectEntries M) as He.
  { rewrite (objectEntries_perm M). unfold M.
    apply list_elem_of_In, (in_map (λ t, (t, freqOf terms t))), list_elem_of_In.
    by apply firstSeen_elem. }
  rewrite Hc in He. apply list_elem_of_In, in_map_iff in He as (e & He & Hin%list_elem_of_In).
  assert (fst e = t) as Het by (unfold g in He; by simplify_eq).
  destruct (Hentry e Hin) as [_ Hn]. rewrite Het in Hn.
  assert (e ∈ skipn 5 sorted) as Hrest.
  { rewrite <- Hperm, Hsplit in Hin. apply elem_of_app in Hin as [Hin|Hin]; [|done].
    exfalso. apply Hout. rewrite <- Het.
    by apply list_elem_of_In, in_map, list_elem_of_In. }
  split.
  - apply firstn_length_le.
    destruct (decide (5 ≤ length sorted)%nat) as [?|Hshort]; [done|].
    rewrite skipn_all2 in Hrest by lia. by apply elem_of_nil in Hrest.
  - intros r Hr. rewrite Hsplit in Hsorted.
    pose proof (StronglySorted_app_1_elem_of _ _ _ r e Hsorted Hr Hrest) as Hle.
    unfold higherFirst in Hle. apply Z.leb_le in Hle. by rewrite <- Hn.
Qed.

Lemma topTerms_is_Some terms :
  "constructor" ∉ terms →
  is_Some (topTerms (map (λ t, (t, freqOf terms t)) (firstSeen terms))).
Proof.
  intros Hout. unfold topTerms.
  destruct (counts_is_Some (objectEntries (map (λ t, (t, freqOf terms t)) (firstSeen terms))))
    as [entries ->]; [|done].
  rewrite (objectEntries_perm _). apply Forall_forall.
  intros kv (t & <- & Hin%list_elem_of_In)%list_elem_of_In%in_map_iff.
  simpl. unfold freqOf, inherited.
  destruct (String.eqb t "constructor") eqn:E; [|done].
  apply String.eqb_eq in E as ->. intros _. by apply Hout, firstSeen_elem.
Qed.

(** ** Running [loadTopInsights] *)

Lemma displayTopTerms_written element m :
  displayTopTerms element m = emit (written element m).
Proof. by destruct m. Qed.

Lemma forEach_ext {A} (f g : A → M unit) l :
  (∀ x, f x = g x) → forEach f l = forEach g l.
Proof. intros H. induction l as [|x l IH]; simpl; [done|]. by rewrite H, IH. Qed.

Lemma loadTopInsights_trace w :
  authenticated w = true → storeAnswers w →
  trace (snd (loadTopInsights w))
  = trace w
    ++ [ShowLoading; Remote (GetDocs (userSegment w) "archived_dreams")]
    ++ map (λ id, Console "warn" ("Could not parse analysis for top insights: " +:+ id))
         (snd (tallied (snapshot archivedColl w (userSegment w))))
    ++ map (λ f, written (snd f)
                   (fst (tallied (snapshot archivedColl w (userSegment w))) (fst f)))
         topFields
    ++ [HideLoading].
Proof.
  intros Hauth Hstore. unfold loadTopInsights, tallied, topKeys.
  rewrite run_get_bind, Hauth. cbn [negb].
  erewrite bind_ok by reflexivity.
  unfold finally, tryCatch.
  erewrite bind_ok; [|by apply getDocs_answers].
  change (snapshot archivedColl (set_trace (trace w ++ [ShowLoading]) w)
            (userSegment (set_trace (trace w ++ [ShowLoading]) w)))
    with (snapshot archivedColl w (userSegment w)).
  destruct (tallyAll _ _ _) as [maps warned]. unfold console.
  erewrite bind_ok
    by apply (forEach_emit_run
                (λ id, Console "warn" ("Could not parse analysis for top insights: " +:+ id))).
  rewrite (forEach_ext _ (λ f, emit (written (snd f) (maps (fst f)))))
    by (intros; apply displayTopTerms_written).
  rewrite (forEach_emit_run (λ f, written (snd f) (maps (fst f)))).
  simpl. by rewrite <- !app_assoc.
Qed.

(** C4, as amended.  For every snapshot of archived dreams and every
    field, when no term met for the field is the word constructor the map
    of the field yields a list of rows, and the rows of such a list are at
    most 5; every term shown is longer than one character, made of
    lowercase letters and digits only, and no stop word; its count is the
    number of its occurrences among the terms met, no term is shown twice;
    the rows are in descending order of count; of two rows with the same
    count the earlier one comes earlier in [Object.entries]: array indices
    first, in ascending numeric order, then the other terms in the order
    first met; and a term met that is not shown has no more occurrences
    than any shown one, five being shown.  For each of the six tokenized
    fields a signed-in run writes these rows, or that there is no data
    when no term was met. *)
Theorem top_terms_follow_the_entries (w : World) (snap : list (string * Archived.t))
    (f : string) :
  (∀ rows, topTerms (fst (tallied snap) f) = Some rows →
     (length rows ≤ 5)%nat
     ∧ Forall (λ r, goodTerm (fst r)
                    ∧ snd r = occurrences (fst r) (met f snap) ∧ 0 < snd r) rows
     ∧ NoDup (map fst rows)
     ∧ StronglySorted (λ a b, snd b ≤ snd a) rows
     ∧ (∀ a b, precedes a b rows → snd a = snd b →
          entriesOrder (firstSeen (met f snap)) (fst a) (fst b))
     ∧ (∀ t, t ∈ met f snap → t ∉ map fst rows →
          length rows = 5%nat ∧ ∀ r, r ∈ rows → occurrences t (met f snap) ≤ snd r))
  ∧ ("constructor" ∉ met f snap → is_Some (topTerms (fst (tallied snap) f)))
  ∧ (authenticated w = true → storeAnswers w →
     snap = snapshot archivedColl w (userSegment w) →
     trace (snd (loadTopInsights w))
     = trace w
       ++ [ShowLoading; Remote (GetDocs (userSegment w) "archived_dreams")]
       ++ map (λ id, Console "warn" ("Could not parse analysis for top insights: " +:+ id))
            (snd (tallied snap))
       ++ map (λ g, written (snd g) (fst (tallied snap) (fst g))) topFields
       ++ [HideLoading]).
Proof.
  rewrite tallied_closed. split; [|split].
  - intros rows. apply topTerms_rows, encountered_good.
  - apply topTerms_is_Some.
  - intros Hauth Hstore ->. by apply loadTopInsights_trace.
Qed.

(** C4, the counterexample.  In the one analysis archived the location
    is "Room 10, hotel": the terms are met in the order room, 10, hotel,
    each once, and the list written starts with 10. *)
Lemma numeral_term_is_shown_first :
  met "location" (snapshot archivedColl Examples.lodger "u1") = ["room"; "10"; "hotel"]
  ∧ trace (snd (loadTopInsights Examples.lodger))
    = [ ShowLoading; Remote (GetDocs "u1" "archived_dreams");
        SetText "top-emotional-content" "No data";
        RenderTopTerms "top-locations" (Some [("10", 1); ("room", 1); ("hotel", 1)]);
        SetText "top-familiar-persons" "No data";
        SetText "top-actions-performed" "No data";
        SetText "top-surface-psychological-content" "No data";
        SetText "top-messages-received" "No data";
        HideLoading ].
Proof. split; by vm_compute. Qed.

End StatsFacts.

(* ===================================================================== *)
(** * Running the store operations                                       *)
(* ===================================================================== *)

Module StoreFacts.
Import Runtime Spec JsFacts RuntimeFacts Script.

Lemma remote_run c w :
  remote c w
  = (match rejection w with Some e => Throw e | None => Ok tt end, answered c w).
Proof.
  unfold remote, rejection, answered.
  destruct w as [a b c0 d e f so g h i j k l m n o p]; simpl.
  by destruct so as [|[x|] r].
Qed.

Lemma rejection_None w : storeAnswers w → rejection w = None.
Proof.
  unfold storeAnswers, rejection. destruct (storeOutcomes w) as [|[e|] r]; try done.
  by inversion 1.
Qed.

Lemma run_emit e w : emit e w = (Ok tt, said e w).
Proof. reflexivity. Qed.

(** ** Reading a collection after a write *)

Lemma userData_setDocs {D} (c : Coll D) u m w u' :
  userData (setDocs c u m w) u'
  = if decide (u = u') then cset c m (userData w u) else userData w u'.
Proof.
  unfold userData, setDocs. simpl. case_decide as Hu.
  - subst. by rewrite lookup_insert_eq.
  - by rewrite lookup_insert_ne.
Qed.

Lemma docs_setDocs_draft u u' m w :
  docs draftColl (setDocs draftColl u m w) u'
  = if decide (u = u') then m else docs draftColl w u'.
Proof. unfold docs. rewrite userData_setDocs. by case_decide. Qed.

Lemma docs_setDocs_event u u' m w :
  docs eventColl (setDocs eventColl u m w) u'
  = if decide (u = u') then m else docs eventColl w u'.
Proof. unfold docs. rewrite userData_setDocs. by case_decide. Qed.

Lemma docs_setDocs_conversation u u' m w :
  docs conversationColl (setDocs conversationColl u m w) u'
  = if decide (u = u') then m else docs conversationColl w u'.
Proof. unfold docs. rewrite userData_setDocs. by case_decide. Qed.

(** Writing one collection leaves the others as they were. *)
Ltac cross := unfold docs; rewrite userData_setDocs; case_decide; subst; reflexivity.

Lemma docs_archived_setDocs_draft u m w u' :
  docs archivedColl (setDocs draftColl u m w) u' = docs archivedColl w u'.
Proof. cross. Qed.
Lemma docs_event_setDocs_draft u m w u' :
  docs eventColl (setDocs draftColl u m w) u' = docs eventColl w u'.
Proof. cross. Qed.
Lemma docs_conversation_setDocs_draft u m w u' :
  docs conversationColl (setDocs draftColl u m w) u' = docs conversationColl w u'.
Proof. cross. Qed.
Lemma docs_draft_setDocs_archived u m w u' :
  docs draftColl (setDocs archivedColl u m w) u' = docs draftColl w u'.
Proof. cross. Qed.
Lemma docs_event_setDocs_archived u m w u' :
  docs eventColl (setDocs archivedColl u m w) u' = docs eventColl w u'.
Proof. cross. Qed.
Lemma docs_conversation_setDocs_archived u m w u' :
  docs conversationColl (setDocs archivedColl u m w) u' = docs conversationColl w u'.
Proof. cross. Qed.
Lemma docs_draft_setDocs_event u m w u' :
  docs draftColl (setDocs eventColl u m w) u' = docs draftColl w u'.
Proof. cross. Qed.
Lemma docs_archived_setDocs_event u m w u' :
  docs archivedColl (setDocs eventColl u m w) u' = docs archivedColl w u'.
Proof. cross. Qed.
Lemma docs_conversation_setDocs_event u m w u' :
  docs conversationColl (setDocs eventColl u m w) u' = docs conversationColl w u'.
Proof. cross. Qed.
Lemma docs_draft_setDocs_conversation u m w u' :
  docs draftColl (setDocs conversationColl u m w) u' = docs draftColl w u'.
Proof. cross. Qed.
Lemma docs_archived_setDocs_conversation u m w u' :
  docs archivedColl (setDocs conversationColl u m w) u' = docs archivedColl w u'.
Proof. cross. Qed.
Lemma docs_event_setDocs_conversation u m w u' :
  docs eventColl (setDocs conversationColl u m w) u' = docs eventColl w u'.
Proof. cross. Qed.

(** ** The three writes *)

Lemma addDoc_run {D} (c : Coll D) (mk : Z → D) w :
  addDoc c mk w
  = match rejection w with
    | Some e => (Throw e, answered (AddDoc (userSegment w) (cname c)) w)
    | None =>
        (Ok (fresh (dom (docs c w (userSegment w)))),
         setDocs c (userSegment w)
           (<[fresh (dom (docs c w (userSegment w))) := mk (serverTime w)]>
              (docs c w (userSegment w)))
           (answered (AddDoc (userSegment w) (cname c)) w))
    end.
Proof.
  unfold addDoc. rewrite run_get_bind.
  unfold mbind, M_bind, bind. rewrite remote_run.
  by destruct (rejection w).
Qed.

Lemma updateDoc_run {D} (c : Coll D) id (f : Z → D → D) w :
  updateDoc c id f w
  = match rejection w with
    | Some e => (Throw e, answered (UpdateDoc (userSegment w) (cname c) id) w)
    | None =>
        match docs c w (userSegment w) !! id with
        | Some d =>
            (Ok tt,
             setDocs c (userSegment w)
               (<[id := f (serverTime w) d]> (docs c w (userSegment w)))
               (answered (UpdateDoc (userSegment w) (cname c) id) w))
        | None =>
            (Throw "No document to update",
             answered (UpdateDoc (userSegment w) (cname c) id) w)
        end
    end.
Proof.
  unfold updateDoc. rewrite run_get_bind.
  unfold mbind, M_bind, bind. rewrite remote_run.
  destruct (rejection w); [done|]. unfold get.
  change (docs c (answered (UpdateDoc (userSegment w) (cname c) id) w) (userSegment w))
    with (docs c w (userSegment w)).
  by destruct (docs c w (userSegment w) !! id).
Qed.

Lemma deleteDoc_run {D} (c : Coll D) id w :
  deleteDoc c id w
  = match rejection w with
    | Some e => (Throw e, answered (DeleteDoc (userSegment w) (cname c) id) w)
    | None =>
        (Ok tt,
         setDocs c (userSegment w) (delete id (docs c w (userSegment w)))
           (answered (DeleteDoc (userSegment w) (cname c) id) w))
    end.
Proof.
  unfold deleteDoc. rewrite run_get_bind.
  unfold mbind, M_bind, bind. rewrite remote_run.
  by destruct (rejection w).
Qed.

(** An identifier given by [addDoc] is new. *)
Lemma fresh_id_new {D} (m : gmap string D) : m !! fresh (dom m) = None.
Proof. apply not_elem_of_dom, is_fresh. Qed.

(** ** Reading a world after effects *)

Lemma trace_said e w : trace (said e w) = trace w ++ [e].
Proof. reflexivity. Qed.
Lemma trace_setDocs {D} (c : Coll D) u m w : trace (setDocs c u m w) = trace w.
Proof. reflexivity. Qed.
Lemma trace_answered c w : trace (answered c w) = trace w ++ [Remote c].
Proof. reflexivity. Qed.
Lemma messages_app t t' : messages (t ++ t') = messages t ++ messages t'.
Proof. unfold messages. by rewrite omap_app. Qed.
Lemma remoteCalls_app t t' : remoteCalls (t ++ t') = remoteCalls t ++ remoteCalls t'.
Proof. unfold remoteCalls. by rewrite omap_app. Qed.

Lemma currentDraftId_set x w : currentDraftId (set_currentDraftId x w) = x.
Proof. reflexivity. Qed.
Lemma currentDreamIdForMatch_set x w : currentDreamIdForMatch (set_currentDreamIdForMatch x w) = x.
Proof. reflexivity. Qed.
Lemma selectedDreamForMatch_set x w : selectedDreamForMatch (set_selectedDreamForMatch x w) = x.
Proof. reflexivity. Qed.
Lemma selectedEventForMatch_set x w : selectedEventForMatch (set_selectedEventForMatch x w) = x.
Proof. reflexivity. Qed.
Lemma matchSelectedDisabled_set x w : matchSelectedDisabled (set_matchSelectedDisabled x w) = x.
Proof. reflexivity. Qed.
Lemma searchResultsList_set x w : searchResultsList (set_searchResultsList x w) = x.
Proof. reflexivity. Qed.
Lemma matchedEventInput_set x w : matchedEventInput (set_matchedEventInput x w) = x.
Proof. reflexivity. Qed.
Lemma fetchOutcomes_set x w : fetchOutcomes (set_fetchOutcomes x w) = x.
Proof. reflexivity. Qed.

(** [H : T = T'] turns the occurrences of [T] in the goal into [T']. *)
Ltac exchange H :=
  lazymatch type of H with
  | ?T = _ =>
      lazymatch goal with |- context [T] => idtac end;
      pattern T;
      lazymatch goal with |- ?P _ => refine (eq_ind_r P _ H) end;
      cbv beta
  end.

(** The world under a stack of effects, answered calls and variable
    changes. *)
Ltac base W :=
  lazymatch W with
  | said _ ?W' => base W'
  | answered _ ?W' => base W'
  | set_currentDraftId _ ?W' => base W'
  | set_currentDreamIdForMatch _ ?W' => base W'
  | set_matchedEventInput _ ?W' => base W'
  | set_selectedDreamForMatch _ ?W' => base W'
  | set_selectedEventForMatch _ ?W' => base W'
  | set_matchSelectedDisabled _ ?W' => base W'
  | set_searchResultsList _ ?W' => base W'
  | set_fetchOutcomes _ ?W' => base W'
  | _ => W
  end.

(** One layer less. *)
Ltac under W :=
  lazymatch W with
  | said _ ?W' => W'
  | answered _ ?W' => W'
  | setDocs _ _ _ ?W' => W'
  | set_currentDraftId _ ?W' => W'
  | set_currentDreamIdForMatch _ ?W' => W'
  | set_matchedEventInput _ ?W' => W'
  | set_selectedDreamForMatch _ ?W' => W'
  | set_selectedEventForMatch _ ?W' => W'
  | set_matchSelectedDisabled _ ?W' => W'
  | set_searchResultsList _ ?W' => W'
  | set_fetchOutcomes _ ?W' => W'
  end.

(** What reads a world, as opposed to what builds one. *)
Ltac reader p :=
  lazymatch p with
  | said _ => fail
  | answered _ => fail
  | setDocs _ _ _ => fail
  | set_currentDraftId _ => fail
  | set_currentDreamIdForMatch _ => fail
  | set_matchedEventInput _ => fail
  | set_selectedDreamForMatch _ => fail
  | set_selectedEventForMatch _ => fail
  | set_matchSelectedDisabled _ => fail
  | set_searchResultsList _ => fail
  | set_fetchOutcomes _ => fail
  | trace => fail
  | _ => idtac
  end.

(** A part of the world that effects, answered calls, writes to the store
    or changes of a variable leave alone reads as before them: the
    equation is proved for every world under the stack, then used. *)
Ltac skip p T W0 :=
  tryif constr_eq T W0 then fail else idtac;
  let F := eval pattern W0 in T in
  lazymatch F with
  | ?f W0 =>
      let H := fresh in
      assert (H : ∀ w, p (f w) = p w) by (intros; reflexivity);
      specialize (H W0); cbv beta in H; exchange H; clear H
  end.

Ltac peel p T :=
  reader p;
  first [ let W0 := base T in skip p T W0 | let W0 := under T in skip p T W0 ].

Ltac frame :=
  repeat match goal with
  | |- context [?p (said ?e ?w)] => peel p (said e w)
  | |- context [?p (answered ?c ?w)] => peel p (answered c w)
  | |- context [?p (setDocs ?c ?u ?m ?w)] => peel p (setDocs c u m w)
  | |- context [?p (set_currentDraftId ?x ?w)] => peel p (set_currentDraftId x w)
  | |- context [?p (set_currentDreamIdForMatch ?x ?w)] =>
      peel p (set_currentDreamIdForMatch x w)
  | |- context [?p (set_matchedEventInput ?x ?w)] => peel p (set_matchedEventInput x w)
  | |- context [?p (set_selectedDreamForMatch ?x ?w)] =>
      peel p (set_selectedDreamForMatch x w)
  | |- context [?p (set_selectedEventForMatch ?x ?w)] =>
      peel p (set_selectedEventForMatch x w)
  | |- context [?p (set_matchSelectedDisabled ?x ?w)] =>
      peel p (set_matchSelectedDisabled x w)
  | |- context [?p (set_searchResultsList ?x ?w)] => peel p (set_searchResultsList x w)
  | |- context [?p (set_fetchOutcomes ?x ?w)] => peel p (set_fetchOutcomes x w)
  end.

(** The effects of a stack, oldest first. *)
Ltac events W acc :=
  lazymatch W with
  | said ?e ?W' => events W' constr:(e :: acc)
  | answered ?c ?W' => events W' constr:(Remote c :: acc)
  | set_currentDraftId _ ?W' => events W' acc
  | set_currentDreamIdForMatch _ ?W' => events W' acc
  | set_matchedEventInput _ ?W' => events W' acc
  | set_selectedDreamForMatch _ ?W' => events W' acc
  | set_selectedEventForMatch _ ?W' => events W' acc
  | set_matchSelectedDisabled _ ?W' => events W' acc
  | set_searchResultsList _ ?W' => events W' acc
  | set_fetchOutcomes _ ?W' => events W' acc
  | _ => acc
  end.

(** The trace under a stack is the trace of its base followed by the
    effects of the stack. *)
Ltac trace_of T :=
  let W0 := base T in
  let L := events T constr:(@nil Effect) in
  let H := fresh in
  assert (H : trace T = trace W0 ++ L)
    by (repeat first [ rewrite trace_said | rewrite trace_answered
                     | match goal with
                       | |- context [trace ?W] => let W' := under W in skip trace W W'
                       end ];
        rewrite <- ?app_assoc, ?app_nil_r; reflexivity);
  exchange H; clear H.

Ltac tracing :=
  repeat match goal with
  | |- context [trace (said ?e ?w)] => trace_of (said e w)
  | |- context [trace (answered ?c ?w)] => trace_of (answered c w)
  | |- context [trace ?W] => let W' := under W in skip trace W W'
  end.

(** Reading a collection after a write, and a variable after its change. *)
Ltac written c c' u m W u' :=
  lazymatch c with
  | draftColl =>
      lazymatch c' with
      | draftColl => exchange (docs_setDocs_draft u u' m W)
      | archivedColl => exchange (docs_draft_setDocs_archived u m W u')
      | eventColl => exchange (docs_draft_setDocs_event u m W u')
      | conversationColl => exchange (docs_draft_setDocs_conversation u m W u')
      end
  | archivedColl =>
      lazymatch c' with
      | draftColl => exchange (docs_archived_setDocs_draft u m W u')
      | archivedColl => exchange (docs_setDocs_archived u u' m W)
      | eventColl => exchange (docs_archived_setDocs_event u m W u')
      | conversationColl => exchange (docs_archived_setDocs_conversation u m W u')
      end
  | eventColl =>
      lazymatch c' with
      | draftColl => exchange (docs_event_setDocs_draft u m W u')
      | archivedColl => exchange (docs_event_setDocs_archived u m W u')
      | eventColl => exchange (docs_setDocs_event u u' m W)
      | conversationColl => exchange (docs_event_setDocs_conversation u m W u')
      end
  | conversationColl =>
      lazymatch c' with
      | draftColl => exchange (docs_conversation_setDocs_draft u m W u')
      | archivedColl => exchange (docs_conversation_setDocs_archived u m W u')
      | eventColl => exchange (docs_conversation_setDocs_event u m W u')
      | conversationColl => exchange (docs_setDocs_conversation u u' m W)
      end
  end.

Ltac settled :=
  repeat match goal with
  | |- context [docs ?c (setDocs ?c' ?u ?m ?W) ?u'] => written c c' u m W u'
  | |- context [messages (?a ++ ?b)] => exchange (messages_app a b)
  | |- context [remoteCalls (?a ++ ?b)] => exchange (remoteCalls_app a b)
  | |- context [currentDraftId (set_currentDraftId ?x ?W)] =>
      exchange (currentDraftId_set x W)
  | |- context [currentDreamIdForMatch (set_currentDreamIdForMatch ?x ?W)] =>
      exchange (currentDreamIdForMatch_set x W)
  | |- context [selectedDreamForMatch (set_selectedDreamForMatch ?x ?W)] =>
      exchange (selectedDreamForMatch_set x W)
  | |- context [selectedEventForMatch (set_selectedEventForMatch ?x ?W)] =>
      exchange (selectedEventForMatch_set x W)
  | |- context [matchSelectedDisabled (set_matchSelectedDisabled ?x ?W)] =>
      exchange (matchSelectedDisabled_set x W)
  | |- context [searchResultsList (set_searchResultsList ?x ?W)] =>
      exchange (searchResultsList_set x W)
  | |- context [matchedEventInput (set_matchedEventInput ?x ?W)] =>
      exchange (matchedEventInput_set x W)
  | |- context [fetchOutcomes (set_fetchOutcomes ?x ?W)] =>
      exchange (fetchOutcomes_set x W)
  end.

(** [snd] folded back after a run. *)
Ltac refold :=
  repeat match goal with
  | |- context [let (_, y) := ?q in y] =>
      progress change (let (_, y) := q in y) with (snd q)
  end.

(** Runs the effects of a handler, one at a time. *)
Ltac run :=
  repeat (progress
    (cbv beta iota zeta delta
       [mbind M_bind bind finally tryCatch ret throw get modify fst snd
        showMessage showLoading hideLoading console setText];
     rewrite ?run_emit)).

Ltac readout :=
  run; repeat (progress (frame; tracing; settled));
  simpl messages; simpl remoteCalls; rewrite ?app_nil_r, <- ?app_assoc.

Lemma otherDocsKept_refl name u w : otherDocsKept name u w w.
Proof. intros u'. repeat split; by right. Qed.

Ltac others_here :=
  repeat (progress (frame; settled));
  repeat split;
  first [ by right
        | left; split; [by case_decide|done]
        | case_decide; [left|right]; done ].

Ltac others := let u' := fresh "u" in intros u'; others_here.

End StoreFacts.

(* ===================================================================== *)
(** * The draft and archive operations                                   *)
(* ===================================================================== *)

Module DraftFacts.
Import Runtime Spec JsFacts RuntimeFacts Script StoreFacts Dreams DreamsFacts.

(** [saveDraftDream] never throws.  For a signed-in user whose write is
    accepted it resolves to an identifier that no draft had; the drafts of
    the user are then the former ones and, under that identifier, the
    draft made of the text, the title and the flag given, dated by the
    server; nothing else of the store changes and one success message is
    shown.  Otherwise it resolves to [null], the store is as it was and
    one error message is shown. *)
Theorem saveDraftDream_returns_the_id_it_stored (w : World)
    (dreamText dreamTitle : string) (isPreAnalyzed : bool) :
  if authenticated w && accepted w then
    ∃ id,
      fst (saveDraftDream dreamText dreamTitle isPreAnalyzed w) = Ok (Some id)
      ∧ docs draftColl w (userSegment w) !! id = None
      ∧ docs draftColl (snd (saveDraftDream dreamText dreamTitle isPreAnalyzed w))
          (userSegment w)
        = <[id := Draft.mk dreamText dreamTitle (Some (serverTime w)) isPreAnalyzed]>
            (docs draftColl w (userSegment w))
      ∧ otherDocsKept "draft_dreams" (userSegment w) w
          (snd (saveDraftDream dreamText dreamTitle isPreAnalyzed w))
      ∧ messages (trace (snd (saveDraftDream dreamText dreamTitle isPreAnalyzed w)))
        = messages (trace w) ++ [("success", "Dream draft saved!")]
  else
    fst (saveDraftDream dreamText dreamTitle isPreAnalyzed w) = Ok None
    ∧ store (snd (saveDraftDream dreamText dreamTitle isPreAnalyzed w)) = store w
    ∧ ∃ message,
        messages (trace (snd (saveDraftDream dreamText dreamTitle isPreAnalyzed w)))
        = messages (trace w) ++ [("error", message)].
Proof.
  unfold saveDraftDream, accepted. rewrite run_get_bind.
  destruct (authenticated w); cbn [negb andb]; [|readout; eauto].
  run. rewrite addDoc_run. frame.
  destruct (rejection w) as [e|]; readout; [eauto|].
  eexists. split; [reflexivity|]. split; [apply fresh_id_new|].
  split; [by rewrite decide_True|]. split; [others|done].
Qed.

(** [updateDraftDream] never throws and never creates a draft.  For a
    signed-in user, a draft identifier that is not empty and a write that
    is accepted, the draft stored under the identifier is replaced by the
    one made of the text, title and flag given, dated by the server, with
    no message; nothing else of the store changes.  When no draft is
    stored under the identifier, and in every other case, the store is as
    it was and one error message is shown. *)
Theorem updateDraftDream_replaces_one_draft (w : World)
    (draftId dreamText dreamTitle : string) (isPreAnalyzed : bool) :
  fst (updateDraftDream draftId dreamText dreamTitle isPreAnalyzed w) = Ok tt
  ∧ if authenticated w && Js.truthyStr draftId && accepted w
       && bool_decide (is_Some (docs draftColl w (userSegment w) !! draftId))
    then
      docs draftColl (snd (updateDraftDream draftId dreamText dreamTitle isPreAnalyzed w))
        (userSegment w)
      = <[draftId := Draft.mk dreamText dreamTitle (Some (serverTime w)) isPreAnalyzed]>
          (docs draftColl w (userSegment w))
      ∧ otherDocsKept "draft_dreams" (userSegment w) w
          (snd (updateDraftDream draftId dreamText dreamTitle isPreAnalyzed w))
      ∧ messages (trace (snd (updateDraftDream draftId dreamText dreamTitle isPreAnalyzed w)))
        = messages (trace w)
    else
      store (snd (updateDraftDream draftId dreamText dreamTitle isPreAnalyzed w)) = store w
      ∧ ∃ message,
          messages (trace (snd (updateDraftDream draftId dreamText dreamTitle isPreAnalyzed w)))
          = messages (trace w) ++ [("error", message)].
Proof.
  unfold updateDraftDream, accepted. rewrite run_get_bind.
  destruct (authenticated w); cbn [negb andb orb]; [|readout; eauto].
  destruct (Js.truthyStr draftId); cbn [negb andb orb]; [|readout; eauto].
  run. rewrite updateDoc_run. frame.
  destruct (rejection w) as [e|]; cbn [andb]; [readout; eauto|].
  destruct (docs draftColl w (userSegment w) !! draftId) as [d|] eqn:Hd.
  - rewrite bool_decide_true by eauto. readout.
    split; [done|]. split; [by rewrite decide_True|]. split; [others|done].
  - rewrite bool_decide_false by (by intros [? ?]). readout. eauto.
Qed.

(** The two delete operations never throw.  For a signed-in user, an
    identifier that is not empty and a delete that is accepted, the
    document stored under the identifier, if any, is gone, nothing else of
    the store changes and success is reported, whether or not there was
    such a document; when the draft deleted is the one being edited the
    editor is emptied and forgets it.  In every other case the store is
    as it was and one error message is shown. *)
Theorem deletes_remove_one_document (w : World) (id : string) :
  (fst (deleteDraftDream id w) = Ok tt
   ∧ if authenticated w && Js.truthyStr id && accepted w then
       docs draftColl (snd (deleteDraftDream id w)) (userSegment w)
       = delete id (docs draftColl w (userSegment w))
       ∧ otherDocsKept "draft_dreams" (userSegment w) w (snd (deleteDraftDream id w))
       ∧ messages (trace (snd (deleteDraftDream id w)))
         = messages (trace w) ++ [("success", "Draft dream deleted!")]
       ∧ currentDraftId (snd (deleteDraftDream id w))
         = (if decide (currentDraftId w = Some id) then None else currentDraftId w)
     else
       store (snd (deleteDraftDream id w)) = store w
       ∧ currentDraftId (snd (deleteDraftDream id w)) = currentDraftId w
       ∧ ∃ message,
           messages (trace (snd (deleteDraftDream id w)))
           = messages (trace w) ++ [("error", message)])
  ∧ (fst (deleteArchivedDream id w) = Ok tt
     ∧ if authenticated w && Js.truthyStr id && accepted w then
         docs archivedColl (snd (deleteArchivedDream id w)) (userSegment w)
         = delete id (docs archivedColl w (userSegment w))
         ∧ otherDocsKept "archived_dreams" (userSegment w) w
             (snd (deleteArchivedDream id w))
         ∧ messages (trace (snd (deleteArchivedDream id w)))
           = messages (trace w) ++ [("success", "Archived dream deleted!")]
       else
         store (snd (deleteArchivedDream id w)) = store w
         ∧ ∃ message,
             messages (trace (snd (deleteArchivedDream id w)))
             = messages (trace w) ++ [("error", message)]).
Proof.
  unfold deleteDraftDream, deleteArchivedDream, accepted. rewrite !run_get_bind.
  destruct (authenticated w); cbn [negb andb orb]; [|readout; repeat split; eauto].
  destruct (Js.truthyStr id); cbn [negb andb orb]; [|readout; repeat split; eauto].
  run. rewrite !deleteDoc_run. frame.
  destruct (rejection w) as [e|]; cbn [andb]; [readout; repeat split; eauto|].
  run. frame. split.
  - destruct (decide (currentDraftId w = Some id)); readout.
    + split; [done|]. split; [by rewrite decide_True|]. split; [others|done].
    + split; [done|]. split; [by rewrite decide_True|]. split; [others|done].
  - readout. split; [done|]. split; [by rewrite decide_True|]. split; [others|done].
Qed.

End DraftFacts.

(* ===================================================================== *)
(** * Operations that only read                                          *)
(* ===================================================================== *)

Module ReadFacts.
Import Runtime Spec JsFacts RuntimeFacts Script StoreFacts Dreams DreamsFacts.
Import Reality Search Stats.

Lemma keeps_store_forEach {A} (f : A → M unit) l :
  (∀ x, keeps (same store) (f x)) → keeps (same store) (forEach f l).
Proof. intros H. apply keeps_forEach; [apply _|done]. Qed.

Lemma performSearch_store i s : keeps (same store) (performSearch i s).
Proof.
  unfold performSearch, displaySearchResults, updateMatchSelectedButtonState, renderable.
  keeps_go.
Qed.

Lemma loadStats_store : keeps (same store) loadStats.
Proof. unfold loadStats. keeps_go. Qed.

Lemma displayTopTerms_store el m : keeps (same store) (displayTopTerms el m).
Proof. unfold displayTopTerms. keeps_go. Qed.

Lemma loadTopInsights_store : keeps (same store) loadTopInsights.
Proof. unfold loadTopInsights, displayTopTerms. keeps_go. Qed.

Lemma loadDetailedDreamStats_store : keeps (same store) loadDetailedDreamStats.
Proof. unfold loadDetailedDreamStats. keeps_go. Qed.

Lemma loaders_store :
  keeps (same store) loadDraftDreams ∧ keeps (same store) loadArchivedDreams
  ∧ keeps (same store) loadDailyEvents.
Proof. unfold loadDraftDreams, loadArchivedDreams, loadDailyEvents. repeat split; keeps_go. Qed.

Lemma performDreamAnalysis_store t ti a : keeps (same store) (performDreamAnalysis t ti a).
Proof. unfold performDreamAnalysis, displayAnalysis. keeps_go. Qed.

(** The operations that read (the search, the statistics, the live
    lists, the analysis request) and the handlers of the search page leave
    every stored document as it was, whatever the store and the endpoint
    answer. *)
Theorem reading_operations_write_nothing (w : World) :
  (∀ input scope, store (snd (performSearch input scope w)) = store w)
  ∧ store (snd (loadStats w)) = store w
  ∧ store (snd (loadDetailedDreamStats w)) = store w
  ∧ store (snd (loadTopInsights w)) = store w
  ∧ store (snd (loadDraftDreams w)) = store w
  ∧ store (snd (loadArchivedDreams w)) = store w
  ∧ store (snd (loadMatchedDreams w)) = store w
  ∧ store (snd (loadDailyEvents w)) = store w
  ∧ (∀ text title archiving,
       store (snd (performDreamAnalysis text title archiving w)) = store w).
Proof.
  destruct loaders_store as (Hd & Ha & He).
  split; [intros; apply performSearch_store|].
  split; [apply loadStats_store|].
  split; [apply loadDetailedDreamStats_store|].
  split; [apply loadTopInsights_store|].
  split; [apply Hd|]. split; [apply Ha|].
  split; [apply loadMatchedDreams_store|]. split; [apply He|].
  intros. apply performDreamAnalysis_store.
Qed.

End ReadFacts.

(* ===================================================================== *)
(** * The sign-in guards                                                 *)
(* ===================================================================== *)

Module GuardFacts.
Import Runtime Spec JsFacts RuntimeFacts Script StoreFacts Dreams DreamsFacts.
Import Reality Search Stats Quiet.





End GuardFacts.

(* ===================================================================== *)
(** * The live lists                                                     *)
(* ===================================================================== *)

Module ListenFacts.
Import Runtime Spec JsFacts RuntimeFacts Script StoreFacts Dreams DreamsFacts.

Lemma onSnapshot_run {D} (c : Coll D) q next error w :
  onSnapshot c q next error w
  = match rejection w with
    | None =>
        next (q (answered (OnSnapshot (userSegment w) (cname c)) w) (userSegment w))
          (answered (OnSnapshot (userSegment w) (cname c)) w)
    | Some e => error e (answered (OnSnapshot (userSegment w) (cname c)) w)
    end.
Proof.
  unfold onSnapshot. rewrite run_get_bind.
  unfold mbind, M_bind, bind, attempt. rewrite remote_run.
  by destruct (rejection w).
Qed.

Lemma detached_ok m w : fst (detached m w) = Ok tt.
Proof. unfold detached, tryCatch. by destruct (m w) as [[[]|e] w']. Qed.

Lemma detached_world m w : snd (detached m w) = snd (m w).
Proof. unfold detached, tryCatch. by destruct (m w) as [[[]|e] w']. Qed.

Lemma detached_run m w : detached m w = (Ok tt, snd (m w)).
Proof. unfold detached, tryCatch. by destruct (m w) as [[[]|e] w']. Qed.

(** What [loadMatchedDreams] lists: the matched dreams, latest first. *)
Lemma loadMatchedDreams_run w :
  authenticated w = true → rejection w = None →
  snd (loadMatchedDreams w)
  = said (RenderRows "matched-dreams-list"
            (map fst (List.filter (λ r, Archived.matched (snd r))
                        (snapshotDesc archivedColl Archived.timestamp w (userSegment w)))))
      (said HideLoading
         (answered (OnSnapshot (userSegment w) "archived_dreams")
            (said ShowLoading
               (said (SetText "matched-dreams-list" "Loading matched dreams...") w)))).
Proof.
  intros Hauth Hr. unfold loadMatchedDreams. rewrite run_get_bind, Hauth. cbn [negb].
  run. rewrite onSnapshot_run. frame. rewrite Hr. run. reflexivity.
Qed.

Lemma rejection_answered c w : storeAnswers w → rejection (answered c w) = None.
Proof. intros H. by apply rejection_None, answered_answers. Qed.

Lemma storeAnswers_said e w : storeAnswers (said e w) ↔ storeAnswers w.
Proof. reflexivity. Qed.

Lemma snapshotDesc_elem {D} (c : Coll D) ts w u id d :
  (id, d) ∈ snapshotDesc c ts w u ↔ docs c w u !! id = Some d.
Proof.
  unfold snapshotDesc. rewrite (sort_perm _ _). apply elem_of_map_to_list.
Qed.

End ListenFacts.

(* ===================================================================== *)
(** * Saving a match                                                     *)
(* ===================================================================== *)

Module MatchFacts.
Import Runtime Spec JsFacts RuntimeFacts Script StoreFacts Dreams DreamsFacts ListenFacts.
Import SearchFacts.

Lemma saveMatchClick_saves (w : World) (id : string) (d : Archived.t) :
  authenticated w = true → storeAnswers w →
  currentDreamIdForMatch w = Some id → id ≠ "" →
  Js.trim (matchedEventInput w) ≠ "" →
  docs archivedColl w (userSegment w) !! id = Some d →
  docs archivedColl (snd (saveMatchClick w)) (userSegment w)
  = <[id := Archived.setMatch (Js.trim (matchedEventInput w)) d]>
      (docs archivedColl w (userSegment w))
  ∧ otherDocsKept "archived_dreams" (userSegment w) w (snd (saveMatchClick w))
  ∧ (∃ ids effects,
       trace (snd (saveMatchClick w)) = trace w ++ effects
       ∧ In (RenderRows "matched-dreams-list" ids) effects
       ∧ In id ids)
  ∧ currentDreamIdForMatch (snd (saveMatchClick w)) = None
  ∧ matchedEventInput (snd (saveMatchClick w)) = ""
  ∧ messages (trace (snd (saveMatchClick w)))
    = messages (trace w) ++ [("success", "Reality match saved!")].
Proof.
  intros Hauth Hstore Hc Hid Ht Hd.
  unfold saveMatchClick. rewrite run_get_bind, Hc.
  apply truthyStr_true in Hid, Ht. rewrite Hid, Ht. cbn [negb].
  run. rewrite updateDoc_run. frame.
  rewrite (rejection_None w Hstore), Hd. run.
  rewrite detached_run, loadMatchedDreams_run.
  2:{ by frame. }
  2:{ frame. by apply rejection_answered. }
  readout.
  split; [by rewrite decide_True|]. split; [others|].
  split; [|done].
  eexists _, _. split; [reflexivity|]. split.
  - rewrite ?in_app_iff. cbn [In].
    repeat first [left; left; reflexivity | left; reflexivity | right].
  - apply (in_map fst _ (id, Archived.setMatch (Js.trim (matchedEventInput w)) d)).
    apply filter_In. split.
    + apply list_elem_of_In, snapshotDesc_elem. frame.
      rewrite docs_setDocs_archived, decide_True by done. apply lookup_insert_eq.
    + unfold Archived.matched. simpl. exact Ht.
Qed.


(** A match saved is a match listed.  For a signed-in user whose store
    answers, with the modal open on an archived dream and a match text
    that is not blank, the save-match handler stores the trimmed text on
    that dream and on no other, closes the modal and empties it, and the
    list of matched dreams it refreshes holds the dream. *)
Theorem saved_match_is_listed (w : World) (id : string) (d : Archived.t) :
  authenticated w = true → storeAnswers w →
  currentDreamIdForMatch w = Some id → id ≠ "" →
  Js.trim (matchedEventInput w) ≠ "" →
  docs archivedColl w (userSegment w) !! id = Some d →
  docs archivedColl (snd (saveMatchClick w)) (userSegment w)
  = <[id := Archived.setMatch (Js.trim (matchedEventInput w)) d]>
      (docs archivedColl w (userSegment w))
  ∧ otherDocsKept "archived_dreams" (userSegment w) w (snd (saveMatchClick w))
  ∧ (∃ ids effects,
       trace (snd (saveMatchClick w)) = trace w ++ effects
       ∧ In (RenderRows "matched-dreams-list" ids) effects
       ∧ In id ids)
  ∧ currentDreamIdForMatch (snd (saveMatchClick w)) = None
  ∧ matchedEventInput (snd (saveMatchClick w)) = ""
  ∧ messages (trace (snd (saveMatchClick w)))
    = messages (trace w) ++ [("success", "Reality match saved!")].
Proof. apply saveMatchClick_saves. Qed.

Lemma saved_match_run :
  docs archivedColl (snd (saveMatchClick (Examples.matching "  met Bob at noon "))) "u1"
  = <["d1" := Archived.setMatch "met Bob at noon" Examples.flying]>
      (docs archivedColl (Examples.matching "  met Bob at noon ") "u1").
Proof.
  refine (proj1 (saved_match_is_listed (Examples.matching "  met Bob at noon ") "d1"
                   Examples.flying _ _ _ _ _ _)).
  - reflexivity.
  - constructor.
  - reflexivity.
  - discriminate.
  - discriminate.
  - reflexivity.
Defined.

(** ** From the selection to the match *)

(** The description [handleMatchSelectedClick] writes for an event. *)
Lemma description_trimmed content :
  Js.trim ("Matched with daily event: " +:+ Search.quote +:+ content +:+ Search.quote)
  = "Matched with daily event: " +:+ Search.quote +:+ content +:+ Search.quote.
Proof.
  exact (trim_closed "M" ("atched with daily event: " +:+ Search.quote +:+ content)
           (ascii_of_nat 34) (λ _, eq_refl) (λ _, eq_refl)).
Qed.

(** From the selection to the match.  With a dream and an event selected
    on the search page, "Match Selected" followed by the save button of
    the modal stores, on the selected dream, the description that quotes
    the text of the selected event, as written. *)
Theorem selected_pair_is_matched (w : World) (sd : SelectedDream) (se : SelectedEvent)
    (text : string) (d : Archived.t) :
  authenticated w = true → storeAnswers w →
  selectedDreamForMatch w = Some sd → selectedEventForMatch w = Some se →
  sd_content sd = Some text → sd_id sd ≠ "" →
  docs archivedColl w (userSegment w) !! sd_id sd = Some d →
  fst (Search.handleMatchSelectedClick w) = Ok tt
  ∧ docs archivedColl (snd (saveMatchClick (snd (Search.handleMatchSelectedClick w))))
      (userSegment w)
    = <[sd_id sd :=
          Archived.setMatch
            ("Matched with daily event: " +:+ Search.quote
               +:+ Search.orUndefined (se_content se) +:+ Search.quote) d]>
        (docs archivedColl w (userSegment w)).
Proof.
  intros Hauth Hstore Hsd Hse Htext Hid Hd.
  unfold Search.handleMatchSelectedClick. rewrite run_get_bind, Hsd, Hse.
  unfold openMatchModalForSearch. rewrite Htext. run. split; [done|].
  match goal with |- context [saveMatchClick ?W] =>
    destruct (saveMatchClick_saves W (sd_id sd) d) as [Hsaved _]
  end.
  - by frame.
  - by rewrite !storeAnswers_said.
  - by readout.
  - done.
  - readout. rewrite description_trimmed.
    intros H. by apply (f_equal String.length) in H.
  - by frame.
  - etransitivity; [exact Hsaved|]. readout. by rewrite description_trimmed.
Qed.

Lemma selected_pair_run :
  fst (Search.handleMatchSelectedClick Scenes.paired) = Ok tt.
Proof.
  refine (proj1 (selected_pair_is_matched Scenes.paired
    (mkSelectedDream "d1" (Some "I was flying over Paris") (Some "Flight"))
    (mkSelectedEvent "e1" (Some "Butterfly garden visit"))
    "I was flying over Paris" Examples.flying _ _ _ _ _ _ _)).
  - reflexivity.
  - constructor.
  - reflexivity.
  - reflexivity.
  - reflexivity.
  - discriminate.
  - reflexivity.
Defined.

End MatchFacts.

(* ===================================================================== *)
(** * The add-dream and log-event buttons                                *)
(* ===================================================================== *)

Module ButtonFacts.
Import Runtime Spec JsFacts RuntimeFacts Script StoreFacts Dreams DreamsFacts ListenFacts.
Import Reality Buttons.

Lemma trimmedValue_trimmed input : Js.trim (trimmedValue input) = trimmedValue input.
Proof. destruct input; [apply trim_idem|done]. Qed.

(** ** The live lists leave the page state alone *)

Lemma docs_of_store {D} (c : Coll D) w w' u :
  store w' = store w → docs c w' u = docs c w u.
Proof. unfold docs, userData. by intros ->. Qed.

Lemma loadDraftDreams_store : keeps (same store) loadDraftDreams.
Proof. unfold loadDraftDreams. keeps_go. Qed.

Lemma loadDraftDreams_editing : keeps (same currentDraftId) loadDraftDreams.
Proof. unfold loadDraftDreams. keeps_go. Qed.

Lemma loadDraftDreams_docs {D} (c : Coll D) w u :
  docs c (snd (loadDraftDreams w)) u = docs c w u.
Proof. apply docs_of_store, loadDraftDreams_store. Qed.

Lemma clearInput_run element input w :
  clearInput element input w = (Ok tt, cleared element input w).
Proof. destruct input; [apply run_emit|done]. Qed.

Lemma docs_cleared {D} (c : Coll D) element input w u :
  docs c (cleared element input w) u = docs c w u.
Proof. by destruct input. Qed.

Lemma store_cleared element input w : store (cleared element input w) = store w.
Proof. by destruct input. Qed.

Lemma currentDraftId_cleared element input w :
  currentDraftId (cleared element input w) = currentDraftId w.
Proof. by destruct input. Qed.


Lemma truthyOpt_orEmpty o : Js.truthyOpt o = true → o = Some (Js.orEmpty o).
Proof. by destruct o. Qed.

Ltac settle :=
  rewrite ?clearInput_run, ?detached_run; cbv beta iota zeta delta [fst];
  repeat match goal with
  | |- context [loadDraftDreams ?W] =>
      progress change (let (_, y) := loadDraftDreams W in y) with (snd (loadDraftDreams W))
  end;
  rewrite ?loadDraftDreams_docs, ?(keeps_at _ _ _ loadDraftDreams_store),
    ?(keeps_at _ _ _ loadDraftDreams_editing),
    ?docs_cleared, ?store_cleared, ?currentDraftId_cleared.

(** The add-dream button.  With a dream text that is blank once trimmed
    it sends nothing, stores nothing and shows one information message.
    Otherwise it never throws and no draft is being edited afterwards.  For
    a signed-in user whose write is accepted: when a draft was being edited
    it is replaced, under its identifier, by the trimmed text and title,
    dated by the server and no longer marked as analysed (and nothing is
    stored when that draft is gone); when none was, one draft with the
    trimmed text and title is added under an identifier no draft had.  In
    the other cases every document is as it was. *)
Theorem add_dream_button_saves_or_updates (w : World) (input title : option string) :
  let w' := snd (addDreamClick input title w) in
  let drafts := docs draftColl w (userSegment w) in
  let draft := Draft.mk (trimmedValue input) (trimmedValue title) (Some (serverTime w)) false in
  fst (addDreamClick input title w) = Ok tt
  ∧ if Js.truthyStr (trimmedValue input) then
      Js.truthyOpt (currentDraftId w') = false
      ∧ if authenticated w && accepted w then
          otherDocsKept "draft_dreams" (userSegment w) w w'
          ∧ if Js.truthyOpt (currentDraftId w) then
              docs draftColl w' (userSegment w)
              = match drafts !! Js.orEmpty (currentDraftId w) with
                | Some _ => <[Js.orEmpty (currentDraftId w) := draft]> drafts
                | None => drafts
                end
            else
              ∃ id, drafts !! id = None
                    ∧ docs draftColl w' (userSegment w) = <[id := draft]> drafts
        else store w' = store w
    else
      store w' = store w
      ∧ currentDraftId w' = currentDraftId w
      ∧ remoteCalls (trace w') = remoteCalls (trace w)
      ∧ messages (trace w')
        = messages (trace w) ++ [("info", "Please enter some text for your dream.")].
Proof.
  cbv zeta. unfold addDreamClick.
  destruct (Js.truthyStr (trimmedValue input)) eqn:Htext; cbn [negb]; [|by readout].
  run.
  destruct (Js.truthyOpt (currentDraftId w)) eqn:Hedit.
  - unfold updateDraftDream, accepted.
    assert (Hid : Js.truthyStr (Js.orEmpty (currentDraftId w)) = true)
      by (by destruct (currentDraftId w)).
    run. rewrite Hid.
    destruct (authenticated w); cbn [negb andb orb].
    + run. rewrite updateDoc_run. frame.
      destruct (rejection w) as [e|].
      * run. settle. run. settle. readout. done.
      * destruct (docs draftColl w (userSegment w) !! Js.orEmpty (currentDraftId w)) eqn:Hd.
        -- run. settle. run. settle. readout.
           split; [done|]. split; [done|]. split; [|by rewrite decide_True].
           intros u'. settle. others_here.
        -- run. settle. run. settle. readout.
           split; [done|]. split; [done|]. split; [|done].
           intros u'. settle. others_here.
    + run. settle. run. settle. readout. done.
  - unfold saveDraftDream, accepted. run.
    destruct (authenticated w); cbn [negb andb orb].
    + run. rewrite addDoc_run. frame.
      destruct (rejection w) as [e|].
      * run. settle. run. settle. readout. done.
      * run. settle. run. settle. readout.
        split; [done|]. split; [done|]. split.
        -- intros u'. settle. others_here.
        -- eexists. split; [apply fresh_id_new|]. by rewrite decide_True.
    + run. settle. run. settle. readout. done.
Qed.

(** The log-event button.  It never throws.  For a signed-in user whose
    write is accepted and an input that is not blank, one event is added
    under an identifier no event had: its text is the input trimmed (so
    not empty, and itself trimmed) and its date the server's; nothing
    else of the store changes and success is reported.  In every other
    case no document changes and one message, not a success, is shown;
    with a blank input nothing is sent at all. *)
Theorem log_event_button_stores_the_trimmed_text (w : World) (input : option string) :
  let w' := snd (logDailyEventClick input w) in
  let events := docs eventColl w (userSegment w) in
  let text := trimmedValue input in
  fst (logDailyEventClick input w) = Ok tt
  ∧ if Js.truthyStr text && authenticated w && accepted w then
      text ≠ "" ∧ Js.trim text = text
      ∧ (∃ id, events !! id = None
               ∧ docs eventColl w' (userSegment w)
                 = <[id := Event.mk (Some text) (Some (serverTime w))]> events)
      ∧ otherDocsKept "daily_events" (userSegment w) w w'
      ∧ messages (trace w') = messages (trace w) ++ [("success", "Daily event logged!")]
    else
      store w' = store w
      ∧ (Js.truthyStr text = false → remoteCalls (trace w') = remoteCalls (trace w))
      ∧ ∃ kind message,
          kind ≠ "success"
          ∧ messages (trace w') = messages (trace w) ++ [(kind, message)].
Proof.
  cbv zeta. unfold logDailyEventClick, accepted.
  destruct (Js.truthyStr (trimmedValue input)) eqn:Htext; cbn [andb].
  - unfold saveDailyEvent. rewrite run_get_bind.
    destruct (authenticated w); cbn [negb andb].
    + run. rewrite addDoc_run. frame.
      destruct (rejection w) as [e|]; readout.
      * split; [done|]. split; [done|]. split; [done|]. by eexists "error", _.
      * split; [done|]. split; [by apply truthyStr_true|].
        split; [apply trimmedValue_trimmed|].
        split; [eexists; split; [apply fresh_id_new|by rewrite decide_True]|].
        split; [others|done].
    + readout. split; [done|]. split; [done|]. split; [done|]. by eexists "error", _.
  - readout. split; [done|]. split; [done|]. split; [done|]. by eexists "info", _.
Qed.

(** No-break spaces count as white space: an input made of them is blank,
    and around a text they are left out of what is stored. *)
Example no_break_space_is_blank :
  trace (snd (logDailyEventClick (Some (Scenes.nbsp +:+ " " +:+ Scenes.nbsp))
                Examples.searcher))
  = [ShowMessage "info" "Please enter some text for your daily event."]
  ∧ trace (snd (addDreamClick (Some Scenes.nbsp) (Some "Night") Examples.searcher))
    = [ShowMessage "info" "Please enter some text for your dream."]
  ∧ In (Some "Met Bob")
       (map (λ r, Event.eventText (snd r))
          (map_to_list
             (docs eventColl
                (snd (logDailyEventClick (Some (Scenes.nbsp +:+ "Met Bob" +:+ Scenes.nbsp))
                        Examples.searcher)) "u1")))
  ∧ map (λ r, Draft.dreamText (snd r))
      (map_to_list
         (docs draftColl
            (snd (addDreamClick (Some (Scenes.nbsp +:+ "The sea" +:+ Scenes.nbsp)) (Some "")
                    Examples.searcher)) "u1"))
    = ["The sea"].
Proof. vm_compute. repeat split. tauto. Qed.

End ButtonFacts.

(* ===================================================================== *)
(** * Analysing and archiving a draft                                    *)
(* ===================================================================== *)

Module ArchiveFacts.
Import Runtime Spec JsFacts RuntimeFacts Script StoreFacts Dreams DreamsFacts ListenFacts.
Import Answers ButtonFacts.

Lemma fetchJson_run url body w :
  fetchJson url body w
  = match fetchOutcomes w with
    | [] => (Throw "Failed to fetch", said (Remote (Fetch url body)) w)
    | Gemini.NetworkError e :: r =>
        (Throw e, set_fetchOutcomes r (said (Remote (Fetch url body)) w))
    | Gemini.Response st (Gemini.NotJson e) :: r =>
        (Throw e, set_fetchOutcomes r (said (Remote (Fetch url body)) w))
    | Gemini.Response st Gemini.JsonNull :: r =>
        (Ok (st, None), set_fetchOutcomes r (said (Remote (Fetch url body)) w))
    | Gemini.Response st (Gemini.Json res) :: r =>
        (Ok (st, Some res), set_fetchOutcomes r (said (Remote (Fetch url body)) w))
    end.
Proof. reflexivity. Qed.

Lemma loadArchivedDreams_store : keeps (same store) loadArchivedDreams.
Proof. unfold loadArchivedDreams. keeps_go. Qed.

Lemma docs_after {D} (c : Coll D) (m : M unit) w u :
  keeps (same store) m → docs c (snd (m w)) u = docs c w u.
Proof. intros H. apply docs_of_store, H. Qed.

Ltac loaded :=
  rewrite ?detached_run; cbv beta iota zeta delta [fst]; refold;
  rewrite ?(docs_after _ _ _ _ loadDraftDreams_store),
    ?(docs_after _ _ _ _ loadArchivedDreams_store),
    ?(keeps_at _ _ _ loadDraftDreams_store),
    ?(keeps_at _ _ _ loadArchivedDreams_store).

Lemma storeAnswers_rejection w w' :
  storeAnswers w → storeOutcomes w' = storeOutcomes w → rejection w' = None.
Proof. intros H Hw. apply rejection_None. unfold storeAnswers. by rewrite Hw. Qed.

Lemma storeOutcomes_answered c w : storeOutcomes (answered c w) = tail (storeOutcomes w).
Proof. reflexivity. Qed.

Lemma storeAnswers_tail w w' :
  storeAnswers w → storeOutcomes w' = tail (storeOutcomes w) → rejection w' = None.
Proof.
  intros H Hw. apply rejection_None. unfold storeAnswers in *. rewrite Hw.
  destruct (storeOutcomes w) as [|o l]; [done|]. cbn [tail]. by inversion H.
Qed.

Ltac arrived :=
  repeat (progress (frame; loaded)); readout; rewrite ?decide_True by done.

#[local] Opaque loadDraftDreams loadArchivedDreams.

(** [analyzeAndArchiveDream] for a signed-in user whose store answers.
    When the endpoint answers an analysis, the dream is archived under an
    identifier no archived dream had, with the text and title given, that
    analysis, the server's date and an empty match, and the draft stored
    under the identifier given is gone; daily events, conversations and
    the documents of other users are as they were.  When it does not, no
    document changes, the store is not called (the request to the endpoint
    is the only call) and the last message is the failure. *)
Theorem analyze_and_archive_moves_the_draft (w : World)
    (draftId dreamText dreamTitle : string) :
  authenticated w = true → storeAnswers w → draftId ≠ "" →
  let w' := snd (analyzeAndArchiveDream draftId dreamText dreamTitle w) in
  let u := userSegment w in
  fst (analyzeAndArchiveDream draftId dreamText dreamTitle w) = Ok tt
  ∧ match answeredAnalysis (fetchOutcomes w) with
    | Some analysis =>
        (∃ id, docs archivedColl w u !! id = None
               ∧ docs archivedColl w' u
                 = <[id := Archived.mk (Some dreamText) analysis (Some dreamTitle)
                             (Some (serverTime w)) (Some "")]>
                     (docs archivedColl w u))
        ∧ docs draftColl w' u = delete draftId (docs draftColl w u)
        ∧ (∀ u', docs eventColl w' u' = docs eventColl w u'
                 ∧ docs conversationColl w' u' = docs conversationColl w u')
        ∧ (∀ u', u' ≠ u →
                 docs draftColl w' u' = docs draftColl w u'
                 ∧ docs archivedColl w' u' = docs archivedColl w u')
    | None =>
        store w' = store w
        ∧ remoteCalls (trace w')
          = remoteCalls (trace w) ++ [Fetch apiUrl (fullDreamText dreamText dreamTitle)]
        ∧ ∃ earlier,
            messages (trace w')
            = messages (trace w) ++ earlier
              ++ [("error", "Analysis failed, dream not archived.")]
    end.
Proof.
  intros Hauth Hstore Hid. cbv zeta.
  apply truthyStr_true in Hid.
  destruct (analyzeAndArchiveDream draftId dreamText dreamTitle w) as [r w'] eqn:Hrun.
  cbv beta iota delta [fst snd]. revert Hrun.
  unfold analyzeAndArchiveDream, performDreamAnalysis. rewrite !run_get_bind.
  rewrite Hauth. cbn [negb]. run. frame. rewrite Hauth. cbn [negb]. run.
  rewrite fetchJson_run. frame. unfold answeredAnalysis.
  destruct (fetchOutcomes w) as [|[e|st [e| |res]] rest].
  - run; cbn [analysisTruthy]; run. intros [= <- <-]. readout.
    split; [done|]. split; [done|]. split; [done|]. by eexists [_].
  - run; cbn [analysisTruthy]; run. intros [= <- <-]. readout.
    split; [done|]. split; [done|]. split; [done|]. by eexists [_].
  - run; cbn [analysisTruthy]; run. intros [= <- <-]. readout.
    split; [done|]. split; [done|]. split; [done|]. by eexists [_].
  - run; cbn [analysisTruthy]; run. intros [= <- <-]. readout.
    split; [done|]. split; [done|]. split; [done|]. by eexists [_].
  - run. destruct (firstPart res) as [part|].
    + destruct (Gemini.text part) as [t|]; run; cbn [analysisTruthy].
      * destruct (Js.truthyStr (Js.raw t)).
        -- unfold saveAnalyzedDream, deleteDraftDream. run. frame.
           rewrite Hauth, Hid. cbn [negb orb]. run. rewrite addDoc_run. frame.
           rewrite (rejection_None w Hstore). run. frame. rewrite Hauth. cbn [negb orb].
           run. rewrite deleteDoc_run.
           match goal with |- context [rejection ?W] =>
             rewrite (storeAnswers_tail w W Hstore) by (frame; reflexivity)
           end.
           run. frame. settled. frame.
           destruct (decide (currentDraftId w = Some draftId)).
           ++ run. loaded. run. loaded. run. intros [= <- <-]. arrived.
              split; [done|]. split; [eexists; split; [apply fresh_id_new|done]|].
              split; [done|]. split.
              ** intros u'. by arrived.
              ** intros u' Hu. arrived. by rewrite !decide_False by done.
           ++ run. loaded. run. loaded. run. intros [= <- <-]. arrived.
              split; [done|]. split; [eexists; split; [apply fresh_id_new|done]|].
              split; [done|]. split.
              ** intros u'. by arrived.
              ** intros u' Hu. arrived. by rewrite !decide_False by done.
        -- run. intros [= <- <-]. readout.
           split; [done|]. split; [done|]. split; [done|]. by eexists [].
      * run. intros [= <- <-]. readout.
        split; [done|]. split; [done|]. split; [done|]. by eexists [].
    + run; cbn [analysisTruthy]; run. intros [= <- <-]. readout.
      split; [done|]. split; [done|]. split; [done|]. by eexists [_].
Qed.

Lemma analyze_and_archive_run :
  fst (analyzeAndArchiveDream "d1" "I was flying over Paris" "Flight"
         (Examples.archiving Scenes.analysed [])) = Ok tt.
Proof.
  refine (proj1 (analyze_and_archive_moves_the_draft (Examples.archiving Scenes.analysed [])
                   "d1" "I was flying over Paris" "Flight" _ _ _)).
  - reflexivity.
  - constructor.
  - discriminate.
Defined.

End ArchiveFacts.

(* ===================================================================== *)
(** * The details of an archived dream                                   *)
(* ===================================================================== *)

Module DetailsFacts.
Import Runtime Spec JsFacts RuntimeFacts Stats StatsFacts Details DetailsSpec.

Lemma filter_none {A} (l : list A) : List.filter (λ _, false) l = [].
Proof. by induction l. Qed.

Lemma appendSections_sections a hs content :
  NoDup (map fst hs) →
  snd (appendSections a hs content)
  = content
    ++ map (λ kh : string * string,
              SectionItem (snd kh)
                match Js.getProp a (fst kh) with
                | Some (Some (Js.JStr s)) => s
                | _ => ""
                end)
        (List.filter (λ kh, adds a (map fst hs) (fst kh)) hs).
Proof.
  revert content. induction hs as [|[k h] hs IH]; intros content Hnd.
  - simpl. by rewrite app_nil_r.
  - change (map fst ((k, h) :: hs)) with (k :: map fst hs) in *.
    apply NoDup_cons in Hnd as [Hk Hnd].
    assert (Hlater :
      List.filter (λ kh, adds a (k :: map fst hs) (fst kh)) hs
      = List.filter (λ kh, readPasses a k && adds a (map fst hs) (fst kh)) hs).
    { apply filter_ext_in. intros [k' h'] Hin. rewrite adds_cons. cbn [fst].
      destruct (String.eqb_spec k k') as [->|]; [|done].
      exfalso. apply Hk. apply list_elem_of_In. by apply (in_map fst _ (k', h')). }
    cbn [appendSections List.filter fst snd]. rewrite adds_cons, String.eqb_refl.
    rewrite Hlater. unfold readNonEmpty, readPasses, passes.
    destruct (Js.getProp a k) as [v|] eqn:Hg.
    2:{ cbn [andb]. by rewrite filter_none, app_nil_r. }
    destruct (Js.truthyVal v) eqn:Hv.
    + destruct v as [[| | |s| |]|]; simpl in Hv |- *; try done;
        try (cbn [andb]; by rewrite filter_none, app_nil_r).
      rewrite IH by done.
      destruct (Js.truthyStr (Js.trim s)); cbn [map fst snd]; rewrite ?Hg;
        by rewrite <- ?app_assoc.
    + rewrite IH by done. cbn [negb orb andb].
      assert (nonEmptyText v = false) as ->; [|done].
      destruct v as [[| | |s| |]|]; simpl in Hv |- *; try done.
      by destruct s.
Qed.

Lemma appendSections_result a hs content :
  fst (appendSections a hs content) = Ok tt ↔ forallb (readPasses a) (map fst hs) = true.
Proof.
  revert content. induction hs as [|[k h] hs IH]; intros content; simpl; [done|].
  unfold readPasses at 1, passes.
  destruct (Js.getProp a k) as [v|]; simpl; [|done].
  destruct (Js.truthyVal v); simpl; [|apply IH].
  destruct v as [[]|]; simpl; try done; apply IH.
Qed.

Lemma headings_distinct : NoDup (map fst analysisHeadings).
Proof. apply countedKeys_NoDup. Qed.

(** The details of an archived dream.  The modal is opened whatever the
    analysis is, and what it held before is replaced.  Its headings are
    the keys of the detailed statistics, in the same order, and it shows
    a section exactly for the keys the dream is counted for there, each
    with the text as stored (not trimmed); when the loop of the
    statistics does not run through for the dream (the text does not
    parse, is [null], or a value met is truthy without being a string)
    the sections shown so far are followed by the paragraph giving the raw
    text, and one error is written to the console. *)
Theorem details_show_the_counted_sections (dreamData : Archived.t) (modal : Modal) :
  let t := Archived.analysisText dreamData in
  let shown := fst (displayArchivedDreamDetails true dreamData modal) in
  map fst analysisHeadings = countedKeys
  ∧ hidden shown = false
  ∧ analysisContent shown
    = sectionsOf t
      ++ (if runsThrough countedKeys t then [] else [Paragraph (rawContent t)])
  ∧ length (snd (displayArchivedDreamDetails true dreamData modal))
    = (if runsThrough countedKeys t then 0 else 1)%nat.
Proof.
  cbv zeta. split; [reflexivity|].
  unfold displayArchivedDreamDetails, sectionsOf, runsThrough, countsFor, textAt.
  cbn [negb].
  destruct (Js.parsed (Archived.analysisText dreamData)) as [a|]; cbn [fst snd].
  - pose proof (appendSections_sections a analysisHeadings [] headings_distinct) as Hs.
    pose proof (appendSections_result a analysisHeadings []) as Hr.
    change (map fst analysisHeadings) with countedKeys in Hs, Hr.
    destruct (appendSections a analysisHeadings []) as [[[]|e] content];
      cbn [fst snd] in *; subst content.
    + rewrite (proj1 Hr eq_refl). rewrite app_nil_r. by repeat split.
    + destruct (forallb (readPasses a) countedKeys); [|by repeat split].
      discriminate (proj2 Hr eq_refl).
  - rewrite filter_none. by repeat split.
Qed.

End DetailsFacts.

(* ===================================================================== *)
(** * Logging, then searching                                            *)
(* ===================================================================== *)

Module JournalFacts.
Import Runtime Spec JsFacts RuntimeFacts Script StoreFacts Dreams DreamsFacts ListenFacts.
Import Reality Search SearchFacts Buttons ButtonFacts.

Lemma saveDailyEvent_run w text :
  authenticated w = true → rejection w = None →
  snd (saveDailyEvent text w)
  = said HideLoading
      (said (SetText "daily-event-input" "")
         (said (ShowMessage "success" "Daily event logged!")
            (setDocs eventColl (userSegment w)
               (<[fresh (dom (docs eventColl w (userSegment w)))
                  := Event.mk (Some text) (Some (serverTime w))]>
                  (docs eventColl w (userSegment w)))
               (answered (AddDoc (userSegment w) "daily_events") (said ShowLoading w))))).
Proof.
  intros Hauth Hr. unfold saveDailyEvent. rewrite run_get_bind, Hauth. cbn [negb].
  run. rewrite addDoc_run. frame. rewrite Hr. run. reflexivity.
Qed.

Lemma includes_itself s : Js.includes s s = true.
Proof. apply includes_spec. exists "", "". by rewrite append_empty. Qed.

(** What is logged can be searched.  For a signed-in user whose store
    answers and whose archived dreams carry their text: after the
    log-event button was pressed on a text that is not blank, a search for
    that same text shows the new event, with the text trimmed and the
    server's date, in every time scope that starts no later than that
    date. *)
Theorem logged_event_is_found (w : World) (typed : string) (scope : option string) :
  authenticated w = true →
  storeAnswers w →
  map_Forall (λ _ d, is_Some (Archived.dreamText d)) (docs archivedColl w (userSegment w)) →
  Js.trim typed ≠ "" →
  startDate w (scopeOf scope) ≤ serverTime w →
  ∃ id,
    docs eventColl w (userSegment w) !! id = None
    ∧ eventItem (id, Event.mk (Some (Js.trim typed)) (Some (serverTime w)))
      ∈ eventsShown (searched (snd (logDailyEventClick (Some typed) w)) typed scope).
Proof.
  intros Hauth Hstore Htext Htyped Hstart.
  exists (fresh (dom (docs eventColl w (userSegment w)))).
  split; [apply fresh_id_new|].
  unfold logDailyEventClick, trimmedValue.
  rewrite (proj2 (truthyStr_true _) Htyped).
  rewrite saveDailyEvent_run by (done || by apply rejection_None).
  set (e := Event.mk (Some (Js.trim typed)) (Some (serverTime w))).
  match goal with |- context [searched ?W _ _] => set (w1 := W) end.
  assert (Hu : userSegment w1 = userSegment w) by (unfold w1; by frame).
  assert (Hs : startDate w1 (scopeOf scope) = startDate w (scopeOf scope)).
  { unfold startDate, w1. by frame. }
  apply event_shown_iff.
  - unfold w1. by frame.
  - unfold w1. rewrite !storeAnswers_said.
    match goal with |- storeAnswers (setDocs ?c ?u ?m ?W) =>
      change (storeAnswers W)
    end.
    by apply answered_answers.
  - rewrite Hu. unfold w1. by readout.
  - intros H%toLowerCase_empty. done.
  - rewrite Hu. unfold w1. readout. rewrite decide_True by done. apply lookup_insert_eq.
  - rewrite Hs. unfold eventMatches, e. cbn [Event.eventText Event.timestamp lowerOrEmpty millis].
    rewrite (proj2 (truthyStr_true _) Htyped). unfold searchTermOf.
    rewrite includes_itself. cbn [andb]. by apply Z.leb_le.
Qed.

Lemma logged_event_run :
  ∃ id,
    docs eventColl Examples.searcher "u1" !! id = None
    ∧ eventItem (id, Event.mk (Some "Met Bob at noon") (Some Examples.now))
      ∈ eventsShown
          (searched (snd (logDailyEventClick (Some "  Met Bob at noon ") Examples.searcher))
             "  Met Bob at noon " (Some "last7Days")).
Proof.
  refine (logged_event_is_found Examples.searcher "  Met Bob at noon " (Some "last7Days")
            _ _ _ _ _).
  - reflexivity.
  - constructor.
  - apply (bool_decide_unpack _). vm_compute. exact I.
  - discriminate.
  - discriminate.
Defined.

End JournalFacts.

(* ===================================================================== *)
(** * The statistics tab                                                 *)
(* ===================================================================== *)

Module CountingFacts.
Import Runtime Spec JsFacts RuntimeFacts Script StoreFacts Dreams DreamsFacts ListenFacts.
Import Search SearchFacts Stats Counting ArchiveFacts.

Lemma getDocs_run {D} (c : Coll D) w :
  getDocs c w
  = match rejection w with
    | Some e => (Throw e, answered (GetDocs (userSegment w) (cname c)) w)
    | None => (Ok (snapshot c w (userSegment w)),
               answered (GetDocs (userSegment w) (cname c)) w)
    end.
Proof.
  unfold getDocs. rewrite run_get_bind.
  unfold mbind, M_bind, bind. rewrite remote_run.
  by destruct (rejection w).
Qed.

Lemma snapshot_length {D} (c : Coll D) w u :
  length (snapshot c w u) = size (docs c w u).
Proof.
  unfold snapshot. rewrite (Permutation_length (sort_perm _ _)).
  apply length_map_to_list.
Qed.

Lemma snapshot_matched w u :
  length (List.filter (λ r, Archived.matched (snd r)) (snapshot archivedColl w u))
  = length (List.filter (λ r, Archived.matched (snd r))
              (map_to_list (docs archivedColl w u))).
Proof.
  apply Permutation_length, List_filter_perm. unfold snapshot. apply sort_perm.
Qed.

Lemma countsWritten_app t t' : countsWritten (t ++ t') = countsWritten t ++ countsWritten t'.
Proof. unfold countsWritten. by rewrite omap_app. Qed.

Lemma rejection_next c w :
  rejection (answered c w)
  = match tail (storeOutcomes w) with Some e :: _ => Some e | _ => None end.
Proof. reflexivity. Qed.

Lemma matched_at_most {A} (f : A → bool) (l : list A) :
  (length (List.filter f l) ≤ length l)%nat.
Proof. induction l as [|x l IH]; simpl; [lia|]. destruct (f x); simpl; lia. Qed.

Ltac counted :=
  readout; refold; rewrite ?countsWritten_app; cbn [countsWritten omap list_omap app];
  rewrite ?snapshot_length, ?snapshot_matched, ?app_nil_r.

(** The statistics tab.  [loadStats] never throws and changes no
    document.  The counts it writes are, in this order, the numbers of
    archived dreams, of daily events and of conversations of the user and
    the number of archived dreams with a match (never more than the
    dreams): all four when the store answers, with no message, and
    otherwise only those that come before the read that was rejected, the
    later elements keeping what they showed. *)
Theorem stats_show_the_collection_sizes (w : World) :
  authenticated w = true →
  let w' := snd (loadStats w) in
  let u := userSegment w in
  fst (loadStats w) = Ok tt
  ∧ store w' = store w
  ∧ (∃ n, countsWritten (trace w') = countsWritten (trace w) ++ firstn n (totals w u))
  ∧ (storeAnswers w →
     countsWritten (trace w') = countsWritten (trace w) ++ totals w u
     ∧ messages (trace w') = messages (trace w))
  ∧ (length (List.filter (λ r, Archived.matched (snd r))
               (map_to_list (docs archivedColl w u)))
     ≤ size (docs archivedColl w u))%nat.
Proof.
  intros Hauth. cbv zeta.
  destruct (loadStats w) as [r w'] eqn:Hrun. cbv beta iota delta [fst snd]. revert Hrun.
  unfold loadStats. rewrite run_get_bind, Hauth. cbn [negb].
  run. rewrite getDocs_run. frame.
  assert (Hle : (length (List.filter (λ r, Archived.matched (snd r))
               (map_to_list (docs archivedColl w (userSegment w))))
     ≤ size (docs archivedColl w (userSegment w)))%nat).
  { rewrite <- length_map_to_list. apply matched_at_most. }
  unfold storeAnswers, rejection at 1. frame.
  destruct (storeOutcomes w) as [|[e1|] rest] eqn:Hso.
  - run. rewrite getDocs_run. frame. rewrite rejection_next. frame. rewrite Hso. cbn [tail].
    run. rewrite getDocs_run. frame. rewrite rejection_next. frame.
    rewrite storeOutcomes_answered. frame. rewrite Hso. cbn [tail].
    run. intros [= <- <-]. split; [done|]. split; [by readout|].
    split; [exists 4%nat; by counted|]. split; [|done].
    intros _. split; [by counted|by readout].
  - run. intros [= <- <-]. split; [done|]. split; [by readout|].
    split; [exists 0%nat; cbn [firstn]; by counted|]. split; [|done].
    intros H. by inversion H.
  - run. rewrite getDocs_run. frame. rewrite rejection_next. frame. rewrite Hso. cbn [tail].
    destruct rest as [|[e2|] rest].
    + run. rewrite getDocs_run. frame. rewrite rejection_next. frame.
      rewrite storeOutcomes_answered. frame. rewrite Hso. cbn [tail].
      run. intros [= <- <-]. split; [done|]. split; [by readout|].
      split; [exists 4%nat; by counted|]. split; [|done].
      intros _. split; [by counted|by readout].
    + run. intros [= <- <-]. split; [done|]. split; [by readout|].
      split; [exists 1%nat; by counted|]. split; [|done].
      intros H. inversion H as [|? ? _ H']. by inversion H'.
    + run. rewrite getDocs_run. frame. rewrite rejection_next. frame.
      rewrite storeOutcomes_answered. frame. rewrite Hso. cbn [tail].
      destruct rest as [|[e3|] rest].
      * run. intros [= <- <-]. split; [done|]. split; [by readout|].
        split; [exists 4%nat; by counted|]. split; [|done].
        intros _. split; [by counted|by readout].
      * run. intros [= <- <-]. split; [done|]. split; [by readout|].
        split; [exists 2%nat; by counted|]. split; [|done].
        intros H. inversion H as [|? ? _ H']. inversion H' as [|? ? _ H'']. by inversion H''.
      * run. intros [= <- <-]. split; [done|]. split; [by readout|].
        split; [exists 4%nat; by counted|]. split; [|done].
        intros _. split; [by counted|by readout].
Qed.

Lemma stats_run : fst (loadStats Examples.searcher) = Ok tt.
Proof.
  refine (proj1 (stats_show_the_collection_sizes Examples.searcher _)).
  reflexivity.
Defined.

End CountingFacts.

(* ===================================================================== *)
(** * The lists of the Dreams tab                                        *)
(* ===================================================================== *)

Module ListFacts.
Import Runtime Spec JsFacts RuntimeFacts Script StoreFacts Dreams DreamsFacts ListenFacts.
Import SearchFacts RealityFacts Counting CountingFacts.


(** [saveAnalyzedDream] never throws.  For a signed-in user whose write
    is accepted, the archive of the user gains one dream under an
    identifier no archived dream had: the text, the analysis and the title
    given, the server's date and an empty match; nothing else of the store
    changes and one success message is shown.  Otherwise the store is as
    it was and one error message is shown. *)
Theorem saveAnalyzedDream_archives_one_unmatched_dream (w : World)
    (dreamText : string) (analysisJsonString : Js.JsonText) (dreamTitle : string) :
  fst (saveAnalyzedDream dreamText analysisJsonString dreamTitle w) = Ok tt
  ∧ if authenticated w && accepted w then
      (∃ id,
         docs archivedColl w (userSegment w) !! id = None
         ∧ docs archivedColl (snd (saveAnalyzedDream dreamText analysisJsonString dreamTitle w))
             (userSegment w)
           = <[id := Archived.mk (Some dreamText) analysisJsonString (Some dreamTitle)
                       (Some (serverTime w)) (Some "")]>
               (docs archivedColl w (userSegment w)))
      ∧ otherDocsKept "archived_dreams" (userSegment w) w
          (snd (saveAnalyzedDream dreamText analysisJsonString dreamTitle w))
      ∧ messages (trace (snd (saveAnalyzedDream dreamText analysisJsonString dreamTitle w)))
        = messages (trace w) ++ [("success", "Dream analyzed and archived successfully!")]
    else
      store (snd (saveAnalyzedDream dreamText analysisJsonString dreamTitle w)) = store w
      ∧ ∃ message,
          messages (trace (snd (saveAnalyzedDream dreamText analysisJsonString dreamTitle w)))
          = messages (trace w) ++ [("error", message)].
Proof.
  unfold saveAnalyzedDream, accepted. rewrite run_get_bind.
  destruct (authenticated w); cbn [negb andb]; [|readout; eauto].
  run. rewrite addDoc_run. frame.
  destruct (rejection w) as [e|]; readout; [eauto|].
  split; [done|].
  split; [eexists; split; [apply fresh_id_new|by rewrite decide_True]|].
  split; [others|done].
Qed.




End ListFacts.

(* ===================================================================== *)
(** * The Analysis tab                                                   *)
(* ===================================================================== *)

Module AnalysisFacts.
Import Runtime Spec JsFacts RuntimeFacts Script StoreFacts Dreams DreamsFacts ListenFacts.
Import Search SearchFacts RealityFacts AnalysisTab AnalysisSpec.

Lemma getDocsDesc_run {D} (c : Coll D) ts w :
  getDocsDesc c ts w
  = match rejection w with
    | Some e => (Throw e, answered (GetDocs (userSegment w) (cname c)) w)
    | None => (Ok (snapshotDesc c ts w (userSegment w)),
               answered (GetDocs (userSegment w) (cname c)) w)
    end.
Proof.
  unfold getDocsDesc. rewrite run_get_bind.
  unfold mbind, M_bind, bind. rewrite remote_run.
  by destruct (rejection w).
Qed.

Lemma filter_all {A} (l : list A) : List.filter (λ _, true) l = l.
Proof. induction l as [|x l IH]; [done|]. simpl. by rewrite IH. Qed.

Lemma loadDreamsForAnalysisTab_store sel today old :
  keeps (same store) (loadDreamsForAnalysisTab sel today old).
Proof.
  unfold loadDreamsForAnalysisTab, inScope, holisticView, listSingleDreams, loadFailed,
    renderable.
  keeps_go.
Qed.

Lemma inScope_result today scope fetched w :
  fst (inScope today scope fetched w)
  = Ok (match window w today scope with
        | Some keep => Some (List.filter keep fetched)
        | None => None
        end).
Proof.
  unfold inScope, window, holisticView. rewrite run_get_bind.
  repeat (destruct (String.eqb scope _); [by rewrite ?filter_all|]). done.
Qed.

Lemma inScope_world today scope fetched w :
  ∃ effects, snd (inScope today scope fetched w) = set_trace (trace w ++ effects) w.
Proof.
  unfold inScope, holisticView. rewrite run_get_bind.
  repeat (destruct (String.eqb scope _); [run; eexists; unfold said; cbn; rewrite <- ?app_assoc; reflexivity|]).
  run; eexists; unfold said; cbn; rewrite <- ?app_assoc; reflexivity.
Qed.

Lemma window_said e w today scope : window (said e w) today scope = window w today scope.
Proof. reflexivity. Qed.

Lemma window_answered c w today scope :
  window (answered c w) today scope = window w today scope.
Proof. reflexivity. Qed.

Lemma newestFirst_perm l : newestFirst l ≡ₚ l.
Proof. apply sort_perm. Qed.

(** The Analysis tab loads the dreams of the selected scope.
    [loadDreamsForAnalysisTab] never throws and changes no document.  For
    a signed-in user whose read is accepted and one of the five scopes,
    the dreams kept for the analysis are exactly the archived dreams of
    the user dated since the start of the scope (today's midnight, seven
    or thirty days before now, this day of last year; all of them for
    all-time; a dream without a date counts as dated at the epoch), the
    latest first, even when the list of last night cannot be rendered.
    When the user is not signed in, the read is rejected or the scope is
    none of the five, the dreams kept are those of the previous call. *)
Theorem analysis_tab_loads_the_window (w : World) (timeScopeSelect : option string)
    (todayStartMs : Z) (dreamsToAnalyze : list Fetched) :
  let out := loadDreamsForAnalysisTab timeScopeSelect todayStartMs dreamsToAnalyze w in
  store (snd out) = store w
  ∧ ∃ dreams,
      fst out = Ok dreams
      ∧ if authenticated w && accepted w then
          match window w todayStartMs (scopeOf timeScopeSelect) with
          | Some keep =>
              dreams
              ≡ₚ List.filter keep (map_to_list (docs archivedColl w (userSegment w)))
              ∧ StronglySorted
                  (λ a b, millis (Archived.timestamp (snd b))
                          ≤ millis (Archived.timestamp (snd a))) dreams
          | None => dreams = dreamsToAnalyze
          end
        else dreams = dreamsToAnalyze.
Proof.
  cbv zeta. split; [apply loadDreamsForAnalysisTab_store|].
  unfold loadDreamsForAnalysisTab, accepted. rewrite run_get_bind.
  fold (scopeOf timeScopeSelect).
  destruct (authenticated w); cbn [negb andb]; [|run; by eexists].
  run. rewrite getDocsDesc_run. frame.
  destruct (rejection w) as [e|]; [unfold loadFailed; run; by eexists|].
  match goal with |- context [inScope ?t ?s ?l ?W] =>
    pose proof (inScope_result t s l W) as Hr;
    rewrite window_answered, !window_said in Hr;
    destruct (inScope t s l W) as [r W1]
  end.
  cbn [fst] in Hr. subst r.
  destruct (window w todayStartMs (scopeOf timeScopeSelect)) as [keep|];
    [|run; by eexists].
  assert (Hkept :
    newestFirst (List.filter keep
      (snapshotDesc archivedColl Archived.timestamp w (userSegment w)))
    ≡ₚ List.filter keep (map_to_list (docs archivedColl w (userSegment w)))
    ∧ StronglySorted
        (λ a b : Fetched, millis (Archived.timestamp (snd b))
                          ≤ millis (Archived.timestamp (snd a)))
        (newestFirst (List.filter keep
           (snapshotDesc archivedColl Archived.timestamp w (userSegment w))))).
  { split.
    - rewrite newestFirst_perm. apply List_filter_perm, snapshotDesc_perm.
    - apply (sorted_newerFirst (λ r : Fetched, Archived.timestamp (snd r))). }
  unfold attempt, loadFailed. run.
  destruct (scopeOf timeScopeSelect =? "lastNight")%string.
  - match goal with |- context [listSingleDreams ?l ?W] =>
      destruct (listSingleDreams l W) as [[[]|e] W2]
    end; run; refold; by eexists.
  - run. refold. by eexists.
Qed.

End AnalysisFacts.

Module HolisticFacts.
Import Runtime Spec JsFacts RuntimeFacts Script StoreFacts Dreams DreamsFacts ListenFacts.
Import Search SearchFacts MatchFacts ArchiveFacts ReadFacts JournalFacts.
Import AnalysisTab AnalysisSpec AnalysisFacts.

Lemma contains_refl s : contains s s.
Proof. exists "", "". by rewrite append_empty. Qed.

Lemma contains_trans s t u : contains s t → contains t u → contains s u.
Proof.
  intros (a & b & ->) (c & d & ->). exists (a +:+ c), (d +:+ b).
  by rewrite !append_assoc.
Qed.

Lemma contains_left s t u : contains s u → contains (s +:+ t) u.
Proof. intros (a & b & ->). exists a, (b +:+ t). by rewrite !append_assoc. Qed.

Lemma contains_right s t u : contains t u → contains (s +:+ t) u.
Proof. intros (a & b & ->). exists (s +:+ a), b. by rewrite !append_assoc. Qed.

Lemma join_contains separator parts p :
  In p parts → contains (join separator parts) p.
Proof.
  induction parts as [|q parts IH]; [done|]. intros [->|Hin].
  - destruct parts; [apply contains_refl|]. apply contains_left, contains_refl.
  - destruct parts as [|q' parts]; [done|].
    change (join separator (q :: q' :: parts))
      with (q +:+ separator +:+ join separator (q' :: parts)).
    by apply contains_right, contains_right, IH.
Qed.

Lemma holisticEntry_contains d :
  contains (holisticEntry d) (orUndefined (Archived.dreamText (snd d))).
Proof. unfold holisticEntry. apply contains_right, contains_right, contains_refl. Qed.

Lemma append_truthy s t : Js.truthyStr t = true → Js.truthyStr (s +:+ t) = true.
Proof. intros H. destruct s; [done|reflexivity]. Qed.

Lemma holistic_text_truthy d dreams :
  Js.truthyStr (join holisticSeparator (map holisticEntry (d :: dreams))) = true.
Proof.
  assert (He : ∀ x, Js.truthyStr (holisticEntry x) = true).
  { intros x. unfold holisticEntry. by apply append_truthy. }
  cbn [map]. destruct (map holisticEntry dreams) as [|q l]; cbn [join]; [apply He|].
  specialize (He d). destruct (holisticEntry d); [by simpl in He|reflexivity].
Qed.

Lemma displayAnalysis_quiet out w :
  remoteCalls (trace (snd (displayAnalysis out w))) = remoteCalls (trace w).
Proof.
  unfold displayAnalysis. run.
  destruct (outputFormat w) as [fmt|] eqn:Hf; frame; rewrite Hf; [|by readout].
  destruct (String.eqb fmt "summary"); [|destruct (String.eqb fmt "expanded")];
    (destruct out as [t|]; cbn [option_bind]; [destruct (Js.parsed t) as [[]|]|]);
    by readout.
Qed.

Lemma performDreamAnalysis_calls text title forArchiving w :
  authenticated w = true →
  remoteCalls (trace (snd (performDreamAnalysis text title forArchiving w)))
  = remoteCalls (trace w) ++ [Fetch apiUrl (fullDreamText text title)].
Proof.
  intros Hauth. unfold performDreamAnalysis. rewrite run_get_bind, Hauth. cbn [negb].
  run. rewrite fetchJson_run. frame.
  destruct (fetchOutcomes w) as [|[e|st [e| |res]] rest]; try by readout.
  run. destruct (firstPart res) as [part|]; [|by readout].
  destruct forArchiving; [by readout|].
  match goal with |- context [displayAnalysis ?out ?W] =>
    pose proof (displayAnalysis_quiet out W) as Hq;
    destruct (displayAnalysis out W) as [[[]|e] W2]
  end; cbn [snd] in Hq; readout; rewrite Hq; by readout.
Qed.

Lemma performDreamAnalysis_returns text title forArchiving w :
  ∃ a, fst (performDreamAnalysis text title forArchiving w) = Ok a.
Proof.
  unfold performDreamAnalysis. rewrite run_get_bind.
  destruct (authenticated w); cbn [negb]; [|run; by eexists].
  run. rewrite fetchJson_run. frame.
  destruct (fetchOutcomes w) as [|[e|st [e| |res]] rest]; try (run; by eexists).
  run. destruct (firstPart res) as [part|]; [|run; by eexists].
  destruct forArchiving; [run; by eexists|].
  match goal with |- context [displayAnalysis ?out ?W] =>
    destruct (displayAnalysis out W) as [[[]|e] W2]
  end; run; by eexists.
Qed.

(** The analyze button of the Analysis tab, for a signed-in user with an
    output format selected.  It never throws and changes no document.
    Under the last-night scope, or with no dream loaded, it sends nothing
    and shows one information message.  Otherwise it sends one request to
    the endpoint, whose dream text is the entries of the loaded dreams, in
    their order, joined by the separator: the text of every loaded dream
    is in it. *)
Theorem holistic_analysis_sends_every_dream (w : World) (timeScopeSelect : option string)
    (dreamsToAnalyze : list Fetched) (format : string) :
  authenticated w = true →
  outputFormat w = Some format →
  let w' := snd (analyzeClick timeScopeSelect dreamsToAnalyze w) in
  fst (analyzeClick timeScopeSelect dreamsToAnalyze w) = Ok tt
  ∧ store w' = store w
  ∧ if String.eqb (scopeOf timeScopeSelect) "lastNight"
       || (length dreamsToAnalyze =? 0)%nat
    then
      remoteCalls (trace w') = remoteCalls (trace w)
      ∧ ∃ message, messages (trace w') = messages (trace w) ++ [("info", message)]
    else
      remoteCalls (trace w')
      = remoteCalls (trace w)
        ++ [Fetch apiUrl (join holisticSeparator (map holisticEntry dreamsToAnalyze))]
      ∧ ∀ d, In d dreamsToAnalyze →
             contains (join holisticSeparator (map holisticEntry dreamsToAnalyze))
               (orUndefined (Archived.dreamText (snd d))).
Proof.
  intros Hauth Hformat. cbv zeta.
  unfold analyzeClick. fold (scopeOf timeScopeSelect). rewrite run_get_bind, Hformat.
  destruct (String.eqb (scopeOf timeScopeSelect) "lastNight"); cbn [orb].
  { destruct dreamsToAnalyze; readout; (split; [done|]); (split; [done|]);
      (split; [done|]); by eexists. }
  destruct dreamsToAnalyze as [|d dreams]; cbn [length Nat.eqb].
  { readout. split; [done|]. split; [done|]. split; [done|]. by eexists. }
  rewrite holistic_text_truthy. cbn [negb].
  set (text := join holisticSeparator (map holisticEntry (d :: dreams))).
  destruct (performDreamAnalysis_returns text "" false w) as [a Ha].
  pose proof (performDreamAnalysis_calls text "" false w Hauth) as Hcalls.
  pose proof (performDreamAnalysis_store text "" false w) as Hstore.
  unfold same in Hstore.
  unfold mbind, M_bind, bind.
  destruct (performDreamAnalysis text "" false w) as [r W]. cbn [fst snd] in *. subst r.
  cbn [ret fst snd]. split; [done|]. split; [done|]. split; [done|].
  intros x Hx. eapply contains_trans; [|apply holisticEntry_contains].
  apply join_contains. by apply in_map.
Qed.

Lemma holistic_analysis_run :
  fst (analyzeClick (Some "allTime") [("d1", Examples.flying)] Examples.searcher) = Ok tt.
Proof.
  refine (proj1 (holistic_analysis_sends_every_dream Examples.searcher (Some "allTime")
                   [("d1", Examples.flying)] "summary" _ _)).
  - reflexivity.
  - reflexivity.
Defined.

End HolisticFacts.

Module SingleAnalysisFacts.
Import Runtime Spec JsFacts RuntimeFacts Script StoreFacts Dreams DreamsFacts ListenFacts.
Import SingleAnalysis.

(** The stored analysis of a dream is shown as it was shown when the
    dream was analysed.  With an output format selected,
    [displayIndividualAnalysis] never throws, sends nothing, changes no
    document and ends by revealing the analysis output; for an analysis
    text that is not empty and parses to an object it does exactly what
    the display branch of [performDreamAnalysis] does on that text.  With
    no format selected it throws. *)
Theorem stored_analysis_is_shown_as_analysed (dreamData : Archived.t) (w : World) :
  let shown := displayIndividualAnalysis dreamData w in
  (is_Some (outputFormat w) →
   fst shown = Ok tt
   ∧ store (snd shown) = store w
   ∧ remoteCalls (trace (snd shown)) = remoteCalls (trace w)
   ∧ ∃ effects,
       trace (snd shown)
       = trace w ++ effects ++ [SetHidden "dream-analysis-output" false])
  ∧ (∀ fs, Js.raw (Archived.analysisText dreamData) ≠ "" →
           Js.parsed (Archived.analysisText dreamData) = Some (Js.JObj fs) →
           shown = displayAnalysis (Some (Archived.analysisText dreamData)) w)
  ∧ (outputFormat w = None → ∃ e, fst shown = Throw e).
Proof.
  cbv zeta. unfold displayIndividualAnalysis. run. frame.
  split; [|split].
  - intros [fmt Hf]. rewrite Hf.
    destruct (Js.truthyStr (Js.raw (Archived.analysisText dreamData))); cbn [negb];
      [destruct (Js.parsed (Archived.analysisText dreamData)) as [a|];
       [destruct (String.eqb fmt "summary"); [|destruct (String.eqb fmt "expanded")];
        destruct a|]|];
      readout; (split; [done|]); (split; [done|]); (split; [done|]);
      first [by eexists [] | by eexists [_] | by eexists [_; _] | by eexists [_; _; _]].
  - intros fs Hraw Hparsed. apply truthyStr_true in Hraw. rewrite Hraw. cbn [negb].
    unfold displayAnalysis. run. frame.
    destruct (outputFormat w) as [fmt|]; [|done].
    cbn [option_bind]. rewrite Hparsed.
    by destruct (String.eqb fmt "summary"); [|destruct (String.eqb fmt "expanded")]; run.
  - intros ->. by eexists.
Qed.

End SingleAnalysisFacts.
